(** * Android-Rehoster: classification, matching and injection pipeline

    A shallow embedding of the post-build injector
    ([aosp_module_type.py], [common.py], [aosp_post_build_injector.py],
    [aosp_apex_injector.py]) together with the properties that the
    specification states about it.

    Conventions of the embedding:
    - Python [str] values are [string]s; a character stands for the code
      point of the same number (0..255).
    - The file system is a finite map from full paths to file contents;
      a path that is not a key cannot be opened and does not exist.
    - A Python exception is a value of type [exn] carried by [result];
      [SystemExit], which [exit] raises, is no [Exception] and passes
      every [except Exception].
    - Creating, writing or removing a file succeeds when the path allows
      it in the map; a failure for other reasons is an outcome of an
      oracle.
    - The tasks of the worker pool run one after the other, each of them
      to its end.
    - External tools (signing, packaging, extraction, ...) are fields of
      records of oracles: their outcome is an input of the model. *)

From stdpp Require Import gmap strings list pretty.
From Stdlib Require Import ZArith Ascii String Bool Lia.
From Stdlib Require Strings.Byte.

Local Open Scope string_scope.
Local Open Scope list_scope.

(** ** Python string and path primitives *)

Module PyStr.

(** [s.startswith(pre)] *)
Fixpoint startswith (pre s : string) : bool :=
  match pre, s with
  | EmptyString, _ => true
  | String _ _, EmptyString => false
  | String a pre', String b s' => Ascii.eqb a b && startswith pre' s'
  end.

(** [kw in s] for two strings *)
Fixpoint contains (kw s : string) : bool :=
  startswith kw s
  || match s with
     | EmptyString => false
     | String _ s' => contains kw s'
     end.

(** [s.endswith(suf)] *)
Fixpoint endswith (suf s : string) : bool :=
  String.eqb s suf
  || match s with
     | EmptyString => false
     | String _ s' => endswith suf s'
     end.

(** [x in l] for a list of strings *)
Definition str_in (x : string) (l : list string) : bool :=
  existsb (String.eqb x) l.

(** [any(keyword in s for keyword in l)] *)
Definition any_keyword_in (l : list string) (s : string) : bool :=
  existsb (fun keyword => contains keyword s) l.

(** [all(keyword not in s for keyword in l)] *)
Definition all_keyword_not_in (l : list string) (s : string) : bool :=
  forallb (fun keyword => negb (contains keyword s)) l.

(** Worker of [replace]: [skip] counts the characters of a match that
    are still to be dropped. *)
Fixpoint replace_from (old new : string) (skip : nat) (s : string) : string :=
  match s with
  | EmptyString => EmptyString
  | String c s' =>
      match skip with
      | S k => replace_from old new k s'
      | O =>
          if startswith old s
          then new +:+ replace_from old new (String.length old - 1) s'
          else String c (replace_from old new O s')
      end
  end.

(** [s.replace("", new)]: [new] before every character and at the end *)
Fixpoint intersperse_all (new s : string) : string :=
  match s with
  | EmptyString => new
  | String c s' => new +:+ String c (intersperse_all new s')
  end.

(** [s.replace(old, new)] *)
Definition replace (old new s : string) : string :=
  match old with
  | EmptyString => intersperse_all new s
  | _ => replace_from old new O s
  end.

(** [str.isspace] on one character (code points below 256) *)
Definition is_space (c : ascii) : bool :=
  let n := nat_of_ascii c in
  (Nat.leb 9 n && Nat.leb n 13) || (Nat.leb 28 n && Nat.leb n 32)
  || Nat.eqb n 133 || Nat.eqb n 160.

Fixpoint lstrip (s : string) : string :=
  match s with
  | EmptyString => EmptyString
  | String c s' => if is_space c then lstrip s' else s
  end.

Fixpoint rstrip (s : string) : string :=
  match s with
  | EmptyString => EmptyString
  | String c s' =>
      let r := rstrip s' in
      if is_space c && String.eqb r EmptyString then EmptyString
      else String c r
  end.

(** [s.strip()] *)
Definition strip (s : string) : string := rstrip (lstrip s).

(** [s.rstrip("/")] *)
Fixpoint rstrip_sep (s : string) : string :=
  match s with
  | EmptyString => EmptyString
  | String c s' =>
      let r := rstrip_sep s' in
      if Ascii.eqb c "/" && String.eqb r EmptyString then EmptyString
      else String c r
  end.

(** [s.lower()] on one character (code points below 256) *)
Definition lower_char (c : ascii) : ascii :=
  let n := nat_of_ascii c in
  if (Nat.leb 65 n && Nat.leb n 90)
     || (Nat.leb 192 n && Nat.leb n 222 && negb (Nat.eqb n 215))
  then ascii_of_nat (n + 32) else c.

Fixpoint lower (s : string) : string :=
  match s with
  | EmptyString => EmptyString
  | String c s' => String (lower_char c) (lower s')
  end.

(** [(p[:i], p[i:])] with [i = p.rfind(c) + 1] *)
Fixpoint split_after_last (c : ascii) (p : string) : string * string :=
  match p with
  | EmptyString => (EmptyString, EmptyString)
  | String a p' =>
      let (h, t) := split_after_last c p' in
      if Ascii.eqb a c then (String a h, t)
      else if String.eqb h EmptyString then (EmptyString, String a t)
      else (String a h, t)
  end.

Fixpoint all_char (c : ascii) (s : string) : bool :=
  match s with
  | EmptyString => true
  | String a s' => Ascii.eqb a c && all_char c s'
  end.

(** [os.path.basename] *)
Definition basename (p : string) : string := snd (split_after_last "/" p).

(** [os.path.dirname] *)
Definition dirname (p : string) : string :=
  let head := fst (split_after_last "/" p) in
  if negb (String.eqb head EmptyString) && negb (all_char "/" head)
  then rstrip_sep head else head.

(** [s[:-1]] *)
Fixpoint drop_last (s : string) : string :=
  match s with
  | EmptyString => EmptyString
  | String _ EmptyString => EmptyString
  | String c s' => String c (drop_last s')
  end.

(** [os.path.splitext]: the extension starts at the last dot of the last
    path component, unless only dots precede it there. *)
Definition splitext (p : string) : string * string :=
  let (head, name) := split_after_last "/" p in
  let (pre_dot, post) := split_after_last "." name in
  if String.eqb pre_dot EmptyString then (p, EmptyString)
  else
    let pre := drop_last pre_dot in
    if all_char "." pre then (p, EmptyString)
    else (head +:+ pre, String "." post).

(** [os.path.join(a, b)] *)
Definition path_join (a b : string) : string :=
  if startswith "/" b then b
  else if String.eqb a EmptyString || endswith "/" a then a +:+ b
  else a +:+ "/" +:+ b.

(** [re.sub(r'tzdata\d+', 'tzdata', s)]: the digits that follow an
    occurrence of [tzdata] are dropped. [skip] counts the remaining
    characters of the occurrence, [digits] tells that the scan stands
    right behind one. *)
Definition is_digit (c : ascii) : bool :=
  let n := nat_of_ascii c in Nat.leb 48 n && Nat.leb n 57.

Fixpoint sub_tzdata_from (skip : nat) (digits : bool) (s : string) : string :=
  match s with
  | EmptyString => EmptyString
  | String c s' =>
      match skip with
      | S (S k) => String c (sub_tzdata_from (S k) false s')
      | S O => String c (sub_tzdata_from O true s')
      | O =>
          if digits && is_digit c then sub_tzdata_from O true s'
          else if startswith "tzdata" s
               then String c (sub_tzdata_from 5 false s')
               else String c (sub_tzdata_from O false s')
      end
  end.

Definition sub_tzdata (s : string) : string := sub_tzdata_from O false s.

End PyStr.


(** ** Exceptions, logging and the file system *)

Inductive exn : Type :=
| TypeError (msg : string)
| ValueError (msg : string)
| OSError (msg : string)
| PyException (msg : string)
| SystemExit (code : Z).

(** [isinstance(e, Exception)]: [SystemExit] derives from [BaseException]
    only. *)
Definition is_exception (e : exn) : bool :=
  match e with
  | SystemExit _ => false
  | _ => true
  end.

Inductive result (A : Type) : Type :=
| Ok (a : A)
| Raise (e : exn).
Arguments Ok {A} a.
Arguments Raise {A} e.

Definition is_ok {A} (r : result A) : bool :=
  match r with Ok _ => true | Raise _ => false end.

Inductive LogLevel : Type := DEBUG | INFO | WARNING | ERROR.

(** A log record: the level and the fixed head of the message. *)
Definition LogRecord : Type := LogLevel * string.

Definition is_warning (r : LogRecord) : bool :=
  match fst r with WARNING => true | _ => false end.

(** A computation that emits log records. *)
Definition Logged (A : Type) : Type := A * list LogRecord.

Definition lret {A} (a : A) : Logged A := (a, []).

Definition lbind {A B} (m : Logged A) (f : A -> Logged B) : Logged B :=
  let (b, l') := f (fst m) in (b, snd m ++ l').

Definition emit {A} (a : A) (lv : LogLevel) (text : string) : Logged A :=
  (a, [(lv, text)]).

Abbreviation FS := (gmap string (list Byte.byte)).

(** [os.path.exists] *)
Definition path_exists (fs : FS) (p : string) : bool :=
  match fs !! p with Some _ => true | None => false end.

#[global] Instance byte_eq_dec : EqDecision Byte.byte := Byte.byte_eq_dec.

Definition bytes_eqb (a b : list Byte.byte) : bool :=
  bool_decide (a = b).

(** [b'\x7fELF'] *)
Definition ELF_MAGIC : list Byte.byte :=
  [Byte.x7f; Byte.x45; Byte.x4c; Byte.x46].

(** [common.is_elf_binary]: any failure to open or read gives [False]. *)
Definition is_elf_binary (fs : FS) (file_path : string) : bool :=
  match fs !! file_path with
  | Some content => bytes_eqb (take 4 content) ELF_MAGIC
  | None => false
  end.

(** ** The rule set (POST_INJECTOR_CONFIG) *)

Record PostInjectorConfig : Type := {
  SKIPPED_BINARY_LIST : list string;
  SKIPPED_FILE_ENDING_LIST : list string;
  ALLOW_ONLY_EXTENSION_LIST : list string;
  SKIPPED_FILE_EXTENSION_LIST_GENERAL : list string;
  SKIPPED_KEYWORD_LIST : list string;
  SKIPPED_APEX_KEYWORD_LIST : list string;
  SKIPPED_APP_KEYWORDLIST : list string;
  SKIPPED_APP_LIST : list string;
  ALLOWED_APP_INJECTION_KEYWORD : list string;
  DISABLE_BINARY_INJECTION : bool;
  ENABLE_SHARED_LIBRARIES_INJECTION_IF_NOT_EXISTS : bool;
  SKIPPED_SHARED_LIBRARIES_EVEN_IF_NOT_EXISTS_LIST : list string;
  SKIPPED_KEYWORD_SHARED_LIBRARIES_EVEN_IF_NOT_EXISTS_LIST : list string;
  ENABLE_ALLOW_APEX_INJECT_ALWAYS_KEYWORD_NOT_IN_LIST : bool;
  ALLOW_APEX_INJECT_ALWAYS_KEYWORD_NOT_IN_LIST : list string;
  ALLOW_APEX_INJECT_ALWAYS_KEYWORD_LIST : list string;
  DISALLOW_APP_INJECTION : bool;
  DISABLE_JAVA_LIBRARIES_INJECTION : bool;
  ALLOW_ALL_JAVA_LIBRARIES_INJECTION : bool;
  DISABLE_MISC_INJECTION : bool;
  ALLOW_APP_INJECT_ALWAYS : list string;
  ALLOW_APP_INJECT_ALWAYS_KEYWORD_LIST : list string;
  ALLOW_FILE_INJECT_ALWAYS : list string;
  ALLOW_FILE_INJECT_ALWAYS_KEYWORD_LIST : list string;
  SKIPPED_FILE_EXTENSION_LIST_INDIRECT_INJECTION : list string;
  INDIRECT_INJECTION_FILE_MAPPING : gmap string string;
  ALLOW_APEX_INJECTION_MERGE : bool;
  ALLOW_APEX_MERGE_KEYWORD_LIST : list string;
  APEX_BINARY_ISOLATED_NAMESPACE_LIST : list string
}.

(** A rule set in which every list is empty and every toggle is off. *)
Definition empty_config : PostInjectorConfig := {|
  SKIPPED_BINARY_LIST := [];
  SKIPPED_FILE_ENDING_LIST := [];
  ALLOW_ONLY_EXTENSION_LIST := [];
  SKIPPED_FILE_EXTENSION_LIST_GENERAL := [];
  SKIPPED_KEYWORD_LIST := [];
  SKIPPED_APEX_KEYWORD_LIST := [];
  SKIPPED_APP_KEYWORDLIST := [];
  SKIPPED_APP_LIST := [];
  ALLOWED_APP_INJECTION_KEYWORD := [];
  DISABLE_BINARY_INJECTION := false;
  ENABLE_SHARED_LIBRARIES_INJECTION_IF_NOT_EXISTS := false;
  SKIPPED_SHARED_LIBRARIES_EVEN_IF_NOT_EXISTS_LIST := [];
  SKIPPED_KEYWORD_SHARED_LIBRARIES_EVEN_IF_NOT_EXISTS_LIST := [];
  ENABLE_ALLOW_APEX_INJECT_ALWAYS_KEYWORD_NOT_IN_LIST := false;
  ALLOW_APEX_INJECT_ALWAYS_KEYWORD_NOT_IN_LIST := [];
  ALLOW_APEX_INJECT_ALWAYS_KEYWORD_LIST := [];
  DISALLOW_APP_INJECTION := false;
  DISABLE_JAVA_LIBRARIES_INJECTION := false;
  ALLOW_ALL_JAVA_LIBRARIES_INJECTION := false;
  DISABLE_MISC_INJECTION := false;
  ALLOW_APP_INJECT_ALWAYS := [];
  ALLOW_APP_INJECT_ALWAYS_KEYWORD_LIST := [];
  ALLOW_FILE_INJECT_ALWAYS := [];
  ALLOW_FILE_INJECT_ALWAYS_KEYWORD_LIST := [];
  SKIPPED_FILE_EXTENSION_LIST_INDIRECT_INJECTION := [];
  INDIRECT_INJECTION_FILE_MAPPING := ∅;
  ALLOW_APEX_INJECTION_MERGE := false;
  ALLOW_APEX_MERGE_KEYWORD_LIST := [];
  APEX_BINARY_ISOLATED_NAMESPACE_LIST := []
|}.

(** ** Module classifier ([aosp_module_type.py]) *)

Module Classifier.
Import PyStr.

Definition is_file_inject_allowed (c : PostInjectorConfig) (file_name : string) : bool :=
  if str_in file_name (SKIPPED_BINARY_LIST c) then false
  else if existsb (fun file_ending => endswith file_ending file_name)
                  (SKIPPED_FILE_ENDING_LIST c)
       then false
       else true.

Definition is_file_extension_allowed (c : PostInjectorConfig) (file_extension : string) : bool :=
  if Nat.ltb 0 (List.length (ALLOW_ONLY_EXTENSION_LIST c))
     && negb (str_in file_extension (ALLOW_ONLY_EXTENSION_LIST c))
  then false
  else if str_in file_extension (SKIPPED_FILE_EXTENSION_LIST_GENERAL c) then false
       else true.

Definition is_file_path_allowed (c : PostInjectorConfig) (file_path : string) : bool :=
  if any_keyword_in (SKIPPED_KEYWORD_LIST c) file_path then false else true.

Definition is_apex_file_path_allowed (c : PostInjectorConfig) (file_path : string) : bool :=
  if any_keyword_in (SKIPPED_APEX_KEYWORD_LIST c) file_path then false else true.

Definition is_app_already_injected (file_name : string) (pre_injector_package_list : list string) : bool :=
  if str_in file_name pre_injector_package_list then true else false.

(** The [if]/[elif] chain of lines 77-96: the tentative module type and
    the file name the later rules work with. *)
Definition base_module_type (fs : FS) (parent_dir source_file_path file_extension file_name : string)
  : string * string :=
  if String.eqb file_extension ""
     && (is_elf_binary fs source_file_path
         || contains "bin" parent_dir || contains "xbin" parent_dir)
  then ("EXECUTABLES", file_name)
  else if str_in file_extension [".jar"] then ("JAVA_LIBRARIES", file_name)
  else if str_in file_extension [".so"] then ("SHARED_LIBRARIES", file_name)
  else if str_in file_extension [".apk"] then ("APPS", file_name)
  else if str_in file_extension [".xml"] then ("STATIC_CONFIG", file_name)
  else if contains "/etc/" source_file_path then ("ETC", file_name)
  else if str_in file_extension [".apex"; ".capex"] then
    ("ETC",
     if contains "_compressed" file_name then replace "_compressed" "" file_name
     else if contains "_trimmed" file_name then replace "_trimmed" "" file_name
     else file_name)
  else ("MISC", file_name).

Section Rules.
Variable c : PostInjectorConfig.
Variables source_file_path file_extension file_name file_name_no_ext : string.
Variable is_apex : bool.
Variable tmp_module_type : string.

(** line 100 *)
Definition rule_skipped_app_keyword (module_type : string) : string :=
  if String.eqb module_type "APPS"
     && any_keyword_in (SKIPPED_APP_KEYWORDLIST c) file_name
  then "SKIPPED" else module_type.

(** line 102 *)
Definition rule_skipped_app_list (module_type : string) : string :=
  if String.eqb module_type "APPS"
     && (str_in file_name_no_ext (SKIPPED_APP_LIST c)
         || str_in file_name (SKIPPED_APP_LIST c))
  then "SKIPPED" else module_type.

(** line 105 *)
Definition rule_allowed_app_keyword (module_type : string) : string :=
  if String.eqb module_type "APPS"
     && any_keyword_in (ALLOWED_APP_INJECTION_KEYWORD c) file_name
  then "APPS" else module_type.

(** line 108 *)
Definition rule_disable_binary (module_type : string) : string :=
  if str_in module_type ["EXECUTABLES"; "ETC"] && DISABLE_BINARY_INJECTION c
  then "SKIPPED" else module_type.

(** line 111 *)
Definition rule_general_deny (module_type : string) : string :=
  if negb (is_file_path_allowed c source_file_path)
     || (negb (String.eqb file_extension "")
         && negb (is_file_extension_allowed c file_extension))
     || negb (is_file_inject_allowed c file_name)
  then "SKIPPED" else module_type.

(** the body of the loop of line 117 decides on one package name *)
Definition matches_package (package_name : string) : bool :=
  let stripped_package_name :=
    strip (replace "fmd" "" (replace "FMD_APEX" "" package_name)) in
  String.eqb file_name stripped_package_name
  || String.eqb file_name_no_ext stripped_package_name.

(** line 116: iterating over [None] raises *)
Definition rule_already_injected (pre_injector_package_list : option (list string))
           (module_type : string) : Logged (result string) :=
  if str_in module_type ["SHARED_LIBRARIES"; "ETC"; "APPS"] then
    match pre_injector_package_list with
    | None => lret (Raise (TypeError "'NoneType' object is not iterable"))
    | Some l =>
        if existsb matches_package l
        then emit (Ok "SKIPPED") INFO "Skipping as it was already injected via pre-injector."
        else lret (Ok module_type)
    end
  else lret (Ok module_type).

(** line 124 *)
Definition rule_shared_library_if_not_exists (module_type : string) : Logged string :=
  if ENABLE_SHARED_LIBRARIES_INJECTION_IF_NOT_EXISTS c && str_in file_extension [".so"]
  then
    emit (if str_in file_name (SKIPPED_SHARED_LIBRARIES_EVEN_IF_NOT_EXISTS_LIST c)
             || any_keyword_in
                  (SKIPPED_KEYWORD_SHARED_LIBRARIES_EVEN_IF_NOT_EXISTS_LIST c) file_name
          then "SKIPPED" else tmp_module_type)
         INFO "File does not exist in the system. Enabling injection"
  else lret module_type.

(** line 132 *)
Definition rule_skipped_apex_keyword (module_type : string) : string :=
  if is_apex && any_keyword_in (SKIPPED_APEX_KEYWORD_LIST c) file_name
  then "SKIPPED" else module_type.

(** line 135 *)
Definition rule_apex_keyword_not_in_list (module_type : string) : string :=
  if ENABLE_ALLOW_APEX_INJECT_ALWAYS_KEYWORD_NOT_IN_LIST c then
    if is_apex
       && all_keyword_not_in (ALLOW_APEX_INJECT_ALWAYS_KEYWORD_NOT_IN_LIST c) file_name
    then "ETC" else module_type
  else module_type.

(** line 140 *)
Definition rule_apex_always_keyword (module_type : string) : string :=
  if is_apex && any_keyword_in (ALLOW_APEX_INJECT_ALWAYS_KEYWORD_LIST c) file_name
  then "ETC" else module_type.

(** line 144 *)
Definition rule_disallow_app (module_type : string) : Logged string :=
  if String.eqb module_type "APPS" && DISALLOW_APP_INJECTION c
  then emit "SKIPPED" ERROR "App injection is disallowed by configuration"
  else lret module_type.

(** lines 148-152 *)
Definition rule_java_libraries (module_type : string) : Logged string :=
  if String.eqb module_type "JAVA_LIBRARIES" && DISABLE_JAVA_LIBRARIES_INJECTION c
  then emit "SKIPPED" ERROR "Java library injection is disallowed by configuration"
  else if String.eqb module_type "JAVA_LIBRARIES"
          && ALLOW_ALL_JAVA_LIBRARIES_INJECTION c
       then lret tmp_module_type
       else lret module_type.

(** line 154 *)
Definition rule_disable_misc (module_type : string) : string :=
  if String.eqb module_type "MISC" && DISABLE_MISC_INJECTION c
  then "SKIPPED" else module_type.

(** line 157 *)
Definition rule_allow_app_always (module_type : string) : Logged string :=
  if str_in file_extension [".apk"]
     && (str_in file_name (ALLOW_APP_INJECT_ALWAYS c)
         || any_keyword_in (ALLOW_APP_INJECT_ALWAYS_KEYWORD_LIST c) file_name)
  then emit tmp_module_type INFO "File is allowed to be injected regardless of its type."
  else lret module_type.

(** The condition of the last rule, line 163. *)
Definition always_allowed : bool :=
  str_in file_name (ALLOW_FILE_INJECT_ALWAYS c)
  || any_keyword_in (ALLOW_FILE_INJECT_ALWAYS_KEYWORD_LIST c) source_file_path.

(** line 163 *)
Definition rule_allow_file_always (module_type : string) : Logged string :=
  if always_allowed
  then emit tmp_module_type INFO "File is allowed to be injected regardless of its type."
  else lret module_type.

(** Lines 100-114: the rules before the already-injected check. *)
Definition rules_before_loop (module_type : string) : string :=
  rule_general_deny
    (rule_disable_binary
       (rule_allowed_app_keyword
          (rule_skipped_app_list
             (rule_skipped_app_keyword module_type)))).

(** Lines 124-166: the rules after the already-injected check. *)
Definition rules_after_loop (module_type : string) : Logged string :=
  lbind (rule_shared_library_if_not_exists module_type) (fun module_type =>
  let module_type := rule_skipped_apex_keyword module_type in
  let module_type := rule_apex_keyword_not_in_list module_type in
  let module_type := rule_apex_always_keyword module_type in
  lbind (rule_disallow_app module_type) (fun module_type =>
  lbind (rule_java_libraries module_type) (fun module_type =>
  let module_type := rule_disable_misc module_type in
  lbind (rule_allow_app_always module_type) (fun module_type =>
  rule_allow_file_always module_type)))).

(** Lines 98-170. *)
Definition apply_rules (pre_injector_package_list : option (list string))
  : Logged (result (string * string)) :=
  lbind (rule_already_injected pre_injector_package_list
                               (rules_before_loop tmp_module_type))
        (fun r =>
           match r with
           | Raise e => lret (Raise e)
           | Ok module_type =>
               lbind (rules_after_loop module_type) (fun module_type =>
               emit (Ok (module_type, tmp_module_type)) DEBUG "File Extension")
           end).
End Rules.

(** The file name the rules of a path work with: the basename of the
    stripped path, for a container file outside [/etc/] without
    [_compressed], or else without [_trimmed]. *)
Definition rule_file_name (fs : FS) (source_file_path : string) : string :=
  let parent_dir := dirname source_file_path in
  let source_file_path := strip source_file_path in
  snd (base_module_type fs parent_dir source_file_path
                        (snd (splitext source_file_path))
                        (basename source_file_path)).

(** [get_module_type], with the records it logs. A rule set of [None]
    (the default of the parameter) fails at the first subscript. *)
Definition get_module_type_logged (fs : FS) (source_file_path : string)
           (pre_injector_package_list : option (list string))
           (post_injector_config : option PostInjectorConfig)
  : Logged (result (string * string)) :=
  match post_injector_config with
  | None => lret (Raise (TypeError "'NoneType' object is not subscriptable"))
  | Some c =>
      let parent_dir := dirname source_file_path in
      let source_file_path := strip source_file_path in
      let file_extension := snd (splitext source_file_path) in
      let file_name := basename source_file_path in
      let file_name_no_ext := fst (splitext file_name) in
      let is_apex := str_in file_extension [".apex"; ".capex"] in
      let base := base_module_type fs parent_dir source_file_path file_extension file_name in
      apply_rules c source_file_path file_extension (snd base) file_name_no_ext
                  is_apex (fst base) pre_injector_package_list
  end.

Definition get_module_type (fs : FS) (source_file_path : string)
           (pre_injector_package_list : option (list string))
           (post_injector_config : option PostInjectorConfig)
  : result (string * string) :=
  fst (get_module_type_logged fs source_file_path pre_injector_package_list
                              post_injector_config).

(** The seven labels of the [if]/[elif] chain. *)
Definition BASE_LABELS : list string :=
  ["EXECUTABLES"; "JAVA_LIBRARIES"; "SHARED_LIBRARIES"; "APPS";
   "STATIC_CONFIG"; "ETC"; "MISC"].

End Classifier.

(** ** File-system steps *)

Module Effects.
Import PyStr.

(** [str(e)] of the exception [open] raises on a missing file. *)
Definition open_error (file_path : string) : string :=
  "[Errno 2] No such file or directory: '" +:+ file_path +:+ "'".

(** A step that reads and changes the file system and may raise. *)
Definition M (A : Type) : Type := FS -> FS * result A.

Definition ret {A} (a : A) : M A := fun fs => (fs, Ok a).

Definition raise {A} (e : exn) : M A := fun fs => (fs, Raise e).

Definition bind {A B} (m : M A) (k : A -> M B) : M B :=
  fun fs =>
    match m fs with
    | (fs', Ok a) => k a fs'
    | (fs', Raise e) => (fs', Raise e)
    end.

(** [try: m except Exception as e: h e]; what is no [Exception] passes
    the handler. *)
Definition try_except {A} (m : M A) (h : exn -> M A) : M A :=
  fun fs =>
    match m fs with
    | (fs', Ok a) => (fs', Ok a)
    | (fs', Raise e) => if is_exception e then h e fs' else (fs', Raise e)
    end.

Definition lift {A} (r : result A) : M A := fun fs => (fs, r).

Definition read {A} (f : FS -> A) : M A := fun fs => (fs, Ok (f fs)).

Notation "'let*' x ':=' m 'in' k" := (bind m (fun x => k))
  (at level 10, x name, m at level 100, k at level 200).
Notation "'let*' ' p ':=' m 'in' k" := (bind m (fun x => match x with p => k end))
  (at level 10, p pattern, m at level 100, k at level 200).

(** [str(e)] *)
Definition exn_str (e : exn) : string :=
  match e with
  | TypeError msg | ValueError msg | OSError msg | PyException msg => msg
  | SystemExit code => pretty code
  end.

(** The line feed. *)
Definition newline : string := String "010"%char EmptyString.

(** [shutil.copyfile(src, dst)] *)
Definition copyfile (can_write : string -> bool) (src dst : string) : M unit :=
  fun fs =>
    match fs !! src with
    | None => (fs, Raise (OSError (open_error src)))
    | Some content =>
        if String.eqb src dst
        then (fs, Raise (OSError "SameFileError"))
        else if can_write dst
             then (<[dst := content]> fs, Ok tt)
             else (fs, Raise (OSError "[Errno 13] Permission denied"))
    end.

(** [compute_file_hash]: only whether the file can be read matters. *)
Definition compute_file_hash (file_path : string) : M unit :=
  fun fs =>
    match fs !! file_path with
    | None => (fs, Raise (OSError (open_error file_path)))
    | Some _ => (fs, Ok tt)
    end.

(** [rename_file] (in both modules): [os.rename] inside the directory. *)
Definition rename_file (file_path new_name : string) : M string :=
  fun fs =>
    let new_file_path := path_join (dirname file_path) new_name in
    match fs !! file_path with
    | None => (fs, Raise (OSError (open_error file_path)))
    | Some content => (<[new_file_path := content]> (delete file_path fs), Ok new_file_path)
    end.

(** [os.remove(path)] *)
Definition remove (path : string) : M unit :=
  fun fs =>
    match fs !! path with
    | None => (fs, Raise (OSError (open_error path)))
    | Some _ => (delete path fs, Ok tt)
    end.

End Effects.

(** ** ABI/identity matcher ([aosp_post_build_injector.py], [common.py]) *)

Module Matcher.
Import PyStr Effects.

Definition FOLDER_NAME_OBJECTS : string := "obj".

Definition MODULE_TYPE_ABI_COMPATIBLE : list string :=
  ["SHARED_LIBRARIES"; "EXECUTABLES"; "ETC"].

(** [common.check_shared_object_architecture] *)
Definition check_shared_object_architecture (fs : FS) (file_path : string) : string :=
  match fs !! file_path with
  | None => "Error determining architecture: " +:+ open_error file_path
  | Some content =>
      let header := take 5 content in
      if Nat.ltb (List.length header) 5 then "Unknown architecture"
      else if bytes_eqb (take 4 header) ELF_MAGIC then
        match header !! 4%nat with
        | Some Byte.x01 => "32-bit"
        | Some Byte.x02 => "64-bit"
        | _ => "Unknown architecture"
        end
      else "Unknown architecture"
  end.

(** [check_binary_architecture]: the same probe, defined a second time
    in the injector. *)
Definition check_binary_architecture (fs : FS) (binary_path : string) : string :=
  match fs !! binary_path with
  | None => "Error determining architecture: " +:+ open_error binary_path
  | Some content =>
      let header := take 5 content in
      if Nat.ltb (List.length header) 5 then "Unknown architecture"
      else if bytes_eqb (take 4 header) ELF_MAGIC then
        match header !! 4%nat with
        | Some Byte.x01 => "32-bit"
        | Some Byte.x02 => "64-bit"
        | _ => "Unknown architecture"
        end
      else "Unknown architecture"
  end.

Definition is_abi_compatible (fs : FS) (candidate_path file_path : string) : bool :=
  let candidate_arch := check_binary_architecture fs candidate_path in
  let src_arch := check_binary_architecture fs file_path in
  if String.eqb candidate_arch "Unknown architecture"
     || negb (String.eqb candidate_arch src_arch)
  then false else true.

Definition is_parent_dir_arm_and_target_arm (file_path candidate_path : string) : bool :=
  let parent_dir_file_path := basename (dirname file_path) in
  let parent_dir_candidate := basename (dirname candidate_path) in
  if String.eqb parent_dir_file_path "arm64" then
    if contains "arm64" parent_dir_candidate then true else false
  else if String.eqb parent_dir_file_path "arm" then
    if negb (contains "arm64" parent_dir_candidate) && contains "arm" parent_dir_candidate
    then true else false
  else false.

Definition check_file_compatibility (fs : FS) (file_path candidate_path module_type : string) : bool :=
  let is_match := true in
  let is_match :=
    if str_in module_type MODULE_TYPE_ABI_COMPATIBLE && is_elf_binary fs file_path then
      let is_match :=
        if negb (is_abi_compatible fs candidate_path file_path) then false else is_match in
      if negb (String.eqb (check_shared_object_architecture fs candidate_path)
                          (check_shared_object_architecture fs file_path))
      then false else is_match
    else is_match in
  let is_match :=
    if contains "arm" file_path then
      if negb (is_parent_dir_arm_and_target_arm file_path candidate_path)
      then false else is_match
    else is_match in
  if String.eqb module_type "JAVA_LIBRARIES" then true else is_match.

(** A path lies below a directory. *)
Definition under (directory path : string) : bool :=
  startswith (if endswith "/" directory then directory else directory +:+ "/") path.

(** The files [os.walk(directory)] finds, as full paths. *)
Definition walk_files (fs : FS) (directory : string) : list string :=
  List.filter (under directory) (map fst (map_to_list fs)).

Definition get_all_files (fs : FS) (directory : string) : list string :=
  walk_files fs directory.

(** [l.remove(x)]: the first occurrence goes. *)
Fixpoint remove_first (x : string) (l : list string) : list string :=
  match l with
  | [] => []
  | y :: l' => if String.eqb y x then l' else y :: remove_first x l'
  end.

(** The loop of lines 805-808 removes from the list it iterates over:
    the iterator is an index into the current list. [fuel] bounds the
    number of iterations; the length of the list is enough, since the
    index grows by one each time and the list never grows. *)
Fixpoint remove_incompatible (fs : FS) (file_path module_type : string)
         (fuel i : nat) (matches : list string) : list string :=
  match fuel with
  | O => matches
  | S fuel' =>
      match matches !! i with
      | None => matches
      | Some matching_file =>
          remove_incompatible fs file_path module_type fuel' (S i)
            (if negb (check_file_compatibility fs file_path matching_file module_type)
             then remove_first matching_file matches
             else matches)
      end
  end.

(** Lines 802-815 *)
Definition narrow_file_path_list (fs : FS) (file_path file_name module_type : string)
           (exact_match_files : bool) (file_path_list : list string) : list string :=
  if exact_match_files then
    let matches :=
      List.filter (fun file => String.eqb (basename file) file_name) file_path_list in
    match matches with
    | _ :: _ =>
        remove_incompatible fs file_path module_type (List.length matches) O matches
    | [] =>
        let file_extension := snd (splitext file_name) in
        List.filter (fun file => String.eqb (snd (splitext file)) file_extension)
                    file_path_list
    end
  else file_path_list.

(** One iteration of the loop of line 820: the candidate is appended to
    the result list or not. *)
Definition accepts_candidate (c : PostInjectorConfig) (fs : FS)
           (partition_name module_type file_path file_name replace_intermediate : string)
           (file : string) : bool :=
  let module_name := fst (splitext file_name) in
  let root := dirname file in
  let candidate_path := file in
  let candidate_file_name := basename candidate_path in
  let root_folder_name_stripped := replace replace_intermediate "" root in
  let root_folder_name_stripped :=
    replace ("_" +:+ partition_name) "" root_folder_name_stripped in
  let root_folder_name_stripped := replace "v1_prebuilt" "" root_folder_name_stripped in
  let root_folder_name_stripped := basename root_folder_name_stripped in
  if (contains "vndk" candidate_path && negb (contains "vndk" file_path))
     || (contains "ndk" candidate_path && negb (contains "ndk" file_path))
  then false
  else if negb (check_file_compatibility fs file_path candidate_path module_type)
  then false
  else if String.eqb candidate_file_name file_name then
    if String.eqb partition_name "" || contains partition_name root then
      if contains "com.android" candidate_path && negb (contains "com.android" file_path)
      then false
      else true
    else false
  else if String.eqb module_name root_folder_name_stripped
          && contains partition_name root then
    let file_extension_src := snd (splitext file_name) in
    let file_extension_obj := snd (splitext file) in
    if String.eqb (strip (lower file_extension_src)) (strip (lower file_extension_obj))
    then true
    else if (String.eqb file_extension_src ".apex" && String.eqb file_extension_obj ".capex")
            || (String.eqb file_extension_src ".capex"
                && String.eqb file_extension_obj ".apex")
    then if ALLOW_APEX_INJECTION_MERGE c then true else false
    else false
  else false.

(** [search_original_file_in_obj]; [None] when nothing is found. *)
Definition search_original_file_in_obj (c : PostInjectorConfig) (fs : FS)
           (partition_name module_type file_path file_name target_out_path : string)
           (replace_intermediate : string) (exact_match_files : bool)
  : option (list string) :=
  let target_obj_path := path_join target_out_path FOLDER_NAME_OBJECTS in
  let target_obj_path :=
    if negb (endswith "/" target_obj_path) then target_obj_path +:+ "/"
    else target_obj_path in
  let search_folder_path :=
    if negb (str_in module_type ["MISC"; "STATIC_CONFIG"])
    then target_obj_path +:+ module_type
    else target_obj_path in
  let partition_name :=
    if str_in partition_name ["super"; "system"] then "" else partition_name in
  let file_path_list := get_all_files fs search_folder_path in
  let file_path_list :=
    narrow_file_path_list fs file_path file_name module_type exact_match_files
                          file_path_list in
  let result_file_path_list :=
    List.filter (accepts_candidate c fs partition_name module_type file_path file_name
                                   replace_intermediate)
                file_path_list in
  if Nat.ltb 0 (List.length result_file_path_list)
  then Some result_file_path_list else None.

End Matcher.

(** ** Injection strategy engine and orchestrator
       ([aosp_post_build_injector.py]) *)

Module Injector.
Import PyStr Effects.

(** The indirect-injection record [(file_path, original_file_path,
    module_type)]; in the not-found case the first component is the
    error message and the second is [None]. *)
Definition InjObj : Type := string * option string * string.

(** The direct-injection record [(file_path, target_path, module_type)].
    The hash of lines 572-577 is never appended: [hashlib.md5] is given a
    [str] and raises [TypeError], which the handler swallows. *)
Definition InjPartition : Type := string * string * string.

(** The parameters of a run that the modelled functions look at. *)
Record RunArgs : Type := {
  target_out_path : string;
  aosp_version : option Z;
  pre_injector_package_list : option (list string)
}.

(** External collaborators, for the fixed [aosp_path], [lunch_target],
    [firmware_id] and [cookies] of a run. *)
Record Externals : Type := {
  (** [get_target_injection_path source partition target_out_path] *)
  ext_get_target_injection_path : string -> string -> string -> M string;
  (** [inject_file_into_partition source target partition] *)
  ext_inject_file_into_partition : string -> string -> string -> M string;
  (** [inject_apex_symlink_file filename source original partition] *)
  ext_inject_apex_symlink_file : string -> string -> string -> string -> M bool;
  (** whether a copy onto the path succeeds (permissions, I/O) *)
  ext_can_write : string -> bool;
  (** [handle_apk_signing file_path]: success and error text *)
  ext_handle_apk_signing : string -> M (bool * string);
  (** [prepare_capex file_path output_dir output_filename]; never raises *)
  ext_prepare_capex : string -> string -> string -> FS -> FS * option string;
  (** [handle_apex_modules file_path] *)
  ext_handle_apex_modules : string -> M (bool * string);
  (** [repackage_apex_file apex_file_path] *)
  ext_repackage_apex_file : string -> M (bool * string);
  (** [add_new_apex_file binary_file_path partition_name] *)
  ext_add_new_apex_file : string -> string -> M (bool * string);
  (** [remove_vendor_name_from_path file_path] *)
  ext_remove_vendor_name_from_path : string -> result string;
  (** [traceback.format_exc()] while the exception is handled *)
  ext_format_exc : exn -> string
}.

Definition handle_app_modules (E : Externals) (file_path : string) : M (option string) :=
  let* ' (signing_success, subprocess_error_message) :=
    ext_handle_apk_signing E file_path in
  ret (if negb signing_success
       then Some ("Error signing APK file: " +:+ file_path +:+ "|"
                  +:+ subprocess_error_message)
       else None).

Definition replace_capex_with_apex (E : Externals) (file_path : string) : M string :=
  let input_folder_path := dirname file_path in
  let capex_filename := basename file_path in
  fun fs =>
    match ext_prepare_capex E file_path input_folder_path
                            (replace ".capex" ".apex" capex_filename) fs with
    | (fs', Some extracted_apex_file_path) =>
        if String.eqb extracted_apex_file_path "" then (fs', Ok file_path)
        else
          (let* _ := rename_file file_path (capex_filename +:+ ".original_capex") in
           ret extracted_apex_file_path) fs'
    | (fs', None) => (fs', Ok file_path)
    end.

(** Lines 1188-1195: where a candidate under [/apex/] is copied to. *)
Definition apex_new_file_path (module_type file_name : string) : string :=
  if String.eqb module_type "JAVA_LIBRARIES" then "/system/framework/" +:+ file_name
  else if String.eqb module_type "BINARY" then "/bin/" +:+ file_name
  else "/etc/" +:+ file_name.

Definition inject_file_into_obj (E : Externals) (c : PostInjectorConfig)
           (source_file_path original_file_path module_type partition_name : string)
  : M bool :=
  let filename := basename source_file_path in
  let* _ := compute_file_hash source_file_path in
  let* _ := compute_file_hash original_file_path in
  let file_name := basename original_file_path in
  try_except
    (if contains "/apex/" original_file_path then
       let new_file_path := apex_new_file_path module_type file_name in
       let* _ := copyfile (ext_can_write E) source_file_path new_file_path in
       ret true
     else if str_in filename (APEX_BINARY_ISOLATED_NAMESPACE_LIST c)
             || str_in source_file_path (APEX_BINARY_ISOLATED_NAMESPACE_LIST c)
     then ext_inject_apex_symlink_file E filename source_file_path original_file_path
                                       partition_name
     else
       let* _ := copyfile (ext_can_write E) source_file_path original_file_path in
       ret true)
    (fun _ => ret false).

(** What the search for the original file yields: the mapped path of the
    override table, or the list of the matcher. *)
Inductive Original : Type :=
| Mapped (original_file_path : string)
| Found (original_file_path_list : list string).

(** The loop of lines 524-526: every candidate is injected; the record
    and the flag of the last one remain. *)
Fixpoint inject_into_all (E : Externals) (c : PostInjectorConfig)
         (file_path module_type partition_name : string)
         (inj_obj : option InjObj) (is_injected : bool)
         (original_file_path_list : list string) : M (option InjObj * bool) :=
  match original_file_path_list with
  | [] => ret (inj_obj, is_injected)
  | original_file_path :: rest =>
      let* is_injected :=
        inject_file_into_obj E c file_path original_file_path module_type
                             partition_name in
      inject_into_all E c file_path module_type partition_name
                      (Some (file_path, Some original_file_path, module_type))
                      is_injected rest
  end.

Definition indirect_injection (E : Externals) (c : PostInjectorConfig) (a : RunArgs)
           (target_file_injection_path file_name partition_name module_type file_path : string)
           (inj_partition : option InjPartition)
  : M (option InjObj * option InjPartition * option bool) :=
  let file_ext := snd (splitext file_name) in
  if str_in file_ext (SKIPPED_FILE_EXTENSION_LIST_INDIRECT_INJECTION c)
  then ret (None, inj_partition, None)
  else if negb (str_in file_name (ALLOW_FILE_INJECT_ALWAYS c))
          && (ENABLE_SHARED_LIBRARIES_INJECTION_IF_NOT_EXISTS c
              && String.eqb file_ext ".so")
  then ret (None, inj_partition, None)
  else
    let* original_file_path :=
      read (fun fs =>
        match INDIRECT_INJECTION_FILE_MAPPING c !! file_name with
        | Some mapped =>
            if negb (Matcher.check_file_compatibility fs file_path
                       target_file_injection_path module_type)
            then None
            else Some (Mapped (path_join (target_out_path a) mapped))
        | None =>
            option_map Found
              (Matcher.search_original_file_in_obj c fs partition_name module_type
                 file_path file_name (target_out_path a) "_intermediates" true)
        end) in
    let* original_file_path :=
      match original_file_path with
      | Some o => ret (Some o)
      | None =>
          let* file_path_vendor_replaced :=
            lift (ext_remove_vendor_name_from_path E file_path) in
          let file_name_vendor_replaced := basename file_path_vendor_replaced in
          read (fun fs =>
            option_map Found
              (Matcher.search_original_file_in_obj c fs partition_name module_type
                 file_path_vendor_replaced file_name_vendor_replaced
                 (target_out_path a) "_intermediates" true))
      end in
    match original_file_path with
    | Some (Found original_file_path_list) =>
        let* ' (inj_obj, is_injected) :=
          inject_into_all E c file_path module_type partition_name None false
                          original_file_path_list in
        ret (inj_obj, inj_partition, Some is_injected)
    | Some (Mapped original_file_path) =>
        let* is_injected :=
          inject_file_into_obj E c file_path original_file_path module_type
                               partition_name in
        ret (Some (file_path, Some original_file_path, module_type), inj_partition,
             Some is_injected)
    | None =>
        ret (Some ("Original file not found for indirect injection: " +:+ file_path
                   +:+ " | " +:+ file_name, None, module_type),
             inj_partition, Some false)
    end.

(** The direct injection of lines 555-556, 562-563 and 569-570. *)
Definition direct_injection (E : Externals)
           (file_path target_file_injection_path partition_name module_type : string)
  : M (option InjPartition) :=
  let* target_path :=
    ext_inject_file_into_partition E file_path target_file_injection_path
                                   partition_name in
  ret (Some (file_path, target_path, module_type)).

Definition search_and_inject (E : Externals) (c : PostInjectorConfig) (a : RunArgs)
           (partition_name module_type file_path : string)
  : M (option InjObj * option InjPartition) :=
  let inj_partition : option InjPartition := None in
  let inj_obj : option InjObj := None in
  let file_name := basename file_path in
  let file_extension := snd (splitext file_name) in
  let* target_file_injection_path :=
    ext_get_target_injection_path E file_path partition_name (target_out_path a) in
  let* target_exists := read (fun fs => path_exists fs target_file_injection_path) in
  if String.eqb file_extension ".apex" || String.eqb file_extension ".capex" then
    if negb target_exists
       && negb (any_keyword_in (ALLOW_APEX_MERGE_KEYWORD_LIST c)
                               (basename target_file_injection_path))
    then
      let* inj_partition :=
        direct_injection E file_path target_file_injection_path partition_name
                         module_type in
      ret (inj_obj, inj_partition)
    else
      let* ' (inj_obj, inj_partition, is_injected) :=
        indirect_injection E c a target_file_injection_path file_name partition_name
                           module_type file_path inj_partition in
      ret (inj_obj, inj_partition)
  else if negb target_exists then
    let* inj_partition :=
      direct_injection E file_path target_file_injection_path partition_name
                       module_type in
    ret (inj_obj, inj_partition)
  else
    let* ' (inj_obj, inj_partition, is_injected) :=
      indirect_injection E c a target_file_injection_path file_name partition_name
                         module_type file_path inj_partition in
    match is_injected with
    | Some false =>
        (* Fallback to Direct Injection *)
        let* inj_partition :=
          direct_injection E file_path target_file_injection_path partition_name
                           module_type in
        ret (inj_obj, inj_partition)
    | _ => ret (inj_obj, inj_partition)
    end.

(** [if x:] for an optional string *)
Definition truthy (x : option string) : bool :=
  match x with
  | Some s => negb (String.eqb s "")
  | None => false
  end.

Definition LOCK_SUFFIX : string := ".fmd-aecs-lock".
Definition PROCESSED_SUFFIX : string := ".fmd-aecs-processed".

(** [aosp_version and int(aosp_version) > 12] *)
Definition version_above_12 (a : RunArgs) : bool :=
  match aosp_version a with
  | Some v => Z.ltb 12 v
  | None => false
  end.

(** Lines 359-367: a container file may be replaced or renamed before it
    is transformed. *)
Definition normalize_apex_path (E : Externals) (a : RunArgs) (filename file_path : string)
  : M string :=
  let* file_path :=
    if endswith ".capex" file_path then replace_capex_with_apex E file_path
    else ret file_path in
  let* file_path :=
    if contains "tzdata" file_path || contains "tzdata" filename
    then rename_file file_path (sub_tzdata filename)
    else ret file_path in
  if version_above_12 a then
    if contains "bluetooth" filename
    then rename_file file_path (replace "bluetooth" "btservices" filename)
    else ret file_path
  else ret file_path.

(** Lines 369-391: merge or repackage a container file. The messages
    of the two handlers end with a line feed and the text of [None], the
    value of [traceback.print_stack()]. *)
Definition transform_apex (E : Externals) (c : PostInjectorConfig)
           (filename file_path : string) : M (option string) :=
  if ALLOW_APEX_INJECTION_MERGE c
     && any_keyword_in (ALLOW_APEX_MERGE_KEYWORD_LIST c) filename
     && contains "ALL_FILES/system/" file_path
  then
    let* ' (is_merge_success, log_message) :=
      try_except (ext_handle_apex_modules E file_path)
                 (fun e => ret (false, "Exception occurred: " +:+ exn_str e +:+ ":"
                                       +:+ ext_format_exc E e +:+ newline
                                       +:+ "None")) in
    if negb is_merge_success
    then raise (PyException ("Error handling merge APEX file: " +:+ file_path +:+ "|"
                             +:+ log_message))
    else ret None
  else
    try_except
      (let* ' (is_repack_success, log_message) := ext_repackage_apex_file E file_path in
       ret (if negb is_repack_success
            then Some ("Error handling repack APEX file: " +:+ file_path +:+ "|"
                       +:+ log_message)
            else None))
      (fun e => ret (Some ("Exception occurred: " +:+ exn_str e +:+ ":"
                           +:+ ext_format_exc E e +:+ newline +:+ "None"))).

(** Lines 394-407 *)
Definition wrap_isolated_binary (E : Externals) (c : PostInjectorConfig)
           (filename file_path partition_name : string) : M (option string) :=
  if str_in filename (APEX_BINARY_ISOLATED_NAMESPACE_LIST c) then
    let* ' (is_apex_add_success, log_message) :=
      try_except (ext_add_new_apex_file E file_path partition_name)
                 (fun e => ret (false, "Exception occurred: " +:+ exn_str e +:+ ":"
                                       +:+ ext_format_exc E e)) in
    ret (if negb is_apex_add_success
         then Some ("Error adding APEX file: " +:+ file_path +:+ "|" +:+ log_message)
         else None)
  else ret None.

(** The result triple [(error_message, inj_obj, inj_partition)]. *)
Definition FileResult : Type := option string * option InjObj * option InjPartition.

(** Lines 354-407: what is done with a file before the search for its
    target, by module type and extension; the error message and the
    path of the file afterwards. *)
Definition prepare_file (E : Externals) (c : PostInjectorConfig) (a : RunArgs)
           (file_path partition_name module_type : string)
  : M (option string * string) :=
  let filename := basename file_path in
  let file_extension := snd (splitext file_path) in
  if String.eqb module_type "APPS" && String.eqb (lower file_extension) ".apk" then
    let* error_message := handle_app_modules E file_path in
    ret (error_message, file_path)
  else if String.eqb (lower file_extension) ".apex"
          || String.eqb (lower file_extension) ".capex" then
    let* file_path := normalize_apex_path E a filename file_path in
    let* error_message := transform_apex E c filename file_path in
    ret (error_message, file_path)
  else
    let* is_elf := read (fun fs => is_elf_binary fs file_path) in
    if String.eqb module_type "EXECUTABLES" && is_elf then
      let* error_message := wrap_isolated_binary E c filename file_path partition_name in
      ret (error_message, file_path)
    else ret (None, file_path).

(** Lines 353-412: the work on a file that is not skipped. *)
Definition process_unskipped (E : Externals) (c : PostInjectorConfig) (a : RunArgs)
           (file_path partition_name module_type : string) : M FileResult :=
  let* ' (error_message, file_path) :=
    prepare_file E c a file_path partition_name module_type in
  if negb (truthy error_message) then
    let* ' (inj_obj, inj_partition) :=
      search_and_inject E c a partition_name module_type file_path in
    ret (error_message, inj_obj, inj_partition)
  else ret (error_message, None, None).

(** Lines 338-412: the body of the [with lock] block. *)
Definition locked_body (E : Externals) (c : PostInjectorConfig) (a : RunArgs)
           (file_path partition_name processed_marker : string) : M FileResult :=
  let* already := read (fun fs => path_exists fs processed_marker) in
  if already then ret (Some ("File already processed: " +:+ file_path), None, None)
  else
    let* ' (module_type, tmp_module_type) :=
      (fun fs => (fs, Classifier.get_module_type fs file_path
                        (pre_injector_package_list a) (Some c))) in
    if str_in module_type ["SKIPPED"] then
      ret (Some ("Skipped File post-inject (Keyword/Extension/Filename): " +:+ file_path
                 +:+ " | module_type: " +:+ module_type), None, None)
    else process_unskipped E c a file_path partition_name module_type.

(** [process_file_concurrently]: the state after the call and the result
    triple. Acquiring the lock creates the lock file; an [Exception] of
    the body becomes the error message (line 413), what is no
    [Exception] is raised on; in both cases the [finally] block writes
    the marker first. The closing call of
    [check_file_is_really_injected] only reads and logs and is left
    out. *)
Definition process_file_concurrently (E : Externals) (c : PostInjectorConfig) (a : RunArgs)
           (file_path partition_name : string) (fs : FS) : FS * result FileResult :=
  let lock_path := file_path +:+ LOCK_SUFFIX in
  let processed_marker := file_path +:+ PROCESSED_SUFFIX in
  if path_exists fs processed_marker
  then (fs, Ok (Some ("File already processed: " +:+ file_path), None, None))
  else
    let (fs', r) :=
      locked_body E c a file_path partition_name processed_marker
                  (<[lock_path := []]> fs) in
    (<[processed_marker := []]> fs',
     match r with
     | Ok result => Ok result
     | Raise e =>
         if is_exception e
         then Ok (Some (exn_str e +:+ ":" +:+ ext_format_exc E e), None, None)
         else Raise e
     end).

(** [cleanup_files]: lock and marker files below the directory go. *)
Definition cleanup_files (directory : string) (fs : FS) : FS :=
  filter (fun kv => negb (Matcher.under directory (fst kv)
                          && (endswith LOCK_SUFFIX (basename (fst kv))
                              || endswith PROCESSED_SUFFIX (basename (fst kv)))))
         fs.

(** [list(set(os.path.join(root, file_name.strip()) ...))] over
    [scandir_walk(folder_path)] *)
Definition partition_file_paths (fs : FS) (folder_path : string) : list string :=
  remove_dups
    (map (fun path => path_join (dirname path) (strip (basename path)))
         (Matcher.walk_files fs folder_path)).

(** The three lists a partition run returns. *)
Definition PartitionResult : Type := list string * list InjObj * list InjPartition.

(** Lines 649-655: one result triple is added to the lists. *)
Definition collect (acc : PartitionResult) (r : FileResult) : PartitionResult :=
  let '(error_list, inj_obj_list, inj_partition_list) := acc in
  let '(error_message, inj_obj, inj_partition) := r in
  (if truthy error_message
   then error_list ++ [default "" error_message] else error_list,
   match inj_obj with Some o => inj_obj_list ++ [o] | None => inj_obj_list end,
   match inj_partition with
   | Some p => inj_partition_list ++ [p]
   | None => inj_partition_list
   end).

(** Lines 656-658: the text of an [Exception] of a task is added to the
    errors. *)
Definition collect_exception (acc : PartitionResult) (e : exn) : PartitionResult :=
  let '(error_list, inj_obj_list, inj_partition_list) := acc in
  (error_list ++ [exn_str e], inj_obj_list, inj_partition_list).

(** Lines 631-662: every path not yet seen is submitted; the tasks are
    taken to run one after the other in the order of submission, and
    their results are collected in that order. A task that raised what
    is no [Exception] ends the collection at its result (line 649 raises
    it again, line 656 does not catch it); the tasks submitted with it
    still run, as the pool completes them before it shuts down. *)
Fixpoint run_tasks (E : Externals) (c : PostInjectorConfig) (a : RunArgs)
         (partition_name : string) (file_paths : list string)
         (processed_files : list string) (acc : PartitionResult) (fs : FS)
  : FS * result PartitionResult :=
  match file_paths with
  | [] => (fs, Ok acc)
  | file_path :: rest =>
      if str_in file_path processed_files
      then run_tasks E c a partition_name rest processed_files acc fs
      else
        let (fs', r) := process_file_concurrently E c a file_path partition_name fs in
        match r with
        | Ok r =>
            run_tasks E c a partition_name rest (file_path :: processed_files)
                      (collect acc r) fs'
        | Raise e =>
            if is_exception e
            then run_tasks E c a partition_name rest (file_path :: processed_files)
                           (collect_exception acc e) fs'
            else (fst (run_tasks E c a partition_name rest
                                 (file_path :: processed_files) acc fs'),
                  Raise e)
        end
  end.

(** [process_partition_files]. The first log line takes the length of
    the list of already injected packages; the cleanup pass runs when the
    collection of the results has come to its end. *)
Definition process_partition_files (E : Externals) (c : PostInjectorConfig) (a : RunArgs)
           (folder_path : string) (fs : FS) : FS * result PartitionResult :=
  match pre_injector_package_list a with
  | None => (fs, Raise (TypeError "object of type 'NoneType' has no len()"))
  | Some _ =>
      let partition_name := basename folder_path in
      let file_paths := partition_file_paths fs folder_path in
      let (fs', r) := run_tasks E c a partition_name file_paths [] ([], [], []) fs in
      match r with
      | Ok lists => (cleanup_files folder_path fs', Ok lists)
      | Raise e => (fs', Raise e)
      end
  end.

End Injector.

(** ** Container transform pipeline ([aosp_apex_injector.py]) *)

Module Apex.
Import PyStr Effects.

(** The keys of the rule set the merge consults. *)
Record ApexConfig : Type := {
  CHECK_VNDK_VERSION_MISMATCH : bool;
  ALLOW_MIXED_APEX_FILES : bool;
  ALLOW_MIXED_APEX_KEYWORD_LIST : list string;
  INJECT_APEX_VENDOR_FILES : bool;
  INJECT_APEX_VENDOR_APPS : bool;
  REPLACE_AVB_KEYS : bool
}.

(** The stages of the pipeline that run external tools or work inside
    the temporary directories, for the fixed [aosp_path], [lunch_target]
    and [aosp_version] of a run. *)
Record Tools : Type := {
  (** [find_emulator_apex_folder target_out_path file_path] *)
  tool_find_emulator_apex_folder : string -> string -> M (option string);
  (** [os.path.exists] on a directory *)
  tool_dir_exists : string -> FS -> bool;
  (** [allow_vndk_merge apex_path apex_filename] *)
  tool_allow_vndk_merge : string -> string -> M bool;
  (** [tempfile.mkdtemp(suffix, dir)] *)
  tool_mkdtemp : string -> option string -> M string;
  (** [extract_apex_file apex_file_path output_dir_path] *)
  tool_extract_apex_file : string -> string -> M (bool * string);
  (** [shutil.copytree src dst] *)
  tool_copytree : string -> string -> M unit;
  (** [load_apex_manifest_from_aosp apex_emulator_folder
      merged_apex_extract_dir_path filename_input apex_root_path] *)
  tool_load_apex_manifest_from_aosp : string -> string -> string -> string -> M unit;
  (** [inject_apex_vendor_files merged vendor] *)
  tool_inject_apex_vendor_files : string -> string -> M unit;
  (** [inject_apex_vendor_apps merged vendor] *)
  tool_inject_apex_vendor_apps : string -> string -> M (list string);
  (** the temporary file and [generate_canned_fs_config]; the path of the
      file is returned *)
  tool_generate_canned_fs_config : string -> option string -> M string;
  (** [move_apex_manifest_file apex_extract_dir_path output_dir_path
      apex_filename] *)
  tool_move_apex_manifest_file : string -> string -> string -> M (bool * option string);
  (** [copy_android_prebuilt_jar apex_root_path] *)
  tool_copy_android_prebuilt_jar : string -> M unit;
  (** [create_apex_container apex_manifest_path apex_extract_dir_path
      apex_root_path output_file_path canned_fs_config is_repack]: the
      success flag, the log message and the path of the private key; the
      other key paths stay inside *)
  tool_create_apex_container :
    string -> string -> string -> string -> string -> bool
    -> M (bool * string * option string);
  (** [sign_apex_container_signapk file_path] *)
  tool_sign_apex_container_signapk : string -> M (bool * string);
  (** [verify_apk_file file_path] *)
  tool_verify_apk_file : string -> M (bool * string);
  (** [inject_apex_avb_public_key apex_file_path target_out_path] *)
  tool_inject_apex_avb_public_key : string -> string -> M (bool * string)
}.

Definition always_writable (path : string) : bool := true.

Definition restore_original_apex (file_path org_apex_file : string) : M unit :=
  let* _ := remove file_path in
  copyfile always_writable org_apex_file file_path.

Definition prepare_apex_out_file (file_path : string) : string :=
  let apex_filename_new := replace ".apex" ".v2.apex" (basename file_path) in
  let apex_dir_path := dirname file_path in
  path_join apex_dir_path apex_filename_new.

Definition backup_original_apex_file (file_path : string) : M (string * string) :=
  let org_apex_file := file_path +:+ ".original_apex" in
  let* backed_up := read (fun fs => path_exists fs org_apex_file) in
  let* _ :=
    if backed_up then restore_original_apex file_path org_apex_file
    else copyfile always_writable file_path org_apex_file in
  let apex_out_file := prepare_apex_out_file file_path in
  let* stale := read (fun fs => path_exists fs apex_out_file) in
  let* _ := if stale then remove apex_out_file else ret tt in
  ret (apex_out_file, org_apex_file).

Definition replace_org_apex_file (file_path apex_out_file : string) : M unit :=
  let* _ := remove file_path in
  let* _ := copyfile always_writable apex_out_file file_path in
  remove apex_out_file.

(** [f"{x}"] for a path that may be [None] *)
Definition path_str (x : option string) : string := default "None" x.

Definition sign_apex_file (T : Tools) (file_path : string)
           (priv_key_apex_apk_path : option string) : M (bool * option string) :=
  let* ' (is_success, log_message) := tool_sign_apex_container_signapk T file_path in
  if is_success then
    let* _ := tool_verify_apk_file T file_path in
    ret (is_success, None)
  else
    ret (is_success, Some ("Error signing APEX file: " +:+ file_path +:+ "|"
                           +:+ path_str priv_key_apex_apk_path +:+ "|"
                           +:+ log_message)).

Definition merge_apex_files (T : Tools) (cfg : ApexConfig)
           (apex_emulator_folder input_apex apex_out_file target_out_path : string)
  : M (bool * string) :=
  let filename_input := basename input_apex in
  let* refused :=
    if CHECK_VNDK_VERSION_MISMATCH cfg then
      let* allow := tool_allow_vndk_merge T input_apex filename_input in
      ret (negb allow)
    else ret false in
  if refused then
    ret (false, "APEX: Emulator VNDK version is higher than vendor VNDK version. Merging not allowed.")
  else
    let* apex_root_path := tool_mkdtemp T ("_" +:+ filename_input +:+ "_merged") None in
    let* merged_apex_extract_dir_path := tool_mkdtemp T "extract" (Some apex_root_path) in
    let* apex_vendor_extract_dir_path :=
      tool_mkdtemp T ("_" +:+ filename_input +:+ "_vendor") None in
    let* ' (extract_success, log_message) :=
      tool_extract_apex_file T input_apex apex_vendor_extract_dir_path in
    if extract_success then
      let* _ :=
        if ALLOW_MIXED_APEX_FILES cfg
           && any_keyword_in (ALLOW_MIXED_APEX_KEYWORD_LIST cfg) filename_input
        then tool_copytree T apex_emulator_folder merged_apex_extract_dir_path
        else tool_load_apex_manifest_from_aosp T apex_emulator_folder
               merged_apex_extract_dir_path filename_input apex_root_path in
      let* _ :=
        if INJECT_APEX_VENDOR_FILES cfg
        then tool_inject_apex_vendor_files T merged_apex_extract_dir_path
               apex_vendor_extract_dir_path
        else ret tt in
      let* apk_name_list :=
        if INJECT_APEX_VENDOR_APPS cfg
        then tool_inject_apex_vendor_apps T merged_apex_extract_dir_path
               apex_vendor_extract_dir_path
        else ret [] in
      let* canned_fs_config :=
        tool_generate_canned_fs_config T merged_apex_extract_dir_path None in
      let* ' (is_manifest_found, apex_manifest_path) :=
        tool_move_apex_manifest_file T merged_apex_extract_dir_path apex_root_path
                                     filename_input in
      let* manifest_ready :=
        if is_manifest_found then
          match apex_manifest_path with
          | Some path => read (fun fs => path_exists fs path)
          | None => raise (TypeError "stat: path should be string, bytes, os.PathLike or integer, not NoneType")
          end
        else ret false in
      if manifest_ready then
        match apex_manifest_path with
        | Some path =>
            if String.eqb path "" then ret (false, log_message)
            else
              let* _ := tool_copy_android_prebuilt_jar T apex_root_path in
              let* ' (is_success, log_message, private_key_path) :=
                tool_create_apex_container T path merged_apex_extract_dir_path
                  apex_root_path apex_out_file canned_fs_config false in
              if is_success then
                let* ' (is_success, error_message) :=
                  sign_apex_file T apex_out_file private_key_path in
                if REPLACE_AVB_KEYS cfg
                then tool_inject_apex_avb_public_key T input_apex target_out_path
                else ret (is_success, log_message)
              else ret (is_success, "APEX container creation failed. " +:+ log_message)
        | None => ret (false, log_message)
        end
      else
        ret (false, "APEX manifest file not found. " +:+ input_apex
                    +:+ " | apex_manifest_path: " +:+ path_str apex_manifest_path)
    else ret (false, log_message).

Definition handle_apex_modules (T : Tools) (cfg : option ApexConfig)
           (file_path target_out_path : string) : M (bool * string) :=
  match cfg with
  | None => raise (PyException "No POST_INJECTOR_CONFIG found")
  | Some cfg =>
      let* ' (apex_out_file, org_apex_file) := backup_original_apex_file file_path in
      try_except
        (let* apex_emulator_folder :=
           tool_find_emulator_apex_folder T target_out_path file_path in
         let* folder_found :=
           match apex_emulator_folder with
           | Some folder =>
               read (fun fs => negb (String.eqb folder "") && tool_dir_exists T folder fs)
           | None => ret false
           end in
         if folder_found then
           let* ' (is_merge_success, log_message) :=
             merge_apex_files T cfg (default "" apex_emulator_folder) file_path
                              apex_out_file target_out_path in
           let* produced := read (fun fs => path_exists fs apex_out_file) in
           if produced then
             try_except
               (let* _ := replace_org_apex_file file_path apex_out_file in
                ret (true, log_message))
               (fun err => ret (is_merge_success, log_message))
           else
             let* _ := copyfile always_writable org_apex_file file_path in
             ret (false, log_message)
         else
           ret (false, "Error merging APEX file: " +:+ file_path
                       +:+ ". No emulator folder found in: " +:+ target_out_path))
        (fun e => ret (false, "Unexpected error while handling APEX modules: "
                              +:+ exn_str e))
  end.

Definition create_and_sign_apex_repack_container (T : Tools)
           (apex_manifest_path apex_extract_dir_path apex_root_path apex_out_file
            canned_fs_config : string)
           (apex_file_path : option string) : M (bool * string) :=
  let* _ := tool_copy_android_prebuilt_jar T apex_root_path in
  let* ' (is_success, log_message, private_key_path) :=
    tool_create_apex_container T apex_manifest_path apex_extract_dir_path
      apex_root_path apex_out_file canned_fs_config true in
  if is_success then
    let* ' (is_success, error_message) :=
      sign_apex_file T apex_out_file private_key_path in
    if is_success then
      let* _ :=
        match apex_file_path with
        | Some path => replace_org_apex_file path apex_out_file
        | None => ret tt
        end in
      ret (is_success, "APEX signing success: " +:+ apex_out_file)
    else
      ret (is_success, "APEX signing failed: " +:+ apex_out_file +:+ " | "
                       +:+ path_str error_message)
  else
    ret (is_success, "APEX repack creation failed. " +:+ apex_out_file +:+ " | "
                     +:+ log_message).

Definition repackage_apex_file (T : Tools) (apex_file_path : string) : M (bool * string) :=
  let filename := replace ".capex" "" (replace ".apex" "" (basename apex_file_path)) in
  let* ' (apex_out_file, org_apex_file) := backup_original_apex_file apex_file_path in
  try_except
    (let* apex_root_path :=
       tool_mkdtemp T ("_" +:+ filename +:+ "_apex_repack") None in
     let* apex_extract_dir_path :=
       tool_mkdtemp T ("_" +:+ filename +:+ "_extract") (Some apex_root_path) in
     let* ' (extract_success, log_message) :=
       tool_extract_apex_file T apex_file_path apex_extract_dir_path in
     if extract_success then
       let* canned_fs_config :=
         tool_generate_canned_fs_config T apex_extract_dir_path (Some apex_root_path) in
       let apex_file_name := basename apex_file_path in
       let* ' (is_manifest_found, apex_manifest_path) :=
         tool_move_apex_manifest_file T apex_extract_dir_path apex_root_path
                                      apex_file_name in
       let* manifest_ready :=
         match apex_manifest_path with
         | Some path =>
             read (fun fs => negb (String.eqb path "") && path_exists fs path)
         | None => ret false
         end in
       if manifest_ready then
         create_and_sign_apex_repack_container T (default "" apex_manifest_path)
           apex_extract_dir_path apex_root_path apex_out_file canned_fs_config
           (Some apex_file_path)
       else
         ret (false, "APEX manifest file not found after extraction: "
                     +:+ apex_extract_dir_path +:+ " | apex_manifest_path: "
                     +:+ path_str apex_manifest_path)
     else ret (false, "APEX extraction failed. " +:+ apex_file_path +:+ " | "
                      +:+ log_message))
    (fun e => ret (false, "Error repackaging APEX file: " +:+ apex_file_path +:+ " | "
                          +:+ exn_str e)).

End Apex.

(** ** Predicates used in the statements *)

Module Props.
Import PyStr Effects.

(** What a final module type may be, given the tentative one. *)
Definition allowed (tmp module_type : string) : Prop :=
  module_type = tmp \/ module_type = "SKIPPED" \/ module_type = "ETC".

(** The computation logs no record of level WARNING. *)
Definition no_warning {A} (m : Logged A) : Prop :=
  existsb is_warning (snd m) = false.

(** The word-size byte of a file: byte 4 of a header that starts with
    the ELF magic number. *)
Definition elf_class (fs : FS) (file_path : string) : option Byte.byte :=
  match fs !! file_path with
  | Some content =>
      if bytes_eqb (take 4 content) ELF_MAGIC then content !! 4%nat else None
  | None => None
  end.

(** An error message of the worker is absent or a non-empty string. *)
Definition error_shape (e : option string) : Prop :=
  e = None \/ Injector.truthy e = true.

(** [search_and_inject] went through the fallback of lines 567-570: the
    file is no container, the target existed, and the indirect injection
    came back with [is_injected = False]. *)
Definition fallback_taken (E : Injector.Externals) (c : PostInjectorConfig)
           (a : Injector.RunArgs) (partition_name module_type file_path : string)
           (fs : FS) : Prop :=
  let file_name := basename file_path in
  let file_extension := snd (splitext file_name) in
  (String.eqb file_extension ".apex" || String.eqb file_extension ".capex") = false
  /\ exists fs1 target fs2 inj_obj,
      Injector.ext_get_target_injection_path E file_path partition_name
        (Injector.target_out_path a) fs = (fs1, Ok target)
      /\ path_exists fs1 target = true
      /\ Injector.indirect_injection E c a target file_name partition_name module_type
           file_path None fs1 = (fs2, Ok (inj_obj, None, Some false)).

(** The two policy conditions of lines 483-491, under which
    [indirect_injection] returns at once: the extension is on the list
    of extensions to skip, or the file is a shared library, the toggle
    [ENABLE_SHARED_LIBRARIES_INJECTION_IF_NOT_EXISTS] is on and the name
    is not on the list [ALLOW_FILE_INJECT_ALWAYS]. *)
Definition indirect_injection_skipped (c : PostInjectorConfig) (file_name : string)
  : bool :=
  let file_ext := snd (splitext file_name) in
  str_in file_ext (SKIPPED_FILE_EXTENSION_LIST_INDIRECT_INJECTION c)
  || (negb (str_in file_name (ALLOW_FILE_INJECT_ALWAYS c))
      && (ENABLE_SHARED_LIBRARIES_INJECTION_IF_NOT_EXISTS c
          && String.eqb file_ext ".so")).

(** The conditions of lines 549-565 under which [search_and_inject]
    calls the indirect injection: a container file whose target exists
    or has a merge keyword in its name, another file whose target
    exists. *)
Definition indirect_path_chosen (c : PostInjectorConfig) (fs : FS)
           (file_path target_file_injection_path : string) : bool :=
  let file_extension := snd (splitext (basename file_path)) in
  if String.eqb file_extension ".apex" || String.eqb file_extension ".capex"
  then negb (negb (path_exists fs target_file_injection_path)
             && negb (any_keyword_in (ALLOW_APEX_MERGE_KEYWORD_LIST c)
                                     (basename target_file_injection_path)))
  else path_exists fs target_file_injection_path.

(** A processing attempt (lines 336-417 behind the checks for the
    marker): the lock is taken, the file is classified and, unless it is
    SKIPPED, processed; an [Exception] becomes the error message, and the
    marker is written. *)
Definition attempt (E : Injector.Externals) (c : PostInjectorConfig)
           (a : Injector.RunArgs) (file_path partition_name : string) (fs : FS)
  : FS * result Injector.FileResult :=
  let locked := <[file_path +:+ Injector.LOCK_SUFFIX := []]> fs in
  let (fs', r) :=
    match Classifier.get_module_type locked file_path
            (Injector.pre_injector_package_list a) (Some c) with
    | Ok (module_type, _) =>
        if str_in module_type ["SKIPPED"]
        then (locked,
              Ok (Some ("Skipped File post-inject (Keyword/Extension/Filename): "
                        +:+ file_path +:+ " | module_type: " +:+ module_type),
                  None, None))
        else Injector.process_unskipped E c a file_path partition_name module_type
                                        locked
    | Raise e => (locked, Raise e)
    end in
  (<[file_path +:+ Injector.PROCESSED_SUFFIX := []]> fs',
   match r with
   | Ok result => Ok result
   | Raise e =>
       if is_exception e
       then Ok (Some (exn_str e +:+ ":" +:+ Injector.ext_format_exc E e), None, None)
       else Raise e
   end).

End Props.

(** ** Concrete rule sets, tools and file systems *)

Module Scenarios.
Import PyStr Effects.

(** A rule set that is empty but for the given entries. *)
Definition config_with (skipped_keyword_list allow_file_inject_always
                        skipped_indirect_extensions : list string)
           (disable_binary_injection : bool) : PostInjectorConfig := {|
  SKIPPED_BINARY_LIST := [];
  SKIPPED_FILE_ENDING_LIST := [];
  ALLOW_ONLY_EXTENSION_LIST := [];
  SKIPPED_FILE_EXTENSION_LIST_GENERAL := [];
  SKIPPED_KEYWORD_LIST := skipped_keyword_list;
  SKIPPED_APEX_KEYWORD_LIST := [];
  SKIPPED_APP_KEYWORDLIST := [];
  SKIPPED_APP_LIST := [];
  ALLOWED_APP_INJECTION_KEYWORD := [];
  DISABLE_BINARY_INJECTION := disable_binary_injection;
  ENABLE_SHARED_LIBRARIES_INJECTION_IF_NOT_EXISTS := false;
  SKIPPED_SHARED_LIBRARIES_EVEN_IF_NOT_EXISTS_LIST := [];
  SKIPPED_KEYWORD_SHARED_LIBRARIES_EVEN_IF_NOT_EXISTS_LIST := [];
  ENABLE_ALLOW_APEX_INJECT_ALWAYS_KEYWORD_NOT_IN_LIST := false;
  ALLOW_APEX_INJECT_ALWAYS_KEYWORD_NOT_IN_LIST := [];
  ALLOW_APEX_INJECT_ALWAYS_KEYWORD_LIST := [];
  DISALLOW_APP_INJECTION := false;
  DISABLE_JAVA_LIBRARIES_INJECTION := false;
  ALLOW_ALL_JAVA_LIBRARIES_INJECTION := false;
  DISABLE_MISC_INJECTION := false;
  ALLOW_APP_INJECT_ALWAYS := [];
  ALLOW_APP_INJECT_ALWAYS_KEYWORD_LIST := [];
  ALLOW_FILE_INJECT_ALWAYS := allow_file_inject_always;
  ALLOW_FILE_INJECT_ALWAYS_KEYWORD_LIST := [];
  SKIPPED_FILE_EXTENSION_LIST_INDIRECT_INJECTION := skipped_indirect_extensions;
  INDIRECT_INJECTION_FILE_MAPPING := ∅;
  ALLOW_APEX_INJECTION_MERGE := false;
  ALLOW_APEX_MERGE_KEYWORD_LIST := [];
  APEX_BINARY_ISOLATED_NAMESPACE_LIST := []
|}.

(** A rule set that is empty but for the toggle that keeps shared
    libraries from being injected over existing ones, and the list of
    the files to inject always. *)
Definition config_shared_libraries_if_not_exists (allow_file_inject_always : list string)
  : PostInjectorConfig := {|
  SKIPPED_BINARY_LIST := [];
  SKIPPED_FILE_ENDING_LIST := [];
  ALLOW_ONLY_EXTENSION_LIST := [];
  SKIPPED_FILE_EXTENSION_LIST_GENERAL := [];
  SKIPPED_KEYWORD_LIST := [];
  SKIPPED_APEX_KEYWORD_LIST := [];
  SKIPPED_APP_KEYWORDLIST := [];
  SKIPPED_APP_LIST := [];
  ALLOWED_APP_INJECTION_KEYWORD := [];
  DISABLE_BINARY_INJECTION := false;
  ENABLE_SHARED_LIBRARIES_INJECTION_IF_NOT_EXISTS := true;
  SKIPPED_SHARED_LIBRARIES_EVEN_IF_NOT_EXISTS_LIST := [];
  SKIPPED_KEYWORD_SHARED_LIBRARIES_EVEN_IF_NOT_EXISTS_LIST := [];
  ENABLE_ALLOW_APEX_INJECT_ALWAYS_KEYWORD_NOT_IN_LIST := false;
  ALLOW_APEX_INJECT_ALWAYS_KEYWORD_NOT_IN_LIST := [];
  ALLOW_APEX_INJECT_ALWAYS_KEYWORD_LIST := [];
  DISALLOW_APP_INJECTION := false;
  DISABLE_JAVA_LIBRARIES_INJECTION := false;
  ALLOW_ALL_JAVA_LIBRARIES_INJECTION := false;
  DISABLE_MISC_INJECTION := false;
  ALLOW_APP_INJECT_ALWAYS := [];
  ALLOW_APP_INJECT_ALWAYS_KEYWORD_LIST := [];
  ALLOW_FILE_INJECT_ALWAYS := allow_file_inject_always;
  ALLOW_FILE_INJECT_ALWAYS_KEYWORD_LIST := [];
  SKIPPED_FILE_EXTENSION_LIST_INDIRECT_INJECTION := [];
  INDIRECT_INJECTION_FILE_MAPPING := ∅;
  ALLOW_APEX_INJECTION_MERGE := false;
  ALLOW_APEX_MERGE_KEYWORD_LIST := [];
  APEX_BINARY_ISOLATED_NAMESPACE_LIST := []
|}.
Definition config_if_not_exists : PostInjectorConfig :=
  config_shared_libraries_if_not_exists [].
Definition config_inject_always : PostInjectorConfig :=
  config_shared_libraries_if_not_exists ["libfoo.so"].

(** A 64-bit and a 32-bit ELF header. *)
Definition elf64 : list Byte.byte := ELF_MAGIC ++ [Byte.x02; Byte.x01; Byte.x01].
Definition elf32 : list Byte.byte := ELF_MAGIC ++ [Byte.x01; Byte.x01; Byte.x01].

(** The library of the scenarios of the specification and its target,
    [get_target_injection_path] of the source for partition [system]
    and the output tree [out/]. *)
Definition libfoo_src : string := "src/system/lib64/libfoo.so".
Definition libfoo_target : string := "out/system/lib64/libfoo.so".

(** The source tree holds the library; the output tree is empty. *)
Definition fs_fresh : FS := {[ libfoo_src := elf64 ]}.

(** The output tree already holds a 32-bit build of the library. *)
Definition fs_target_present : FS :=
  {[ libfoo_src := elf64; libfoo_target := elf32 ]}.

Definition args : Injector.RunArgs := {|
  Injector.target_out_path := "out/";
  Injector.aosp_version := Some 12%Z;
  Injector.pre_injector_package_list := Some []
|}.

(** Collaborators for the library scenarios: the target path is the one
    above, a direct injection copies the source onto the target and
    returns the target, every external tool succeeds, and the file name
    holds no vendor word. *)
Definition tools : Injector.Externals := {|
  Injector.ext_get_target_injection_path := fun _ _ _ => ret libfoo_target;
  Injector.ext_inject_file_into_partition :=
    fun source target _ =>
      try_except (let* _ := copyfile (fun _ => true) source target in ret target)
                 (fun _ => ret target);
  Injector.ext_inject_apex_symlink_file := fun _ _ _ _ => ret true;
  Injector.ext_can_write := fun _ => true;
  Injector.ext_handle_apk_signing := fun _ => ret (true, "");
  Injector.ext_prepare_capex := fun _ _ _ fs => (fs, None);
  Injector.ext_handle_apex_modules := fun _ => ret (true, "");
  Injector.ext_repackage_apex_file := fun _ => ret (true, "");
  Injector.ext_add_new_apex_file := fun _ _ => ret (true, "");
  Injector.ext_remove_vendor_name_from_path := fun file_path => Ok file_path;
  Injector.ext_format_exc := fun _ => "Traceback (most recent call last)"
|}.

(** A library with the name of a vendor in its file name, its target,
    and collaborators that remove that name from a path as
    [remove_vendor_name_from_path] does. *)
Definition vendor_src : string := "src/system/lib64/libfoo.samsung.so".
Definition vendor_target : string := "out/system/lib64/libfoo.samsung.so".
Definition tools_vendor : Injector.Externals := {|
  Injector.ext_get_target_injection_path := fun _ _ _ => ret vendor_target;
  Injector.ext_inject_file_into_partition :=
    Injector.ext_inject_file_into_partition tools;
  Injector.ext_inject_apex_symlink_file := Injector.ext_inject_apex_symlink_file tools;
  Injector.ext_can_write := Injector.ext_can_write tools;
  Injector.ext_handle_apk_signing := Injector.ext_handle_apk_signing tools;
  Injector.ext_prepare_capex := Injector.ext_prepare_capex tools;
  Injector.ext_handle_apex_modules := Injector.ext_handle_apex_modules tools;
  Injector.ext_repackage_apex_file := Injector.ext_repackage_apex_file tools;
  Injector.ext_add_new_apex_file := Injector.ext_add_new_apex_file tools;
  Injector.ext_remove_vendor_name_from_path :=
    fun file_path =>
      Ok (path_join (dirname file_path)
                    (replace ".Samsung" ""
                             (replace ".samsung" "" (basename file_path))));
  Injector.ext_format_exc := Injector.ext_format_exc tools
|}.

(** The file system a first run of the partition [src/system] leaves. *)
Definition after_first_run : FS :=
  fst (Injector.process_partition_files tools empty_config args "src/system" fs_fresh).

(** The object cache holds a 64-bit and a 32-bit build of the library. *)
Definition libfoo_obj64 : string :=
  "out/obj/SHARED_LIBRARIES/libfoo_intermediates/libfoo.so".
Definition libfoo_obj32 : string :=
  "out/obj/SHARED_LIBRARIES/libfoo_32_intermediates/libfoo.so".
Definition fs_object_cache : FS :=
  {[ libfoo_src := elf64; libfoo_target := elf32; libfoo_obj64 := elf64;
     libfoo_obj32 := elf32 ]}.

(** The library with the vendor name, its target, and the 32-bit build of
    the library without that name in the object cache. *)
Definition fs_vendor : FS :=
  {[ vendor_src := elf64; vendor_target := elf32; libfoo_obj32 := elf32 ]}.

(** A versioned library (classified MISC) and a 32-bit file of the same
    name in the object cache. *)
Definition misc_src : string := "src/system/lib64/libfoo.so.1".
Definition misc_candidate : string :=
  "out/obj/SHARED_LIBRARIES/libfoo_intermediates/libfoo.so.1".
Definition fs_misc : FS := {[ misc_src := elf64; misc_candidate := elf32 ]}.

(** The same files, with a 64-bit file in the object cache. *)
Definition fs_misc_64 : FS := {[ misc_src := elf64; misc_candidate := elf64 ]}.

(** A 64-bit executable and a candidate below a container mount point. *)
Definition tool_src : string := "src/system/apex/com.android.foo/bin/foo".
Definition tool_candidate : string :=
  "out/obj/EXECUTABLES/foo_intermediates/apex/com.android.foo/bin/foo".
Definition fs_apex_candidate : FS := {[ tool_src := elf64; tool_candidate := elf64 ]}.

(** A container file of the source tree, with its merge counterpart in
    the emulator build. *)
Definition media_apex : string := "src/ALL_FILES/system/apex/com.android.media.apex".
Definition media_out : string := "src/ALL_FILES/system/apex/com.android.media.v2.apex".
Definition media_manifest : string := "tmp/merged/apex_manifest.pb".
Definition media_key : string := "tmp/keys/com.android.media.pk8".
Definition vendor_container : list Byte.byte := [Byte.x50; Byte.x4b; Byte.x01].
Definition unsigned_container : list Byte.byte := [Byte.x50; Byte.x4b; Byte.x02].
Definition fs_media : FS := {[ media_apex := vendor_container ]}.

Definition merge_config : Apex.ApexConfig := {|
  Apex.CHECK_VNDK_VERSION_MISMATCH := false;
  Apex.ALLOW_MIXED_APEX_FILES := false;
  Apex.ALLOW_MIXED_APEX_KEYWORD_LIST := [];
  Apex.INJECT_APEX_VENDOR_FILES := true;
  Apex.INJECT_APEX_VENDOR_APPS := true;
  Apex.REPLACE_AVB_KEYS := false
|}.

(** Tools of a merge in which every stage works but the signing: the
    packager writes the output container, the signer reports failure. *)
Definition tools_signing_fails : Apex.Tools := {|
  Apex.tool_find_emulator_apex_folder :=
    fun _ _ => ret (Some "out/obj/ETC/com.android.media_intermediates");
  Apex.tool_dir_exists := fun _ _ => true;
  Apex.tool_allow_vndk_merge := fun _ _ => ret true;
  Apex.tool_mkdtemp :=
    fun suffix dir => ret (path_join (default "tmp" dir) ("d" +:+ suffix));
  Apex.tool_extract_apex_file := fun _ _ => ret (true, "");
  Apex.tool_copytree := fun _ _ => ret tt;
  Apex.tool_load_apex_manifest_from_aosp := fun _ _ _ _ => ret tt;
  Apex.tool_inject_apex_vendor_files := fun _ _ => ret tt;
  Apex.tool_inject_apex_vendor_apps := fun _ _ => ret [];
  Apex.tool_generate_canned_fs_config := fun _ _ => ret "tmp/canned_fs_config";
  Apex.tool_move_apex_manifest_file :=
    fun _ _ _ fs => (<[media_manifest := []]> fs, Ok (true, Some media_manifest));
  Apex.tool_copy_android_prebuilt_jar := fun _ => ret tt;
  Apex.tool_create_apex_container :=
    fun _ _ _ output_file_path _ _ fs =>
      (<[output_file_path := unsigned_container]> fs,
       Ok (true, "apexer done", Some media_key));
  Apex.tool_sign_apex_container_signapk := fun _ => ret (false, "signapk failed");
  Apex.tool_verify_apk_file := fun _ => ret (true, "");
  Apex.tool_inject_apex_avb_public_key := fun _ _ => ret (true, "")
|}.

End Scenarios.

(** * Further conditions of the classifier *)

Module RuleConditions.
Import PyStr Classifier.

(** The condition of the deny rule of line 111. *)
Definition general_deny_fires (c : PostInjectorConfig)
           (source_file_path file_extension file_name : string) : bool :=
  negb (is_file_path_allowed c source_file_path)
  || (negb (String.eqb file_extension "")
      && negb (is_file_extension_allowed c file_extension))
  || negb (is_file_inject_allowed c file_name).

(** The conditions under which a rule after the already-injected check
    assigns a type other than SKIPPED: lines 124-130 (a shared library
    that is on neither even-if-not-exists list), 135-138 and 140-141
    (the two always-inject rules for containers), 157-160 (apps) and
    163-166 (files). *)
Definition relaxing_rule_fires (c : PostInjectorConfig)
           (source_file_path file_extension file_name : string) : bool :=
  let is_apex := str_in file_extension [".apex"; ".capex"] in
  (ENABLE_SHARED_LIBRARIES_INJECTION_IF_NOT_EXISTS c
   && str_in file_extension [".so"]
   && negb (str_in file_name (SKIPPED_SHARED_LIBRARIES_EVEN_IF_NOT_EXISTS_LIST c)
            || any_keyword_in
                 (SKIPPED_KEYWORD_SHARED_LIBRARIES_EVEN_IF_NOT_EXISTS_LIST c) file_name))
  || (ENABLE_ALLOW_APEX_INJECT_ALWAYS_KEYWORD_NOT_IN_LIST c
      && is_apex
      && all_keyword_not_in (ALLOW_APEX_INJECT_ALWAYS_KEYWORD_NOT_IN_LIST c) file_name)
  || (is_apex && any_keyword_in (ALLOW_APEX_INJECT_ALWAYS_KEYWORD_LIST c) file_name)
  || (str_in file_extension [".apk"]
      && (str_in file_name (ALLOW_APP_INJECT_ALWAYS c)
          || any_keyword_in (ALLOW_APP_INJECT_ALWAYS_KEYWORD_LIST c) file_name))
  || always_allowed c source_file_path file_name.

(** A rule set with other values under the keys
    [ALLOWED_APP_INJECTION_KEYWORD] and
    [ALLOW_ALL_JAVA_LIBRARIES_INJECTION]. *)
Definition with_app_keywords_and_java_toggle (keywords : list string) (toggle : bool)
           (c : PostInjectorConfig) : PostInjectorConfig := {|
  SKIPPED_BINARY_LIST := SKIPPED_BINARY_LIST c;
  SKIPPED_FILE_ENDING_LIST := SKIPPED_FILE_ENDING_LIST c;
  ALLOW_ONLY_EXTENSION_LIST := ALLOW_ONLY_EXTENSION_LIST c;
  SKIPPED_FILE_EXTENSION_LIST_GENERAL := SKIPPED_FILE_EXTENSION_LIST_GENERAL c;
  SKIPPED_KEYWORD_LIST := SKIPPED_KEYWORD_LIST c;
  SKIPPED_APEX_KEYWORD_LIST := SKIPPED_APEX_KEYWORD_LIST c;
  SKIPPED_APP_KEYWORDLIST := SKIPPED_APP_KEYWORDLIST c;
  SKIPPED_APP_LIST := SKIPPED_APP_LIST c;
  ALLOWED_APP_INJECTION_KEYWORD := keywords;
  DISABLE_BINARY_INJECTION := DISABLE_BINARY_INJECTION c;
  ENABLE_SHARED_LIBRARIES_INJECTION_IF_NOT_EXISTS :=
    ENABLE_SHARED_LIBRARIES_INJECTION_IF_NOT_EXISTS c;
  SKIPPED_SHARED_LIBRARIES_EVEN_IF_NOT_EXISTS_LIST :=
    SKIPPED_SHARED_LIBRARIES_EVEN_IF_NOT_EXISTS_LIST c;
  SKIPPED_KEYWORD_SHARED_LIBRARIES_EVEN_IF_NOT_EXISTS_LIST :=
    SKIPPED_KEYWORD_SHARED_LIBRARIES_EVEN_IF_NOT_EXISTS_LIST c;
  ENABLE_ALLOW_APEX_INJECT_ALWAYS_KEYWORD_NOT_IN_LIST :=
    ENABLE_ALLOW_APEX_INJECT_ALWAYS_KEYWORD_NOT_IN_LIST c;
  ALLOW_APEX_INJECT_ALWAYS_KEYWORD_NOT_IN_LIST :=
    ALLOW_APEX_INJECT_ALWAYS_KEYWORD_NOT_IN_LIST c;
  ALLOW_APEX_INJECT_ALWAYS_KEYWORD_LIST := ALLOW_APEX_INJECT_ALWAYS_KEYWORD_LIST c;
  DISALLOW_APP_INJECTION := DISALLOW_APP_INJECTION c;
  DISABLE_JAVA_LIBRARIES_INJECTION := DISABLE_JAVA_LIBRARIES_INJECTION c;
  ALLOW_ALL_JAVA_LIBRARIES_INJECTION := toggle;
  DISABLE_MISC_INJECTION := DISABLE_MISC_INJECTION c;
  ALLOW_APP_INJECT_ALWAYS := ALLOW_APP_INJECT_ALWAYS c;
  ALLOW_APP_INJECT_ALWAYS_KEYWORD_LIST := ALLOW_APP_INJECT_ALWAYS_KEYWORD_LIST c;
  ALLOW_FILE_INJECT_ALWAYS := ALLOW_FILE_INJECT_ALWAYS c;
  ALLOW_FILE_INJECT_ALWAYS_KEYWORD_LIST := ALLOW_FILE_INJECT_ALWAYS_KEYWORD_LIST c;
  SKIPPED_FILE_EXTENSION_LIST_INDIRECT_INJECTION :=
    SKIPPED_FILE_EXTENSION_LIST_INDIRECT_INJECTION c;
  INDIRECT_INJECTION_FILE_MAPPING := INDIRECT_INJECTION_FILE_MAPPING c;
  ALLOW_APEX_INJECTION_MERGE := ALLOW_APEX_INJECTION_MERGE c;
  ALLOW_APEX_MERGE_KEYWORD_LIST := ALLOW_APEX_MERGE_KEYWORD_LIST c;
  APEX_BINARY_ISOLATED_NAMESPACE_LIST := APEX_BINARY_ISOLATED_NAMESPACE_LIST c
|}.

End RuleConditions.

(** * The folder the matcher walks *)

Module SearchFolder.
Import PyStr Matcher.

(** Lines 787-789: the object cache of the output tree, with a slash at
    its end. *)
Definition target_obj_path (target_out_path : string) : string :=
  let target_obj_path := path_join target_out_path FOLDER_NAME_OBJECTS in
  if negb (endswith "/" target_obj_path) then target_obj_path +:+ "/"
  else target_obj_path.

(** Lines 791-794 *)
Definition search_folder_path (target_out_path module_type : string) : string :=
  if negb (str_in module_type ["MISC"; "STATIC_CONFIG"])
  then target_obj_path target_out_path +:+ module_type
  else target_obj_path target_out_path.

(** Lines 802-815 without the loop of lines 805-808. *)
Definition narrow_without_removal (file_name : string) (exact_match_files : bool)
           (file_path_list : list string) : list string :=
  if exact_match_files then
    match List.filter (fun file => String.eqb (basename file) file_name)
                      file_path_list with
    | [] =>
        let file_extension := snd (splitext file_name) in
        List.filter (fun file => String.eqb (snd (splitext file)) file_extension)
                    file_path_list
    | matches => matches
    end
  else file_path_list.

End SearchFolder.

(** * The statistics of a run *)

Module Statistics.

(** The number [inject] logs as the number of files processed
    (line 248): the lengths of the three lists added up. *)
Definition files_processed (lists : Injector.PartitionResult) : nat :=
  let '(error_list, inj_obj_list, inj_partition_list) := lists in
  (List.length error_list + List.length inj_obj_list
   + List.length inj_partition_list)%nat.

End Statistics.

(** * Further scenarios *)

Module MatcherScenarios.
Import Scenarios.

(** A 64-bit library in a directory [arm64], with a build for each of
    the two architectures in the object cache. *)
Definition libbar_src : string := "src/system/lib/arm64/libbar.so".
Definition libbar_obj_arm64 : string :=
  "out/obj/SHARED_LIBRARIES/libbar_intermediates/arm64/libbar.so".
Definition libbar_obj_arm : string :=
  "out/obj/SHARED_LIBRARIES/libbar_intermediates/arm/libbar.so".
Definition fs_arm : FS :=
  {[ libbar_src := elf64; libbar_obj_arm64 := elf64; libbar_obj_arm := elf64 ]}.

(** A library with [arm] in its name, and the same file in the object
    cache. *)
Definition libalarm_src : string := "src/system/lib64/libalarm.so".
Definition libalarm_obj : string :=
  "out/obj/SHARED_LIBRARIES/libalarm_intermediates/libalarm.so".
Definition fs_alarm : FS := {[ libalarm_src := elf64; libalarm_obj := elf64 ]}.

End MatcherScenarios.

Module InjectionScenarios.
Import Effects Scenarios.

(** The object cache holds two 64-bit builds of the library. *)
Definition libfoo_obj_a : string :=
  "out/obj/SHARED_LIBRARIES/libfoo_intermediates/libfoo.so".
Definition libfoo_obj_b : string :=
  "out/obj/SHARED_LIBRARIES/libfoo_intermediates/LINKED/libfoo.so".
Definition old_build : list Byte.byte := ELF_MAGIC ++ [Byte.x02; Byte.x00].
Definition fs_two_builds : FS :=
  {[ libfoo_src := elf64; libfoo_target := old_build; libfoo_obj_a := old_build;
     libfoo_obj_b := old_build ]}.

(** The collaborators of the library scenarios with write access to the
    first build only. *)
Definition tools_first_build_only : Injector.Externals := {|
  Injector.ext_get_target_injection_path :=
    Injector.ext_get_target_injection_path tools;
  Injector.ext_inject_file_into_partition :=
    Injector.ext_inject_file_into_partition tools;
  Injector.ext_inject_apex_symlink_file :=
    Injector.ext_inject_apex_symlink_file tools;
  Injector.ext_can_write := fun path => String.eqb path libfoo_obj_a;
  Injector.ext_handle_apk_signing := Injector.ext_handle_apk_signing tools;
  Injector.ext_prepare_capex := Injector.ext_prepare_capex tools;
  Injector.ext_handle_apex_modules := Injector.ext_handle_apex_modules tools;
  Injector.ext_repackage_apex_file := Injector.ext_repackage_apex_file tools;
  Injector.ext_add_new_apex_file := Injector.ext_add_new_apex_file tools;
  Injector.ext_remove_vendor_name_from_path :=
    Injector.ext_remove_vendor_name_from_path tools;
  Injector.ext_format_exc := Injector.ext_format_exc tools
|}.

(** The collaborators of the library scenarios with an injection of
    the symbolic link that raises: [get_path_up_to_first_term] has found
    no root, and [str.replace] is given [None]. *)
Definition tools_symlink_fails : Injector.Externals := {|
  Injector.ext_get_target_injection_path :=
    Injector.ext_get_target_injection_path tools;
  Injector.ext_inject_file_into_partition :=
    Injector.ext_inject_file_into_partition tools;
  Injector.ext_inject_apex_symlink_file :=
    fun _ _ _ _ => raise (TypeError "replace() argument 1 must be str, not None");
  Injector.ext_can_write := Injector.ext_can_write tools;
  Injector.ext_handle_apk_signing := Injector.ext_handle_apk_signing tools;
  Injector.ext_prepare_capex := Injector.ext_prepare_capex tools;
  Injector.ext_handle_apex_modules := Injector.ext_handle_apex_modules tools;
  Injector.ext_repackage_apex_file := Injector.ext_repackage_apex_file tools;
  Injector.ext_add_new_apex_file := Injector.ext_add_new_apex_file tools;
  Injector.ext_remove_vendor_name_from_path :=
    Injector.ext_remove_vendor_name_from_path tools;
  Injector.ext_format_exc := Injector.ext_format_exc tools
|}.

(** A rule set that is empty but for the isolated-namespace list. *)
Definition config_isolated (names : list string) : PostInjectorConfig := {|
  SKIPPED_BINARY_LIST := [];
  SKIPPED_FILE_ENDING_LIST := [];
  ALLOW_ONLY_EXTENSION_LIST := [];
  SKIPPED_FILE_EXTENSION_LIST_GENERAL := [];
  SKIPPED_KEYWORD_LIST := [];
  SKIPPED_APEX_KEYWORD_LIST := [];
  SKIPPED_APP_KEYWORDLIST := [];
  SKIPPED_APP_LIST := [];
  ALLOWED_APP_INJECTION_KEYWORD := [];
  DISABLE_BINARY_INJECTION := false;
  ENABLE_SHARED_LIBRARIES_INJECTION_IF_NOT_EXISTS := false;
  SKIPPED_SHARED_LIBRARIES_EVEN_IF_NOT_EXISTS_LIST := [];
  SKIPPED_KEYWORD_SHARED_LIBRARIES_EVEN_IF_NOT_EXISTS_LIST := [];
  ENABLE_ALLOW_APEX_INJECT_ALWAYS_KEYWORD_NOT_IN_LIST := false;
  ALLOW_APEX_INJECT_ALWAYS_KEYWORD_NOT_IN_LIST := [];
  ALLOW_APEX_INJECT_ALWAYS_KEYWORD_LIST := [];
  DISALLOW_APP_INJECTION := false;
  DISABLE_JAVA_LIBRARIES_INJECTION := false;
  ALLOW_ALL_JAVA_LIBRARIES_INJECTION := false;
  DISABLE_MISC_INJECTION := false;
  ALLOW_APP_INJECT_ALWAYS := [];
  ALLOW_APP_INJECT_ALWAYS_KEYWORD_LIST := [];
  ALLOW_FILE_INJECT_ALWAYS := [];
  ALLOW_FILE_INJECT_ALWAYS_KEYWORD_LIST := [];
  SKIPPED_FILE_EXTENSION_LIST_INDIRECT_INJECTION := [];
  INDIRECT_INJECTION_FILE_MAPPING := ∅;
  ALLOW_APEX_INJECTION_MERGE := false;
  ALLOW_APEX_MERGE_KEYWORD_LIST := [];
  APEX_BINARY_ISOLATED_NAMESPACE_LIST := names
|}.

(** An app of the source tree, and collaborators whose signer fails. *)
Definition app_src : string := "src/system/app/Foo/Foo.apk".
Definition fs_app : FS := {[ app_src := [Byte.x50; Byte.x4b] ]}.
Definition tools_unsigned : Injector.Externals := {|
  Injector.ext_get_target_injection_path :=
    Injector.ext_get_target_injection_path tools;
  Injector.ext_inject_file_into_partition :=
    Injector.ext_inject_file_into_partition tools;
  Injector.ext_inject_apex_symlink_file :=
    Injector.ext_inject_apex_symlink_file tools;
  Injector.ext_can_write := Injector.ext_can_write tools;
  Injector.ext_handle_apk_signing := fun _ => ret (false, "apksigner failed");
  Injector.ext_prepare_capex := Injector.ext_prepare_capex tools;
  Injector.ext_handle_apex_modules := Injector.ext_handle_apex_modules tools;
  Injector.ext_repackage_apex_file := Injector.ext_repackage_apex_file tools;
  Injector.ext_add_new_apex_file := Injector.ext_add_new_apex_file tools;
  Injector.ext_remove_vendor_name_from_path :=
    Injector.ext_remove_vendor_name_from_path tools;
  Injector.ext_format_exc := Injector.ext_format_exc tools
|}.

(** A container file of the source tree, and collaborators whose
    repackaging fails. *)
Definition container_src : string := "src/system/apex/com.android.foo.apex".
Definition fs_container : FS := {[ container_src := [Byte.x50; Byte.x4b] ]}.
Definition tools_repack_fails : Injector.Externals := {|
  Injector.ext_get_target_injection_path :=
    Injector.ext_get_target_injection_path tools;
  Injector.ext_inject_file_into_partition :=
    Injector.ext_inject_file_into_partition tools;
  Injector.ext_inject_apex_symlink_file :=
    Injector.ext_inject_apex_symlink_file tools;
  Injector.ext_can_write := Injector.ext_can_write tools;
  Injector.ext_handle_apk_signing := Injector.ext_handle_apk_signing tools;
  Injector.ext_prepare_capex := Injector.ext_prepare_capex tools;
  Injector.ext_handle_apex_modules := Injector.ext_handle_apex_modules tools;
  Injector.ext_repackage_apex_file := fun _ => ret (false, "apexer failed");
  Injector.ext_add_new_apex_file := Injector.ext_add_new_apex_file tools;
  Injector.ext_remove_vendor_name_from_path :=
    Injector.ext_remove_vendor_name_from_path tools;
  Injector.ext_format_exc := Injector.ext_format_exc tools
|}.

(** Collaborators whose repackaging ends the program: the manifest that
    [move_apex_manifest_file] has found is gone when it looks again
    (line 1463). *)
Definition tools_repack_exits : Injector.Externals := {|
  Injector.ext_get_target_injection_path :=
    Injector.ext_get_target_injection_path tools;
  Injector.ext_inject_file_into_partition :=
    Injector.ext_inject_file_into_partition tools;
  Injector.ext_inject_apex_symlink_file :=
    Injector.ext_inject_apex_symlink_file tools;
  Injector.ext_can_write := Injector.ext_can_write tools;
  Injector.ext_handle_apk_signing := Injector.ext_handle_apk_signing tools;
  Injector.ext_prepare_capex := Injector.ext_prepare_capex tools;
  Injector.ext_handle_apex_modules := Injector.ext_handle_apex_modules tools;
  Injector.ext_repackage_apex_file := fun _ => raise (SystemExit 1);
  Injector.ext_add_new_apex_file := Injector.ext_add_new_apex_file tools;
  Injector.ext_remove_vendor_name_from_path :=
    Injector.ext_remove_vendor_name_from_path tools;
  Injector.ext_format_exc := Injector.ext_format_exc tools
|}.

End InjectionScenarios.

Module ContainerScenarios.
Import Effects Scenarios.

(** Tools of a repackaging in which every stage works. *)
Definition signed_container : list Byte.byte := [Byte.x50; Byte.x4b; Byte.x03].
Definition tools_repack : Apex.Tools := {|
  Apex.tool_find_emulator_apex_folder :=
    Apex.tool_find_emulator_apex_folder tools_signing_fails;
  Apex.tool_dir_exists := Apex.tool_dir_exists tools_signing_fails;
  Apex.tool_allow_vndk_merge := Apex.tool_allow_vndk_merge tools_signing_fails;
  Apex.tool_mkdtemp := Apex.tool_mkdtemp tools_signing_fails;
  Apex.tool_extract_apex_file := Apex.tool_extract_apex_file tools_signing_fails;
  Apex.tool_copytree := Apex.tool_copytree tools_signing_fails;
  Apex.tool_load_apex_manifest_from_aosp :=
    Apex.tool_load_apex_manifest_from_aosp tools_signing_fails;
  Apex.tool_inject_apex_vendor_files :=
    Apex.tool_inject_apex_vendor_files tools_signing_fails;
  Apex.tool_inject_apex_vendor_apps :=
    Apex.tool_inject_apex_vendor_apps tools_signing_fails;
  Apex.tool_generate_canned_fs_config :=
    Apex.tool_generate_canned_fs_config tools_signing_fails;
  Apex.tool_move_apex_manifest_file :=
    Apex.tool_move_apex_manifest_file tools_signing_fails;
  Apex.tool_copy_android_prebuilt_jar :=
    Apex.tool_copy_android_prebuilt_jar tools_signing_fails;
  Apex.tool_create_apex_container :=
    fun _ _ _ output_file_path _ _ fs =>
      (<[output_file_path := signed_container]> fs,
       Ok (true, "apexer done", Some media_key));
  Apex.tool_sign_apex_container_signapk := fun _ => ret (true, "signed");
  Apex.tool_verify_apk_file := Apex.tool_verify_apk_file tools_signing_fails;
  Apex.tool_inject_apex_avb_public_key :=
    Apex.tool_inject_apex_avb_public_key tools_signing_fails
|}.

(** Tools whose search for the manifest ends the program: in a
    repackaging [move_apex_manifest_file] calls [exit(1)], in a merge
    [load_apex_manifest_from_aosp] calls [exit(-1)]. *)
Definition tools_exit : Apex.Tools := {|
  Apex.tool_find_emulator_apex_folder :=
    Apex.tool_find_emulator_apex_folder tools_signing_fails;
  Apex.tool_dir_exists := Apex.tool_dir_exists tools_signing_fails;
  Apex.tool_allow_vndk_merge := Apex.tool_allow_vndk_merge tools_signing_fails;
  Apex.tool_mkdtemp := Apex.tool_mkdtemp tools_signing_fails;
  Apex.tool_extract_apex_file := Apex.tool_extract_apex_file tools_signing_fails;
  Apex.tool_copytree := Apex.tool_copytree tools_signing_fails;
  Apex.tool_load_apex_manifest_from_aosp := fun _ _ _ _ => raise (SystemExit (-1));
  Apex.tool_inject_apex_vendor_files :=
    Apex.tool_inject_apex_vendor_files tools_signing_fails;
  Apex.tool_inject_apex_vendor_apps :=
    Apex.tool_inject_apex_vendor_apps tools_signing_fails;
  Apex.tool_generate_canned_fs_config :=
    Apex.tool_generate_canned_fs_config tools_signing_fails;
  Apex.tool_move_apex_manifest_file := fun _ _ _ => raise (SystemExit 1);
  Apex.tool_copy_android_prebuilt_jar :=
    Apex.tool_copy_android_prebuilt_jar tools_signing_fails;
  Apex.tool_create_apex_container :=
    Apex.tool_create_apex_container tools_signing_fails;
  Apex.tool_sign_apex_container_signapk :=
    Apex.tool_sign_apex_container_signapk tools_signing_fails;
  Apex.tool_verify_apk_file := Apex.tool_verify_apk_file tools_signing_fails;
  Apex.tool_inject_apex_avb_public_key :=
    Apex.tool_inject_apex_avb_public_key tools_signing_fails
|}.

(** The file system after the repackaging of the container file: the
    backup copy, the manifest, and the signed output in the place of the
    container file. *)
Definition fs_repacked : FS :=
  {[ media_apex := signed_container;
     media_apex +:+ ".original_apex" := vendor_container;
     media_manifest := [] ]}.

(** An earlier attempt has left a backup copy and a changed container. *)
Definition fs_after_attempt : FS :=
  {[ media_apex := unsigned_container;
     media_apex +:+ ".original_apex" := vendor_container;
     media_out := unsigned_container ]}.

(** An earlier attempt has left the backup copy but no container. *)
Definition fs_container_lost : FS :=
  {[ media_apex +:+ ".original_apex" := vendor_container ]}.

(** A compressed container file that could not be decompressed. *)
Definition media_capex : string := "src/ALL_FILES/system/apex/com.android.media.capex".
Definition fs_capex : FS := {[ media_capex := vendor_container ]}.

End ContainerScenarios.

(** * Paths of the output tree *)

Module Paths.
Import PyStr Effects.

(** [s.split("/")] *)
Fixpoint split_sep (s : string) : list string :=
  match s with
  | EmptyString => [EmptyString]
  | String c s' =>
      if Ascii.eqb c "/" then EmptyString :: split_sep s'
      else match split_sep s' with
           | part :: parts => String c part :: parts
           | [] => [String c EmptyString]
           end
  end.

(** ["/".join(l)] *)
Fixpoint join_sep (l : list string) : string :=
  match l with
  | [] => EmptyString
  | [part] => part
  | part :: parts => part +:+ "/" +:+ join_sep parts
  end.

(** [l.index(x)]; [None] stands for the [ValueError] *)
Fixpoint index_of (x : string) (l : list string) : option nat :=
  match l with
  | [] => None
  | y :: l' => if String.eqb y x then Some O else option_map S (index_of x l')
  end.

(** [os.path.join] of the elements of a list that is not empty *)
Definition join_all (l : list string) : string :=
  match l with
  | [] => EmptyString
  | first :: rest => fold_left path_join rest first
  end.

(** One round of the loop of [posixpath.normpath]; the components kept
    so far are held last first. *)
Definition normpath_step (initial_slashes : nat) (new_comps : list string)
           (comp : string) : list string :=
  if str_in comp [""; "."] then new_comps
  else if negb (String.eqb comp "..")
          || (Nat.eqb initial_slashes 0
              && match new_comps with [] => true | _ => false end)
          || match new_comps with
             | last_comp :: _ => String.eqb last_comp ".."
             | [] => false
             end
  then comp :: new_comps
  else match new_comps with
       | _ :: kept => kept
       | [] => []
       end.

Fixpoint slashes (n : nat) : string :=
  match n with
  | O => EmptyString
  | S n' => String "/" (slashes n')
  end.

(** [os.path.normpath] *)
Definition normpath (path : string) : string :=
  if String.eqb path "" then "."
  else
    let initial_slashes :=
      if startswith "/" path then
        if startswith "//" path && negb (startswith "///" path) then 2%nat else 1%nat
      else 0%nat in
    let comps := fold_left (normpath_step initial_slashes) (split_sep path) [] in
    let path := slashes initial_slashes +:+ join_sep (rev comps) in
    if String.eqb path "" then "." else path.

(** [is_top_folder] *)
Definition is_top_folder (library_path folder_name : string) : bool :=
  match split_sep library_path with
  | first :: _ => String.eqb first folder_name
  | [] => false
  end.

(** [get_subfolders] *)
Definition get_subfolders (file_path top_folder_name : string) : result (list string) :=
  if contains top_folder_name file_path
     && negb (is_top_folder file_path top_folder_name)
  then
    let path_list := split_sep file_path in
    match index_of (replace "/" "" top_folder_name) path_list with
    | None =>
        Raise (ValueError ("'" +:+ replace "/" "" top_folder_name
                           +:+ "' is not in list"))
    | Some top_folder_index =>
        Ok (removelast (skipn (top_folder_index + 1) path_list))
    end
  else Ok [].

(** The two keys of the rule set [get_target_injection_path] reads. *)
Record NamespaceConfig : Type := {
  USE_ISOLATED_NAMESPACE : bool;
  ISOLATED_NAMESPACE_NATIVE_LIBRARY_LIST : list string
}.

(** Directories are no part of the file system of the embedding: whether
    one exists, and what [os.makedirs] does, is up to these two. *)
Record Directories : Type := {
  dir_exists : string -> FS -> bool;
  makedirs : string -> M unit
}.

(** Lines 970-971: the partition [super] is taken for [system]. *)
Definition effective_partition_name (partition_name : string) : string :=
  if String.eqb partition_name "super" then "system" else partition_name.

(** Lines 976-978: the root of the partition in the output tree. *)
Definition target_partition_path (partition_name target_out_path : string) : string :=
  let target_partition_path :=
    target_out_path +:+ effective_partition_name partition_name in
  if negb (endswith "/" target_partition_path) then target_partition_path +:+ "/"
  else target_partition_path.

(** [get_target_injection_path] *)
Definition get_target_injection_path (D : Directories) (cfg : NamespaceConfig)
           (source_file_path partition_name target_out_path : string) : M string :=
  let target_partition_path := target_partition_path partition_name target_out_path in
  let partition_name := effective_partition_name partition_name in
  let filename := basename source_file_path in
  let file_extension := snd (splitext source_file_path) in
  let* subfolder_list := lift (get_subfolders source_file_path partition_name) in
  let* target_dir_injection_path :=
    if Nat.eqb (List.length subfolder_list) 0 then ret target_partition_path
    else
      let* isolated :=
        read (fun fs =>
          str_in file_extension
                 [".so"; ".1"; ".2"; ".3"; ".4"; ".5"; ".6"; ".7"; ".8"; ".9"]
          && USE_ISOLATED_NAMESPACE cfg
          && contains "/lib" source_file_path
          && String.eqb (Matcher.check_shared_object_architecture fs source_file_path)
                        "64-bit"
          && str_in filename (ISOLATED_NAMESPACE_NATIVE_LIBRARY_LIST cfg)) in
      let target_dir_injection_path :=
        if isolated then path_join target_partition_path "fmd"
        else target_partition_path +:+ join_all subfolder_list in
      let target_dir_injection_path :=
        replace "/system/system/" "/system/" target_dir_injection_path in
      let target_dir_injection_path :=
        replace "/system/system_ext/" "/system_ext/" target_dir_injection_path in
      let target_dir_injection_path :=
        replace "/system/vendor/" "/vendor/" target_dir_injection_path in
      ret (replace "/system/product/" "/product/" target_dir_injection_path) in
  let* missing := read (fun fs => negb (dir_exists D target_dir_injection_path fs)) in
  let* _ := if missing then makedirs D target_dir_injection_path else ret tt in
  ret (normpath (path_join target_dir_injection_path (basename source_file_path))).

(** [get_path_up_to_first_term]; [None] when the term is no component *)
Definition get_path_up_to_first_term (path term : string) : option string :=
  let parts := split_sep path in
  match index_of term parts with
  | Some i => Some (join_sep (take (i + 1) parts) +:+ "/")
  | None => None
  end.

(** The directories are those of the files, and [os.makedirs] works. *)
Definition plain_directories : Directories := {|
  dir_exists := fun directory fs =>
    existsb (Matcher.under directory) (map fst (map_to_list fs));
  makedirs := fun _ => ret tt
|}.

Definition no_isolated_namespace : NamespaceConfig := {|
  USE_ISOLATED_NAMESPACE := false;
  ISOLATED_NAMESPACE_NATIVE_LIBRARY_LIST := []
|}.

(** An app below a directory [system_ext] of the partition [super], and
    a library of that partition with no [system] in its path. *)
Definition super_app : string := "src/super/system_ext/priv-app/Foo.apk".
Definition super_library : string := "src/super/vendor/lib64/libbaz.so".
Definition fs_super : FS :=
  {[ super_app := [Byte.x50; Byte.x4b]; super_library := Scenarios.elf64;
     "out/system/build.prop" := [] ]}.

End Paths.

(** * The direct injection *)

Module Direct.
Import PyStr Effects Paths.

(** The keys of the rule set that only the direct injection reads. *)
Record DirectConfig : Type := {
  OVERWRITE_APP_PROCESS_32 : bool;
  DIRECT_INJECTION_TARGET_PATH_OVERWRITE : gmap string string
}.

(** [handle_special_matching] *)
Definition handle_special_matching (source_file_injection_path : string) : string :=
  if endswith "app_process32" source_file_injection_path
  then replace "app_process32" "app_process64" source_file_injection_path
  else source_file_injection_path.

(** [set_executable_permission]: the mode of an existing [.so] file is
    changed; [chmod_ok] tells whether [os.chmod] works on a path. *)
Definition set_executable_permission (chmod_ok : string -> bool) (file_path : string)
           (fs : FS) : bool :=
  if path_exists fs file_path && String.eqb (snd (splitext file_path)) ".so"
  then chmod_ok file_path
  else true.

(** Lines 1013-1015 *)
Definition effective_source (dc : DirectConfig) (source_file_path : string) : string :=
  if OVERWRITE_APP_PROCESS_32 dc then handle_special_matching source_file_path
  else source_file_path.

(** Lines 1023-1029: the override table gives a path below the product
    directory that goes with the lunch target. *)
Definition effective_target (dc : DirectConfig)
           (aosp_path lunch_target target_file_injection_path : string) : string :=
  match DIRECT_INJECTION_TARGET_PATH_OVERWRITE dc
          !! basename target_file_injection_path with
  | Some overwrite =>
      if contains "phone64" lunch_target
      then path_join (path_join aosp_path "out/target/product/emulator64_arm64")
                     overwrite
      else path_join (path_join aosp_path "out/target/product/emulator_arm64")
                     overwrite
  | None => target_file_injection_path
  end.

(** [inject_file_into_partition], for a file system of regular files
    (no symbolic links). *)
Definition inject_file_into_partition (E : Injector.Externals) (D : Directories)
           (chmod_ok : string -> bool) (c : PostInjectorConfig) (dc : DirectConfig)
           (source_file_path target_file_injection_path aosp_path partition_name
            lunch_target : string) : M string :=
  let filename := basename target_file_injection_path in
  let source_file_path := effective_source dc source_file_path in
  let target_file_injection_path :=
    effective_target dc aosp_path lunch_target target_file_injection_path in
  if str_in filename (APEX_BINARY_ISOLATED_NAMESPACE_LIST c)
     || str_in source_file_path (APEX_BINARY_ISOLATED_NAMESPACE_LIST c)
  then
    let* is_injected :=
      Injector.ext_inject_apex_symlink_file E filename source_file_path
        target_file_injection_path partition_name in
    ret target_file_injection_path
  else
    let* target_exists := read (fun fs => path_exists fs target_file_injection_path) in
    if target_exists then
      let* _ :=
        try_except
          (let* is_file := read (fun fs => path_exists fs source_file_path) in
           if is_file then
             let* _ := compute_file_hash source_file_path in
             let* _ := compute_file_hash target_file_injection_path in
             let* _ := copyfile (Injector.ext_can_write E) source_file_path
                                target_file_injection_path in
             let* permitted :=
               read (set_executable_permission chmod_ok target_file_injection_path) in
             if negb permitted
             then raise (OSError ("Permission denied for overwrite "
                                  +:+ target_file_injection_path))
             else ret tt
           else ret tt)
          (fun _ => ret tt) in
      ret target_file_injection_path
    else
      let* source_exists := read (fun fs => path_exists fs source_file_path) in
      let* _ :=
        if negb source_exists then ret tt
        else
          let* _ := makedirs D (dirname target_file_injection_path) in
          try_except
            (copyfile (Injector.ext_can_write E) source_file_path
                      target_file_injection_path)
            (fun _ => ret tt) in
      let* permitted :=
        read (set_executable_permission chmod_ok target_file_injection_path) in
      if negb permitted
      then raise (OSError ("Permission denied for not existing file inject: "
                           +:+ target_file_injection_path))
      else ret target_file_injection_path.

(** What a direct injection leaves when nothing stands in its way: the
    target holds the content of the source if the source exists, is not
    the target itself and the target can be written. *)
Definition injected (E : Injector.Externals) (source target : string) (fs : FS) : FS :=
  match fs !! source with
  | Some content =>
      if String.eqb source target then fs
      else if Injector.ext_can_write E target then <[target := content]> fs
      else fs
  | None => fs
  end.

Definition no_overwrite : DirectConfig := {|
  OVERWRITE_APP_PROCESS_32 := false;
  DIRECT_INJECTION_TARGET_PATH_OVERWRITE := ∅
|}.

End Direct.

(** * Signing an app *)

Module Signing.
Import PyStr Effects.

(** What [handle_apk_signing] gets from outside: the key name
    [get_signing_key_from_module] finds for an app, and the run of a
    command by [execute_command], which catches every [Exception] and
    returns a success flag and a log. *)
Record SigningTools : Type := {
  get_signing_key_from_module : string -> M string;
  execute_command : list string -> FS -> FS * (bool * string)
}.

(** [get_signing_key_path] *)
Definition get_signing_key_path (aosp_path signing_key_name : string) : string :=
  replace "//" "/"
          (aosp_path +:+ "build/target/product/security/" +:+ signing_key_name
           +:+ ".p12").

(** The command line of [sign_apk_file]. *)
Definition sign_command (apk_file_path signing_key_path : string) : list string :=
  ["sudo"; "apksigner"; "sign";
   "--ks"; signing_key_path;
   "--v2-signing-enabled"; "true";
   "--v3-signing-enabled"; "true";
   "--v4-signing-enabled"; "true";
   "--ks-pass"; "pass:";
   "--verbose";
   "--in"; apk_file_path;
   "--out"; apk_file_path].

(** [sign_apk_file] with the three signing schemes at their default *)
Definition sign_apk_file (T : SigningTools) (apk_file_path signing_key_path : string)
  : M (bool * string) :=
  let* apk_exists := read (fun fs => path_exists fs apk_file_path) in
  if negb apk_exists
  then ret (false, "Error: APK file not found for signing: " +:+ apk_file_path)
  else
    let* key_exists := read (fun fs => path_exists fs signing_key_path) in
    if negb key_exists
    then ret (false, "Error: Signing key not found for signing: " +:+ signing_key_path)
    else fun fs =>
           let (fs', outcome) :=
             execute_command T (sign_command apk_file_path signing_key_path) fs in
           (fs', Ok outcome).

(** The third component of the result of [handle_apk_signing]. *)
Definition SigningReport : Type := option string * string * string * string.

(** [handle_apk_signing]; the second component of its result is always
    [None] and is left out. *)
Definition handle_apk_signing (T : SigningTools) (file_path aosp_path : string)
  : M (bool * SigningReport) :=
  let* signing_key := get_signing_key_from_module T file_path in
  let error_message : option string :=
    if String.eqb signing_key ""
    then Some ("Signing key name not found for " +:+ file_path) else None in
  let signing_key_path := get_signing_key_path aosp_path signing_key in
  let* key_exists := read (fun fs => path_exists fs signing_key_path) in
  let error_message :=
    if negb key_exists then Some ("Signing key not found at " +:+ signing_key_path)
    else error_message in
  if negb (Injector.truthy error_message) then
    let* ' (is_success, log_message) := sign_apk_file T file_path signing_key_path in
    ret (is_success,
         (if negb is_success
          then Some ("Error signing APK file with apksigner: Key:" +:+ signing_key
                     +:+ "|Key Path: " +:+ signing_key_path +:+ "|Message:"
                     +:+ log_message)
          else error_message,
          file_path, signing_key, signing_key_path))
  else ret (false, (error_message, file_path, signing_key, signing_key_path)).

(** The platform key is in place and the signer works. *)
Definition platform_key : string := "/aosp/build/target/product/security/platform.p12".
Definition fs_app_and_key : FS :=
  {[ InjectionScenarios.app_src := [Byte.x50; Byte.x4b]; platform_key := [Byte.x30] ]}.
Definition tools_platform : SigningTools := {|
  get_signing_key_from_module := fun _ => ret "platform";
  execute_command := fun _ fs => (fs, (true, "Signed"))
|}.

End Signing.

(** * The emulator folder of a container file *)

Module Emulator.
Import PyStr Effects.

(** [get_apex_build_intermediate_folder] *)
Definition get_apex_build_intermediate_folder (dir_exists : string -> FS -> bool)
           (target_out_path : string) : M string :=
  let apex_folder_path := path_join target_out_path "apex" in
  let* found := read (dir_exists apex_folder_path) in
  if found then ret apex_folder_path
  else raise (ValueError ("APEX build intermediate folder not found: "
                          +:+ apex_folder_path)).

(** The loop of [get_match_existing_emulator_folders] over the keys of
    [APEX_DEFAULT_EMULATOR_PATHS_DICT], a list of pairs in the order of
    the rule set whose keys differ from each other. *)
Fixpoint first_matching_folder (paths : list (string * string))
         (filename_no_vendor : string) : option string :=
  match paths with
  | [] => None
  | (key, folder) :: rest =>
      if contains key filename_no_vendor then
        if String.eqb key "media"
           && (contains "mediaprovider" filename_no_vendor
               || contains "swcodec" filename_no_vendor)
        then first_matching_folder rest filename_no_vendor
        else Some folder
      else first_matching_folder rest filename_no_vendor
  end.

(** Lines 682-683: the digits behind [tzdata] are dropped. *)
Definition without_tzdata_version (filename_no_vendor : string) : string :=
  if contains "tzdata" filename_no_vendor then sub_tzdata filename_no_vendor
  else filename_no_vendor.

(** [get_match_existing_emulator_folders] *)
Definition get_match_existing_emulator_folders (paths : list (string * string))
           (filename_no_vendor : string) : option string :=
  first_matching_folder paths (without_tzdata_version filename_no_vendor).

(** [find_emulator_apex_folder]; the vendor words come from outside. *)
Definition find_emulator_apex_folder (dir_exists : string -> FS -> bool)
           (remove_vendor_name_from_filename : string -> result string)
           (paths : list (string * string))
           (target_out_path file_path : string) : M (option string) :=
  let filename := basename file_path in
  let* filename_no_vendor := lift (remove_vendor_name_from_filename filename) in
  let filename_no_vendor :=
    replace ".capex" "" (replace ".apex" "" filename_no_vendor) in
  let* apex_emulator_folder_root :=
    get_apex_build_intermediate_folder dir_exists target_out_path in
  match get_match_existing_emulator_folders paths filename_no_vendor with
  | None =>
      raise (TypeError
               "join() argument must be str, bytes, or os.PathLike object, not 'NoneType'")
  | Some apex_emulator_folder_name =>
      let apex_module_folder :=
        path_join apex_emulator_folder_root apex_emulator_folder_name in
      let* found := read (dir_exists apex_module_folder) in
      ret (if found then Some apex_module_folder else None)
  end.

(** The tools of a merge with this search for the emulator folder. *)
Definition with_emulator_folders (T : Apex.Tools)
           (remove_vendor_name_from_filename : string -> result string)
           (paths : list (string * string)) : Apex.Tools := {|
  Apex.tool_find_emulator_apex_folder :=
    find_emulator_apex_folder (Apex.tool_dir_exists T)
                              remove_vendor_name_from_filename paths;
  Apex.tool_dir_exists := Apex.tool_dir_exists T;
  Apex.tool_allow_vndk_merge := Apex.tool_allow_vndk_merge T;
  Apex.tool_mkdtemp := Apex.tool_mkdtemp T;
  Apex.tool_extract_apex_file := Apex.tool_extract_apex_file T;
  Apex.tool_copytree := Apex.tool_copytree T;
  Apex.tool_load_apex_manifest_from_aosp := Apex.tool_load_apex_manifest_from_aosp T;
  Apex.tool_inject_apex_vendor_files := Apex.tool_inject_apex_vendor_files T;
  Apex.tool_inject_apex_vendor_apps := Apex.tool_inject_apex_vendor_apps T;
  Apex.tool_generate_canned_fs_config := Apex.tool_generate_canned_fs_config T;
  Apex.tool_move_apex_manifest_file := Apex.tool_move_apex_manifest_file T;
  Apex.tool_copy_android_prebuilt_jar := Apex.tool_copy_android_prebuilt_jar T;
  Apex.tool_create_apex_container := Apex.tool_create_apex_container T;
  Apex.tool_sign_apex_container_signapk := Apex.tool_sign_apex_container_signapk T;
  Apex.tool_verify_apk_file := Apex.tool_verify_apk_file T;
  Apex.tool_inject_apex_avb_public_key := Apex.tool_inject_apex_avb_public_key T
|}.

(** A table with the folders of two containers. *)
Definition two_folders : list (string * string) :=
  [("media", "com.android.media"); ("wifi", "com.android.wifi")].

End Emulator.

(** * The build of the emulator image *)

Module Build.
Import PyStr.

Definition SUPPORTED_LUNCH_TARGETS : list string :=
  ["sdk_phone_x86_64-userdebug"; "sdk_phone_arm64-userdebug";
   "sdk_phone64_arm64-userdebug"; "sdk_phone64_arm64-ap2a-userdebug"].

Definition AOSP_BUILD_OUT_SDK_ARM64_PATH : string :=
  "out/target/product/emulator_arm64/".
Definition AOSP_BUILD_OUT_SDK_ARM64_x64_PATH : string :=
  "out/target/product/emulator64_arm64/".
Definition AOSP_BUILD_OUT_SDK_ARM64_x64_PATH_A14 : string :=
  "out/target/product/emu64a/".
Definition AOSP_BUILD_OUT_SDK_x86_64_PATH : string :=
  "out/target/product/emulator_x86_64/".

(** [get_target_out_path] *)
Definition get_target_out_path (aosp_path lunch_target : string) : result string :=
  if String.eqb lunch_target (nth 0 SUPPORTED_LUNCH_TARGETS "")
  then Ok (path_join aosp_path AOSP_BUILD_OUT_SDK_x86_64_PATH)
  else if String.eqb lunch_target (nth 1 SUPPORTED_LUNCH_TARGETS "")
  then Ok (path_join aosp_path AOSP_BUILD_OUT_SDK_ARM64_PATH)
  else if String.eqb lunch_target (nth 2 SUPPORTED_LUNCH_TARGETS "")
  then Ok (path_join aosp_path AOSP_BUILD_OUT_SDK_ARM64_x64_PATH)
  else if String.eqb lunch_target (nth 3 SUPPORTED_LUNCH_TARGETS "")
  then Ok (path_join aosp_path AOSP_BUILD_OUT_SDK_ARM64_x64_PATH_A14)
  else Raise (PyException ("Unsupported build architecture: " +:+ lunch_target)).

Definition META_BUILD_SYSTEM_FILENAME : string := "meta_build_system.txt".
Definition META_BUILD_VENDOR_FILENAME : string := "meta_build_vendor.txt".
Definition META_BUILD_PRODUCT_FILENAME : string := "meta_build_product.txt".
Definition META_BUILD_SYSTEM_EXT_FILENAME : string := "meta_build_system_ext.txt".
Definition META_BUILD_HANDHELD_SYSTEM_FILENAME : string :=
  "meta_handheld_system_ext.txt".
Definition META_BUILD_HANDHELD_SYSTEM_EXT_FILENAME : string :=
  "meta_handheld_system.txt".
Definition META_BUILD_HANDHELD_VENDOR_FILENAME : string := "meta_handheld_vendor.txt".
Definition META_BUILD_HANDHELD_PRODUCT_FILENAME : string :=
  "meta_handheld_product.txt".
Definition META_BUILD_FILENAMES : list string :=
  [META_BUILD_SYSTEM_FILENAME; META_BUILD_SYSTEM_EXT_FILENAME;
   META_BUILD_VENDOR_FILENAME; META_BUILD_PRODUCT_FILENAME;
   META_BUILD_HANDHELD_SYSTEM_FILENAME; META_BUILD_HANDHELD_SYSTEM_EXT_FILENAME;
   META_BUILD_HANDHELD_VENDOR_FILENAME; META_BUILD_HANDHELD_PRODUCT_FILENAME].

Definition BASE_PRODUCT_FILE_NAME : string := "base_product.mk".
Definition BASE_SYSTEM_FILE_NAME : string := "base_system.mk".
Definition BASE_VENDOR_FILE_NAME : string := "base_vendor.mk".
Definition BASE_SYSTEM_EXT_FILE_NAME : string := "base_system_ext.mk".
Definition BASE_HANDHELD_SYSTEM_FILE_NAME : string := "handheld_system.mk".
Definition BASE_HANDHELD_SYSTEM_EXE_FILE_NAME : string := "handheld_system_ext.mk".
Definition BASE_HANDHELD_PRODUCT_FILE_NAME : string := "handheld_product.mk".
Definition BASE_HANDHELD_VENDOR_FILE_NAME : string := "handheld_vendor.mk".

(** [get_base_filename] *)
Definition get_base_filename (meta_build_filename : string) : result string :=
  if contains "build_product" meta_build_filename then Ok BASE_PRODUCT_FILE_NAME
  else if contains "build_vendor" meta_build_filename then Ok BASE_VENDOR_FILE_NAME
  else if contains "build_system_ext" meta_build_filename
  then Ok BASE_SYSTEM_EXT_FILE_NAME
  else if contains "build_system" meta_build_filename then Ok BASE_SYSTEM_FILE_NAME
  else if contains "handheld_system" meta_build_filename
  then Ok BASE_HANDHELD_SYSTEM_FILE_NAME
  else if contains "handheld_system_ext" meta_build_filename
  then Ok BASE_HANDHELD_SYSTEM_EXE_FILE_NAME
  else if contains "handheld_vendor" meta_build_filename
  then Ok BASE_HANDHELD_VENDOR_FILE_NAME
  else if contains "handheld_product" meta_build_filename
  then Ok BASE_HANDHELD_PRODUCT_FILE_NAME
  else Raise (PyException ("Unsupported build architecture: "
                           +:+ meta_build_filename)).

(** The lunch targets for which an entry of the override table of the
    direct injection leads into the output tree of the run. *)
Definition override_in_output_tree (lunch_target : string) : bool :=
  str_in lunch_target ["sdk_phone_arm64-userdebug"; "sdk_phone64_arm64-userdebug"].

(** An override table with one entry. *)
Definition one_overwrite : Direct.DirectConfig := {|
  Direct.OVERWRITE_APP_PROCESS_32 := false;
  Direct.DIRECT_INJECTION_TARGET_PATH_OVERWRITE :=
    {[ "libfoo.so" := "system/lib64/hw/libfoo.so" ]}
|}.

End Build.

(** * Running the extractor of container files *)

Module Shell.
Import PyStr Effects.

(** [subprocess.run(command, shell=True, capture_output=True)] in a
    working directory: the return code and the two decoded streams. *)
Definition Subprocess : Type := string -> string -> FS -> FS * (Z * string * string).

Definition bool_str (b : bool) : string := if b then "True" else "False".

(** [execute_shell_command] *)
Definition execute_shell_command (run : Subprocess) (command aosp_root_path : string)
           (fs : FS) : FS * (bool * string) :=
  let '(fs', (returncode, stdout, stderr)) := run command aosp_root_path fs in
  let log_out := strip stdout in
  let log_err := strip stderr in
  let is_success := Z.eqb returncode 0 || negb (contains "error" (lower log_err)) in
  (fs', (is_success,
         "is_success: " +:+ bool_str is_success +:+ " result.returncode: "
         +:+ pretty returncode +:+ ", stdout: " +:+ log_out +:+ " | error: "
         +:+ log_err)).

(** Lines 1402-1406: the first of the two known places that exists. *)
Definition deapexer_tool_path (aosp_path : string) (fs : FS) : option string :=
  List.find (path_exists fs)
            [path_join aosp_path "out/soong/host/linux-x86/bin/deapexer";
             path_join aosp_path "out/host/linux-x86/bin/deapexer"].

(** Line 1414 *)
Definition extract_command (aosp_path lunch_target deapexer apex_file_path
                            output_dir_path : string) : string :=
  "bash -c 'cd " +:+ aosp_path +:+ " && source " +:+ aosp_path
  +:+ "build/envsetup.sh && lunch " +:+ lunch_target +:+ " && " +:+ deapexer
  +:+ " extract " +:+ apex_file_path +:+ " " +:+ output_dir_path +:+ "'".

(** [extract_apex_file]; of the set with one message that it returns,
    the message. *)
Definition extract_apex_file (run : Subprocess)
           (aosp_path apex_file_path output_dir_path lunch_target : string)
           (fs : FS) : FS * (bool * string) :=
  match deapexer_tool_path aosp_path fs with
  | None =>
      (fs, (false,
            "APEX extract_apex_file failed: Deapexer tool not found in any known location."))
  | Some deapexer =>
      let info :=
        "APEX: Deapexer tool path: " +:+ deapexer +:+ "|" +:+ lunch_target +:+ "|"
        +:+ apex_file_path +:+ "|" +:+ output_dir_path in
      let command :=
        extract_command aosp_path lunch_target deapexer apex_file_path
                        output_dir_path in
      let '(fs1, (is_success, log)) := execute_shell_command run command aosp_path fs in
      let '(fs2, (is_success, log)) :=
        if negb is_success then execute_shell_command run command aosp_path fs1
        else (fs1, (is_success, log)) in
      (fs2, (is_success, "ERROR: " +:+ log +:+ "| More infos: " +:+ info))
  end.

(** The extractor is in place; it exits with code 1 and a warning on
    its error stream, and leaves a note of each run. *)
Definition deapexer : string := "/aosp/out/host/linux-x86/bin/deapexer".
Definition fs_deapexer : FS := {[ deapexer := [] ]}.
Definition run_with_warning : Subprocess :=
  fun command _ fs =>
    (<[ (if path_exists fs "tmp/run1" then "tmp/run2" else "tmp/run1") := [] ]> fs,
     (1%Z, "", "WARNING: payload is not aligned ")).

End Shell.


(** * Properties *)

(** ** Sanity checks of the primitives against Python *)

Module PyStrTests.
Import PyStr.

Example basename_1 : basename "/a/b/libfoo.so" = "libfoo.so".
Proof. reflexivity. Qed.
Example basename_2 : basename "a/b/" = "".
Proof. reflexivity. Qed.
Example dirname_1 : dirname "/a/b/libfoo.so" = "/a/b".
Proof. reflexivity. Qed.
Example dirname_2 : dirname "/libfoo.so" = "/".
Proof. reflexivity. Qed.
Example dirname_3 : dirname "a//b" = "a".
Proof. reflexivity. Qed.
Example dirname_4 : dirname "libfoo.so" = "".
Proof. reflexivity. Qed.
Example splitext_1 : splitext "/a/b/libfoo.so" = ("/a/b/libfoo", ".so").
Proof. reflexivity. Qed.
Example splitext_2 : splitext "/a.d/sh" = ("/a.d/sh", "").
Proof. reflexivity. Qed.
Example splitext_3 : splitext "/a/.bashrc" = ("/a/.bashrc", "").
Proof. reflexivity. Qed.
Example splitext_4 : splitext "x.tar.gz" = ("x.tar", ".gz").
Proof. reflexivity. Qed.
Example splitext_5 : splitext "..a." = ("..a", ".").
Proof. reflexivity. Qed.
Example splitext_6 : splitext "...." = ("....", "").
Proof. reflexivity. Qed.
Example replace_1 : replace "_compressed" "" "a_compressed.apex" = "a.apex".
Proof. reflexivity. Qed.
Example replace_2 : replace "aa" "b" "aaaaa" = "bba".
Proof. reflexivity. Qed.
Example replace_3 : replace "" "-" "ab" = "-a-b-".
Proof. reflexivity. Qed.
Example strip_1 : strip "  /a b.so
" = "/a b.so".
Proof. reflexivity. Qed.
Example contains_1 : contains "bin" "/system/xbin" = true.
Proof. reflexivity. Qed.
Example contains_2 : contains "" "" = true.
Proof. reflexivity. Qed.
Example endswith_1 : endswith ".capex" "a/b.capex" = true.
Proof. reflexivity. Qed.
Example endswith_2 : endswith "" "ab" = true.
Proof. reflexivity. Qed.
Example lower_1 : lower ".APK" = ".apk".
Proof. reflexivity. Qed.
Example path_join_1 : path_join "out/" "obj" = "out/obj".
Proof. reflexivity. Qed.
Example path_join_2 : path_join "out" "obj" = "out/obj".
Proof. reflexivity. Qed.
Example path_join_3 : path_join "out" "/obj" = "/obj".
Proof. reflexivity. Qed.
Example sub_tzdata_1 :
  sub_tzdata "com.android.tzdata4.apex" = "com.android.tzdata.apex".
Proof. reflexivity. Qed.
Example sub_tzdata_2 : sub_tzdata "tzdata.1tzdata22x3" = "tzdata.1tzdatax3".
Proof. reflexivity. Qed.
End PyStrTests.

Module ClassifierTests.
Import Classifier.

Example so_file :
  get_module_type ∅ "/src/system/lib/libfoo.so" (Some []) (Some empty_config)
  = Ok ("SHARED_LIBRARIES", "SHARED_LIBRARIES").
Proof. vm_compute. reflexivity. Qed.

Example bin_dir :
  get_module_type ∅ "/src/system/bin/sh" (Some []) (Some empty_config)
  = Ok ("EXECUTABLES", "EXECUTABLES").
Proof. vm_compute. reflexivity. Qed.

Example elf_content :
  get_module_type {[ "/src/system/tool" := ELF_MAGIC ++ [Byte.x02] ]}
                  "/src/system/tool" (Some []) (Some empty_config)
  = Ok ("EXECUTABLES", "EXECUTABLES").
Proof. vm_compute. reflexivity. Qed.

Example compressed_apex_already_injected :
  get_module_type ∅ "/src/system/apex/com.android.foo_compressed.apex"
                  (Some ["FMD_APEXcom.android.foo.apex"]) (Some empty_config)
  = Ok ("SKIPPED", "ETC").
Proof. vm_compute. reflexivity. Qed.
End ClassifierTests.

(** ** Facts about the classifier *)

Module ClassifierFacts.
Import PyStr Classifier Props.

Lemma fst_lbind {A B} (m : Logged A) (f : A -> Logged B) :
  fst (lbind m f) = fst (f (fst m)).
Proof. unfold lbind. destruct (f (fst m)). reflexivity. Qed.

Lemma snd_lbind {A B} (m : Logged A) (f : A -> Logged B) :
  snd (lbind m f) = snd m ++ snd (f (fst m)).
Proof. unfold lbind. destruct (f (fst m)). reflexivity. Qed.

Lemma no_warning_lbind {A B} (m : Logged A) (f : A -> Logged B) :
  no_warning m -> (forall a, no_warning (f a)) -> no_warning (lbind m f).
Proof.
  unfold no_warning. intros Hm Hf. rewrite snd_lbind, existsb_app, Hm.
  apply Hf.
Qed.

Ltac split_ifs :=
  repeat match goal with
         | |- context [if ?b then _ else _] => destruct b eqn:?
         end.

Ltac rule_step :=
  intros; unfold allowed in *; split_ifs; simpl; auto.

Section Preservation.
Variable c : PostInjectorConfig.
Variables source_file_path file_extension file_name file_name_no_ext : string.
Variable is_apex : bool.
Variable tmp : string.

Lemma skipped_app_keyword_allowed m :
  allowed tmp m -> allowed tmp (rule_skipped_app_keyword c file_name m).
Proof. unfold rule_skipped_app_keyword. rule_step. Qed.

Lemma skipped_app_list_allowed m :
  allowed tmp m ->
  allowed tmp (rule_skipped_app_list c file_name file_name_no_ext m).
Proof. unfold rule_skipped_app_list. rule_step. Qed.

Lemma allowed_app_keyword_id m :
  rule_allowed_app_keyword c file_name m = m.
Proof.
  unfold rule_allowed_app_keyword.
  destruct (String.eqb m "APPS") eqn:E; simpl; [|reflexivity].
  apply String.eqb_eq in E. subst m.
  destruct (any_keyword_in _ _); reflexivity.
Qed.

Lemma disable_binary_allowed m :
  allowed tmp m -> allowed tmp (rule_disable_binary c m).
Proof. unfold rule_disable_binary. rule_step. Qed.

Lemma general_deny_allowed m :
  allowed tmp m ->
  allowed tmp (rule_general_deny c source_file_path file_extension file_name m).
Proof. unfold rule_general_deny. rule_step. Qed.

Lemma rules_before_loop_allowed m :
  allowed tmp m ->
  allowed tmp (rules_before_loop c source_file_path file_extension file_name
                                 file_name_no_ext m).
Proof.
  intros H. unfold rules_before_loop.
  apply general_deny_allowed, disable_binary_allowed.
  rewrite allowed_app_keyword_id.
  apply skipped_app_list_allowed, skipped_app_keyword_allowed, H.
Qed.

(** With a list supplied the loop returns, and logs no warning. *)
Lemma already_injected_supplied l m :
  allowed tmp m ->
  exists m',
    fst (rule_already_injected file_name file_name_no_ext (Some l) m) = Ok m'
    /\ allowed tmp m'
    /\ no_warning (rule_already_injected file_name file_name_no_ext (Some l) m).
Proof.
  intros H. unfold rule_already_injected.
  destruct (str_in m _); [destruct (existsb _ l)|]; simpl; eexists;
    (split; [reflexivity|split; [|reflexivity]]); unfold allowed in *; auto.
Qed.

(** Without a list the loop either is not entered or raises. *)
Lemma already_injected_cases pre m :
  allowed tmp m ->
  match fst (rule_already_injected file_name file_name_no_ext pre m) with
  | Ok m' => allowed tmp m'
  | Raise _ => pre = None
  end.
Proof.
  intros H. unfold rule_already_injected.
  destruct (str_in m _); [destruct pre as [l|]; [destruct (existsb _ l)|]|];
    simpl; unfold allowed in *; auto.
Qed.

Lemma shared_library_allowed m :
  allowed tmp m ->
  allowed tmp (fst (rule_shared_library_if_not_exists c file_extension file_name tmp m)).
Proof. unfold rule_shared_library_if_not_exists. rule_step. Qed.

Lemma skipped_apex_keyword_allowed m :
  allowed tmp m -> allowed tmp (rule_skipped_apex_keyword c file_name is_apex m).
Proof. unfold rule_skipped_apex_keyword. rule_step. Qed.

Lemma apex_keyword_not_in_list_allowed m :
  allowed tmp m -> allowed tmp (rule_apex_keyword_not_in_list c file_name is_apex m).
Proof. unfold rule_apex_keyword_not_in_list. rule_step. Qed.

Lemma apex_always_keyword_allowed m :
  allowed tmp m -> allowed tmp (rule_apex_always_keyword c file_name is_apex m).
Proof. unfold rule_apex_always_keyword. rule_step. Qed.

Lemma disallow_app_allowed m :
  allowed tmp m -> allowed tmp (fst (rule_disallow_app c m)).
Proof. unfold rule_disallow_app. rule_step. Qed.

Lemma java_libraries_allowed m :
  allowed tmp m -> allowed tmp (fst (rule_java_libraries c tmp m)).
Proof. unfold rule_java_libraries. rule_step. Qed.

Lemma disable_misc_allowed m :
  allowed tmp m -> allowed tmp (rule_disable_misc c m).
Proof. unfold rule_disable_misc. rule_step. Qed.

Lemma allow_app_always_allowed m :
  allowed tmp m ->
  allowed tmp (fst (rule_allow_app_always c file_extension file_name tmp m)).
Proof. unfold rule_allow_app_always. rule_step. Qed.

Lemma allow_file_always_allowed m :
  allowed tmp m ->
  allowed tmp (fst (rule_allow_file_always c source_file_path file_name tmp m)).
Proof. unfold rule_allow_file_always. rule_step. Qed.

Lemma rules_after_loop_allowed m :
  allowed tmp m ->
  allowed tmp (fst (rules_after_loop c source_file_path file_extension file_name
                                     is_apex tmp m)).
Proof.
  intros H. unfold rules_after_loop. rewrite !fst_lbind.
  apply allow_file_always_allowed, allow_app_always_allowed,
    disable_misc_allowed, java_libraries_allowed, disallow_app_allowed,
    apex_always_keyword_allowed, apex_keyword_not_in_list_allowed,
    skipped_apex_keyword_allowed, shared_library_allowed, H.
Qed.

Lemma rules_after_loop_no_warning m :
  no_warning (rules_after_loop c source_file_path file_extension file_name
                               is_apex tmp m).
Proof.
  unfold rules_after_loop.
  repeat (apply no_warning_lbind; [|intros ?]);
    unfold rule_allow_file_always, rule_allow_app_always, rule_java_libraries,
      rule_disallow_app, rule_shared_library_if_not_exists;
    split_ifs; reflexivity.
Qed.

(** When the last rule fires the final type is the tentative one. *)
Lemma rules_after_loop_always m :
  always_allowed c source_file_path file_name = true ->
  fst (rules_after_loop c source_file_path file_extension file_name
                        is_apex tmp m) = tmp.
Proof.
  intros H. unfold rules_after_loop. rewrite !fst_lbind.
  unfold rule_allow_file_always. rewrite H. reflexivity.
Qed.
End Preservation.

Lemma base_module_type_label fs parent_dir p ext name :
  In (fst (base_module_type fs parent_dir p ext name)) BASE_LABELS.
Proof.
  unfold base_module_type, BASE_LABELS. split_ifs; simpl; auto 10.
Qed.

Lemma base_label_not_skipped t : In t BASE_LABELS -> t <> "SKIPPED".
Proof.
  unfold BASE_LABELS. simpl.
  intros [<-|[<-|[<-|[<-|[<-|[<-|[<-|[]]]]]]]]; discriminate.
Qed.

End ClassifierFacts.

(** ** The classifier: range, totality and the last rule *)

(** C10. For every path the classifier returns a pair (final type,
    tentative type) in which the tentative type is one of the seven base
    labels, never SKIPPED, and the final type is the tentative type,
    SKIPPED or ETC. The call returns whenever a rule set and a list of
    already injected names are supplied; it can only raise when one of the
    two is left at its default [None]. *)
Theorem get_module_type_range
        (fs : FS) (source_file_path : string)
        (pre_injector_package_list : option (list string))
        (post_injector_config : option PostInjectorConfig) :
  match Classifier.get_module_type fs source_file_path pre_injector_package_list
                                   post_injector_config with
  | Ok (final, tentative) =>
      In tentative Classifier.BASE_LABELS
      /\ tentative <> "SKIPPED"
      /\ (final = tentative \/ final = "SKIPPED" \/ final = "ETC")
  | Raise _ => pre_injector_package_list = None \/ post_injector_config = None
  end.
Proof.
  destruct post_injector_config as [c|]; [|right; reflexivity].
  unfold Classifier.get_module_type, Classifier.get_module_type_logged,
    Classifier.apply_rules.
  rewrite ClassifierFacts.fst_lbind.
  match goal with
  | |- context [Classifier.rule_already_injected ?fn ?fne ?pre ?m] =>
      pose proof (ClassifierFacts.already_injected_cases fn fne
                    (fst (Classifier.base_module_type fs
                            (PyStr.dirname source_file_path)
                            (PyStr.strip source_file_path)
                            (snd (PyStr.splitext (PyStr.strip source_file_path)))
                            (PyStr.basename (PyStr.strip source_file_path))))
                    pre m) as Hloop
  end.
  match type of Hloop with ?P -> _ => assert (Hpre : P) end.
  { apply ClassifierFacts.rules_before_loop_allowed. left. reflexivity. }
  specialize (Hloop Hpre).
  destruct (fst (Classifier.rule_already_injected _ _ _ _)) as [m'|e];
    [|left; exact Hloop].
  rewrite ClassifierFacts.fst_lbind. simpl.
  split; [apply ClassifierFacts.base_module_type_label|].
  split; [apply ClassifierFacts.base_label_not_skipped,
            ClassifierFacts.base_module_type_label|].
  apply ClassifierFacts.rules_after_loop_allowed, Hloop.
Qed.

(** C5, as the code has it. The last rule of the classifier compares the
    always-allow file names with the file name the rules work with (the
    basename of the whitespace-stripped path, for a container file outside
    [/etc/] without [_compressed], or else without [_trimmed]) and looks
    for the always-allow keywords in the stripped path. When it matches,
    the final type is the tentative type, whatever any earlier rule
    decided. *)
Theorem always_allow_restores_tentative
        (fs : FS) (source_file_path : string)
        (pre_injector_package_list : option (list string))
        (c : PostInjectorConfig) :
  Classifier.always_allowed c (PyStr.strip source_file_path)
                            (Classifier.rule_file_name fs source_file_path) = true ->
  match Classifier.get_module_type fs source_file_path pre_injector_package_list
                                   (Some c) with
  | Ok (final, tentative) => final = tentative
  | Raise _ => pre_injector_package_list = None
  end.
Proof.
  intros Hlast.
  unfold Classifier.get_module_type, Classifier.get_module_type_logged,
    Classifier.apply_rules.
  rewrite ClassifierFacts.fst_lbind.
  match goal with
  | |- context [Classifier.rule_already_injected ?fn ?fne ?pre ?m] =>
      pose proof (ClassifierFacts.already_injected_cases fn fne m pre m
                    (or_introl eq_refl)) as Hloop
  end.
  destruct (fst (Classifier.rule_already_injected _ _ _ _)) as [m'|e];
    [|exact Hloop].
  rewrite ClassifierFacts.fst_lbind. simpl.
  apply ClassifierFacts.rules_after_loop_always. exact Hlast.
Qed.

(** A denied library that is on the always-allow list keeps its type. *)
Lemma always_allow_restores_tentative_witness :
  Classifier.always_allowed
    (Scenarios.config_with ["libfoo"] ["libfoo.so"] [] false)
    (PyStr.strip Scenarios.libfoo_src)
    (Classifier.rule_file_name Scenarios.fs_fresh Scenarios.libfoo_src) = true
  /\ match Classifier.get_module_type Scenarios.fs_fresh Scenarios.libfoo_src (Some [])
            (Some (Scenarios.config_with ["libfoo"] ["libfoo.so"] [] false)) with
     | Ok (final, tentative) => final = tentative
     | Raise _ => Some [] = @None (list string)
     end.
Proof.
  split; [reflexivity|].
  apply (always_allow_restores_tentative Scenarios.fs_fresh Scenarios.libfoo_src
           (Some []) (Scenarios.config_with ["libfoo"] ["libfoo.so"] [] false)).
  reflexivity.
Defined.

(** C5 as stated fails: the basename of a compressed container file is on
    the always-allow list, yet the file stays SKIPPED, for the rule looks
    up the name without [_compressed]. *)
Lemma always_allow_basename_counterexample :
  PyStr.str_in
    (PyStr.basename "/src/system/apex/com.android.foo_compressed.apex")
    (ALLOW_FILE_INJECT_ALWAYS
       (Scenarios.config_with [] ["com.android.foo_compressed.apex"] [] true)) = true
  /\ Classifier.get_module_type ∅ "/src/system/apex/com.android.foo_compressed.apex"
       (Some [])
       (Some (Scenarios.config_with [] ["com.android.foo_compressed.apex"] [] true))
     = Ok ("SKIPPED", "ETC").
Proof. split; vm_compute; reflexivity. Qed.

Module ClassifierContent.
Import PyStr Classifier Props.

Lemma contains_xbin_bin s : contains "xbin" s = true -> contains "bin" s = true.
Proof.
  induction s as [|a s IH]; [discriminate|].
  cbn [contains]. intros H. apply orb_true_iff in H as [H|H].
  - assert (Hs : startswith "bin" s = true).
    { cbn [startswith] in H. apply andb_true_iff in H as [_ H]. exact H. }
    apply orb_true_iff. right.
    destruct s; [discriminate|]. cbn [contains]. rewrite Hs. reflexivity.
  - rewrite (IH H). apply orb_true_r.
Qed.

Lemma is_elf_binary_unreadable (fs : FS) p : fs !! p = None -> is_elf_binary fs p = false.
Proof. unfold is_elf_binary. intros ->. reflexivity. Qed.

(** The classifier looks at the content of the stripped path only. *)
Lemma get_module_type_logged_content (fs fs' : FS) path pre cfg :
  is_elf_binary fs (strip path) = is_elf_binary fs' (strip path) ->
  get_module_type_logged fs path pre cfg = get_module_type_logged fs' path pre cfg.
Proof.
  intros H. unfold get_module_type_logged, base_module_type.
  destruct cfg; [|reflexivity]. rewrite H. reflexivity.
Qed.

Lemma base_module_type_misc (fs : FS) parent_dir p name :
  is_elf_binary fs p = false ->
  contains "bin" parent_dir = false ->
  contains "/etc/" p = false ->
  fst (base_module_type fs parent_dir p "" name) = "MISC".
Proof.
  intros Helf Hbin Hetc. unfold base_module_type.
  rewrite Helf, Hbin, Hetc.
  destruct (contains "xbin" parent_dir) eqn:Hx.
  - apply contains_xbin_bin in Hx. congruence.
  - reflexivity.
Qed.
End ClassifierContent.

(** C8, as the code has it. For every path, every rule set and every
    supplied list of already injected names the classifier returns a pair
    and logs no warning. A file that cannot be read counts as not being an
    ELF binary: the result is the one of a file system without the file,
    and the tentative type is MISC when the path has no extension, no
    [bin] in its directory and no [/etc/] in it. *)
Theorem get_module_type_supplied_returns
        (fs : FS) (source_file_path : string)
        (pre_injector_package_list : list string) (c : PostInjectorConfig) :
  exists final tentative logs,
    Classifier.get_module_type_logged fs source_file_path
      (Some pre_injector_package_list) (Some c) = (Ok (final, tentative), logs)
    /\ existsb is_warning logs = false
    /\ (fs !! PyStr.strip source_file_path = None ->
        Classifier.get_module_type fs source_file_path
          (Some pre_injector_package_list) (Some c)
        = Classifier.get_module_type ∅ source_file_path
            (Some pre_injector_package_list) (Some c)
        /\ (snd (PyStr.splitext (PyStr.strip source_file_path)) = "" ->
            PyStr.contains "bin" (PyStr.dirname source_file_path) = false ->
            PyStr.contains "/etc/" (PyStr.strip source_file_path) = false ->
            tentative = "MISC")).
Proof.
  set (X := Classifier.get_module_type_logged fs source_file_path
              (Some pre_injector_package_list) (Some c)).
  set (base := Classifier.base_module_type fs (PyStr.dirname source_file_path)
                 (PyStr.strip source_file_path)
                 (snd (PyStr.splitext (PyStr.strip source_file_path)))
                 (PyStr.basename (PyStr.strip source_file_path))).
  assert (HX : exists final, fst X = Ok (final, fst base) /\ Props.no_warning X).
  { subst X. unfold Classifier.get_module_type_logged, Classifier.apply_rules.
    fold base.
    match goal with
    | |- context [Classifier.rule_already_injected ?fn ?fne (Some ?l) ?m] =>
        destruct (ClassifierFacts.already_injected_supplied fn fne (fst base) l m)
          as (m' & Hm' & _ & Hw)
    end.
    { apply ClassifierFacts.rules_before_loop_allowed. left. reflexivity. }
    eexists. split.
    - rewrite ClassifierFacts.fst_lbind, Hm', ClassifierFacts.fst_lbind. reflexivity.
    - apply ClassifierFacts.no_warning_lbind; [exact Hw|].
      intros [m|e]; [|reflexivity].
      apply ClassifierFacts.no_warning_lbind;
        [apply ClassifierFacts.rules_after_loop_no_warning|].
      intros ?. reflexivity. }
  destruct HX as (final & Hfst & Hw).
  exists final, (fst base), (snd X).
  split; [rewrite <- Hfst; apply surjective_pairing|].
  split; [exact Hw|].
  intros Hnone. split.
  - unfold Classifier.get_module_type. f_equal.
    apply ClassifierContent.get_module_type_logged_content.
    rewrite (ClassifierContent.is_elf_binary_unreadable fs _ Hnone).
    reflexivity.
  - intros Hext Hbin Hetc. subst base. rewrite Hext.
    apply ClassifierContent.base_module_type_misc; auto.
    apply ClassifierContent.is_elf_binary_unreadable, Hnone.
Qed.

(** An extension-less file that does not exist is MISC. *)
Lemma get_module_type_supplied_returns_witness :
  exists final logs,
    Classifier.get_module_type_logged ∅ "src/system/usr/keylayout" (Some [])
      (Some empty_config) = (Ok (final, "MISC"), logs)
    /\ existsb is_warning logs = false.
Proof.
  destruct (get_module_type_supplied_returns ∅ "src/system/usr/keylayout" []
              empty_config) as (final & tentative & logs & Heq & Hw & Hun).
  destruct (Hun eq_refl) as [_ Hmisc].
  rewrite (Hmisc eq_refl eq_refl eq_refl) in Heq.
  exists final, logs. split; [exact Heq|exact Hw].
Defined.

(** C8 as stated fails. With the list left at its default the classifier
    raises on a shared library; a library that cannot be read is not MISC;
    and the only record logged for an unreadable MISC file is of level
    DEBUG. *)
Lemma get_module_type_default_list_counterexample :
  Classifier.get_module_type Scenarios.fs_fresh Scenarios.libfoo_src None
    (Some empty_config) = Raise (TypeError "'NoneType' object is not iterable")
  /\ ((∅ : FS) !! PyStr.strip Scenarios.libfoo_src = None
      /\ Classifier.get_module_type ∅ Scenarios.libfoo_src (Some []) (Some empty_config)
         = Ok ("SHARED_LIBRARIES", "SHARED_LIBRARIES"))
  /\ Classifier.get_module_type_logged ∅ "src/system/usr/keylayout" (Some [])
       (Some empty_config) = (Ok ("MISC", "MISC"), [(DEBUG, "File Extension")]).
Proof. repeat split; vm_compute; reflexivity. Qed.

(** ** The matcher and the word size *)

Module MatcherFacts.
Import PyStr Effects Matcher Props.

Lemma check_binary_architecture_same fs p :
  check_binary_architecture fs p = check_shared_object_architecture fs p.
Proof. reflexivity. Qed.

(** The probe answers [32-bit] or [64-bit] only for an ELF header whose
    byte 4 is 1 or 2. *)
Lemma architecture_class fs p cls label :
  (cls = Byte.x01 /\ label = "32-bit") \/ (cls = Byte.x02 /\ label = "64-bit") ->
  check_shared_object_architecture fs p = label ->
  elf_class fs p = Some cls.
Proof.
  intros Hcls. unfold check_shared_object_architecture, elf_class.
  destruct (fs !! p) as [content|];
    [|destruct Hcls as [[_ ->]|[_ ->]]; discriminate].
  destruct (Nat.ltb _ 5);
    [destruct Hcls as [[_ ->]|[_ ->]]; discriminate|].
  rewrite take_take. change (4 `min` 5)%nat with 4%nat.
  destruct (bytes_eqb (take 4 content) ELF_MAGIC);
    [|destruct Hcls as [[_ ->]|[_ ->]]; discriminate].
  rewrite lookup_take_lt by lia.
  destruct (content !! 4%nat) as [b|];
    [|destruct Hcls as [[_ ->]|[_ ->]]; discriminate].
  destruct Hcls as [[-> ->]|[-> ->]]; destruct b; intros H;
    first [reflexivity | discriminate H].
Qed.

(** An ELF source is classified [32-bit], [64-bit] or unknown. *)
Lemma architecture_of_elf fs p :
  is_elf_binary fs p = true ->
  check_shared_object_architecture fs p = "32-bit"
  \/ check_shared_object_architecture fs p = "64-bit"
  \/ check_shared_object_architecture fs p = "Unknown architecture".
Proof.
  unfold is_elf_binary, check_shared_object_architecture.
  destruct (fs !! p) as [content|]; [|discriminate]. intros _.
  destruct (Nat.ltb _ 5); [auto|].
  destruct (bytes_eqb _ ELF_MAGIC); [|auto].
  destruct (take 5 content !! 4%nat) as [b|]; [|auto].
  destruct b; auto.
Qed.

Lemma abi_module_type module_type :
  In module_type MODULE_TYPE_ABI_COMPATIBLE ->
  str_in module_type MODULE_TYPE_ABI_COMPATIBLE = true
  /\ String.eqb module_type "JAVA_LIBRARIES" = false.
Proof.
  unfold MODULE_TYPE_ABI_COMPATIBLE. simpl.
  intros [<-|[<-|[<-|[]]]]; split; reflexivity.
Qed.

(** For the types with an ABI and an ELF source, compatibility means
    that both probes agree on a known architecture. *)
Lemma check_file_compatibility_abi fs file_path candidate_path module_type :
  In module_type MODULE_TYPE_ABI_COMPATIBLE ->
  is_elf_binary fs file_path = true ->
  check_file_compatibility fs file_path candidate_path module_type = true ->
  check_shared_object_architecture fs candidate_path
  = check_shared_object_architecture fs file_path
  /\ check_shared_object_architecture fs candidate_path <> "Unknown architecture".
Proof.
  intros Hin Helf. destruct (abi_module_type _ Hin) as [Habi Hjava].
  unfold check_file_compatibility. rewrite Habi, Helf, Hjava. cbn [andb].
  unfold is_abi_compatible.
  change check_binary_architecture with check_shared_object_architecture.
  destruct (String.eqb (check_shared_object_architecture fs candidate_path)
                       "Unknown architecture") eqn:Hunknown.
  { cbn. destruct (negb (String.eqb _ _)); destruct (contains "arm" file_path);
      try destruct (negb (is_parent_dir_arm_and_target_arm _ _)); discriminate. }
  destruct (String.eqb (check_shared_object_architecture fs candidate_path)
                       (check_shared_object_architecture fs file_path)) eqn:Hsame.
  - intros _. split; [apply String.eqb_eq, Hsame|].
    apply String.eqb_neq, Hunknown.
  - cbn. destruct (contains "arm" file_path);
      try destruct (negb (is_parent_dir_arm_and_target_arm _ _)); discriminate.
Qed.

Lemma length_remove_first x l :
  (List.length (remove_first x l) <= List.length l)%nat.
Proof.
  induction l as [|y l IH]; simpl; [lia|].
  destruct (String.eqb y x); simpl; lia.
Qed.

(** The length of the list is fuel enough for the loop that removes
    while it iterates: more fuel gives the same list. *)
Lemma remove_incompatible_fuel fs file_path module_type fuel fuel' i matches :
  (List.length matches <= i + fuel)%nat -> (fuel <= fuel')%nat ->
  remove_incompatible fs file_path module_type fuel i matches
  = remove_incompatible fs file_path module_type fuel' i matches.
Proof.
  revert fuel' i matches. induction fuel as [|fuel IH]; intros fuel' i matches Hlen Hle.
  - assert (Hnone : matches !! i = None) by (apply lookup_ge_None; lia).
    destruct fuel'; simpl; [reflexivity|]. rewrite Hnone. reflexivity.
  - destruct fuel' as [|fuel']; [lia|]. simpl.
    destruct (matches !! i) as [matching_file|]; [|reflexivity].
    apply IH; [|lia].
    destruct (negb _); [pose proof (length_remove_first matching_file matches)|]; lia.
Qed.

Lemma accepts_candidate_compatible c fs partition_name module_type file_path file_name
      replace_intermediate file :
  accepts_candidate c fs partition_name module_type file_path file_name
                    replace_intermediate file = true ->
  check_file_compatibility fs file_path file module_type = true.
Proof.
  unfold accepts_candidate.
  destruct (_ || _); [discriminate|].
  destruct (check_file_compatibility fs file_path file module_type);
    [reflexivity|discriminate].
Qed.

(** Every path the matcher returns went through the compatibility
    check. *)
Lemma search_result_compatible c fs partition_name module_type file_path file_name
      target_out_path replace_intermediate exact_match_files l candidate :
  search_original_file_in_obj c fs partition_name module_type file_path file_name
    target_out_path replace_intermediate exact_match_files = Some l ->
  In candidate l ->
  check_file_compatibility fs file_path candidate module_type = true.
Proof.
  unfold search_original_file_in_obj.
  destruct (Nat.ltb 0 _); [|discriminate].
  intros [= <-] Hin. apply filter_In in Hin as [_ Hin].
  eapply accepts_candidate_compatible, Hin.
Qed.

(** For a module type without an ABI the compatibility check reads no
    file. *)
Lemma check_file_compatibility_no_abi (fs fs' : FS) file_path candidate_path
      module_type :
  str_in module_type MODULE_TYPE_ABI_COMPATIBLE = false ->
  check_file_compatibility fs file_path candidate_path module_type
  = check_file_compatibility fs' file_path candidate_path module_type.
Proof. intros H. unfold check_file_compatibility. rewrite H. reflexivity. Qed.

Lemma remove_incompatible_no_abi (fs fs' : FS) file_path module_type fuel :
  str_in module_type MODULE_TYPE_ABI_COMPATIBLE = false ->
  forall i matches,
    remove_incompatible fs file_path module_type fuel i matches
    = remove_incompatible fs' file_path module_type fuel i matches.
Proof.
  intros H. induction fuel as [|fuel IH]; intros i matches; [reflexivity|].
  cbn [remove_incompatible]. destruct (matches !! i) as [matching_file|]; [|reflexivity].
  rewrite (check_file_compatibility_no_abi fs fs' _ _ _ H). apply IH.
Qed.

Lemma accepts_candidate_no_abi c (fs fs' : FS) partition_name module_type file_path
      file_name replace_intermediate file :
  str_in module_type MODULE_TYPE_ABI_COMPATIBLE = false ->
  accepts_candidate c fs partition_name module_type file_path file_name
                    replace_intermediate file
  = accepts_candidate c fs' partition_name module_type file_path file_name
                      replace_intermediate file.
Proof.
  intros H. unfold accepts_candidate.
  rewrite (check_file_compatibility_no_abi fs fs' _ _ _ H). reflexivity.
Qed.

(** For a module type without an ABI the matcher looks at the paths of
    the files only: two file systems with the same paths give the same
    candidates. *)
Lemma search_original_file_in_obj_no_abi c (fs fs' : FS) partition_name module_type
      file_path file_name target_out_path replace_intermediate exact_match_files :
  str_in module_type MODULE_TYPE_ABI_COMPATIBLE = false ->
  (forall directory, get_all_files fs directory = get_all_files fs' directory) ->
  search_original_file_in_obj c fs partition_name module_type file_path file_name
    target_out_path replace_intermediate exact_match_files
  = search_original_file_in_obj c fs' partition_name module_type file_path file_name
      target_out_path replace_intermediate exact_match_files.
Proof.
  intros H Hfiles. unfold search_original_file_in_obj. cbv zeta.
  rewrite Hfiles. unfold narrow_file_path_list.
  rewrite (filter_ext _ _ (fun file =>
             accepts_candidate_no_abi c fs fs' _ module_type file_path file_name
               replace_intermediate file H)).
  destruct exact_match_files; [|reflexivity].
  destruct (List.filter _ (get_all_files fs' _)) as [|m ms]; [reflexivity|].
  rewrite (remove_incompatible_no_abi fs fs' file_path module_type _ H).
  reflexivity.
Qed.

End MatcherFacts.

(** C4, as the code has it. The matcher compares the candidates with the
    file at the path it is handed. When the module type is one with an
    ABI (SHARED_LIBRARIES, EXECUTABLES or ETC) and that path names an ELF
    binary, every candidate the matcher returns is an ELF file whose byte
    4 (1 for 32-bit, 2 for 64-bit) equals the one of the file at the
    path. For every other module type no word size is compared: the
    compatibility check reads no file, and the matcher returns the same
    candidates for any two file systems that hold the same paths, whatever
    the files contain. *)
Theorem matcher_word_size
        (c : PostInjectorConfig)
        (partition_name module_type file_path file_name target_out_path
         replace_intermediate : string)
        (exact_match_files : bool) :
  (In module_type Matcher.MODULE_TYPE_ABI_COMPATIBLE ->
   forall (fs : FS) (l : list string) (candidate : string),
     is_elf_binary fs file_path = true ->
     Matcher.search_original_file_in_obj c fs partition_name module_type file_path
       file_name target_out_path replace_intermediate exact_match_files = Some l ->
     In candidate l ->
     exists cls, (cls = Byte.x01 \/ cls = Byte.x02)
                 /\ Props.elf_class fs file_path = Some cls
                 /\ Props.elf_class fs candidate = Some cls)
  /\ (PyStr.str_in module_type Matcher.MODULE_TYPE_ABI_COMPATIBLE = false ->
      (forall (fs fs' : FS) (candidate_path : string),
         Matcher.check_file_compatibility fs file_path candidate_path module_type
         = Matcher.check_file_compatibility fs' file_path candidate_path module_type)
      /\ forall fs fs' : FS,
          (forall directory,
             Matcher.get_all_files fs directory = Matcher.get_all_files fs' directory) ->
          Matcher.search_original_file_in_obj c fs partition_name module_type file_path
            file_name target_out_path replace_intermediate exact_match_files
          = Matcher.search_original_file_in_obj c fs' partition_name module_type
              file_path file_name target_out_path replace_intermediate
              exact_match_files).
Proof.
  split.
  - intros Habi fs l candidate Helf Hsearch Hin.
    pose proof (MatcherFacts.search_result_compatible _ _ _ _ _ _ _ _ _ _ _
                  Hsearch Hin) as Hcompat.
    destruct (MatcherFacts.check_file_compatibility_abi _ _ _ _ Habi Helf Hcompat)
      as [Hsame Hknown].
    destruct (MatcherFacts.architecture_of_elf _ _ Helf) as [H32|[H64|Hunknown]].
    + exists Byte.x01. split; [left; reflexivity|].
      split; eapply MatcherFacts.architecture_class; eauto; congruence.
    + exists Byte.x02. split; [right; reflexivity|].
      split; eapply MatcherFacts.architecture_class; eauto; congruence.
    + congruence.
  - intros Hother. split.
    + intros fs fs' candidate_path.
      apply MatcherFacts.check_file_compatibility_no_abi, Hother.
    + intros fs fs' Hfiles.
      apply MatcherFacts.search_original_file_in_obj_no_abi; assumption.
Qed.

(** Scenario 2 of the specification: the 64-bit library is matched with
    the 64-bit file of the object cache, not with the 32-bit one. The
    versioned library (MISC) is matched with the file of its name whether
    that is a 32-bit or a 64-bit file. *)
Lemma matcher_word_size_witness :
  (Matcher.search_original_file_in_obj empty_config Scenarios.fs_object_cache
     "system" "SHARED_LIBRARIES" Scenarios.libfoo_src "libfoo.so" "out/"
     "_intermediates" true = Some [Scenarios.libfoo_obj64]
   /\ exists cls, (cls = Byte.x01 \/ cls = Byte.x02)
                  /\ Props.elf_class Scenarios.fs_object_cache Scenarios.libfoo_src
                     = Some cls
                  /\ Props.elf_class Scenarios.fs_object_cache Scenarios.libfoo_obj64
                     = Some cls)
  /\ (Props.elf_class Scenarios.fs_misc Scenarios.misc_candidate
      <> Props.elf_class Scenarios.fs_misc_64 Scenarios.misc_candidate
      /\ Matcher.search_original_file_in_obj empty_config Scenarios.fs_misc "system"
           "MISC" Scenarios.misc_src "libfoo.so.1" "out/" "_intermediates" true
         = Matcher.search_original_file_in_obj empty_config Scenarios.fs_misc_64
             "system" "MISC" Scenarios.misc_src "libfoo.so.1" "out/" "_intermediates"
             true).
Proof.
  split.
  - assert (Hsearch :
      Matcher.search_original_file_in_obj empty_config Scenarios.fs_object_cache
        "system" "SHARED_LIBRARIES" Scenarios.libfoo_src "libfoo.so" "out/"
        "_intermediates" true = Some [Scenarios.libfoo_obj64])
      by (vm_compute; reflexivity).
    split; [exact Hsearch|].
    apply (proj1 (matcher_word_size empty_config "system" "SHARED_LIBRARIES"
                    Scenarios.libfoo_src "libfoo.so" "out/" "_intermediates" true)
             (or_introl eq_refl) Scenarios.fs_object_cache [Scenarios.libfoo_obj64]
             Scenarios.libfoo_obj64).
    + vm_compute. reflexivity.
    + exact Hsearch.
    + simpl. left. reflexivity.
  - split; [vm_compute; discriminate|].
    apply (proj2 (proj2 (matcher_word_size empty_config "system" "MISC"
                           Scenarios.misc_src "libfoo.so.1" "out/" "_intermediates"
                           true) eq_refl)
             Scenarios.fs_misc Scenarios.fs_misc_64).
    intros directory. unfold Matcher.get_all_files, Matcher.walk_files.
    replace (map fst (map_to_list Scenarios.fs_misc_64))
      with (map fst (map_to_list Scenarios.fs_misc))
      by (vm_compute; reflexivity).
    reflexivity.
Defined.

(** C4 as stated fails for a module type without an ABI: a versioned
    library is classified MISC, it is a 64-bit ELF binary, and the matcher
    returns a 32-bit file of the same name. *)
Lemma matcher_misc_counterexample :
  Classifier.get_module_type Scenarios.fs_misc Scenarios.misc_src (Some [])
    (Some empty_config) = Ok ("MISC", "MISC")
  /\ is_elf_binary Scenarios.fs_misc Scenarios.misc_src = true
  /\ Matcher.search_original_file_in_obj empty_config Scenarios.fs_misc "system" "MISC"
       Scenarios.misc_src "libfoo.so.1" "out/" "_intermediates" true
     = Some [Scenarios.misc_candidate]
  /\ Props.elf_class Scenarios.fs_misc Scenarios.misc_src = Some Byte.x02
  /\ Props.elf_class Scenarios.fs_misc Scenarios.misc_candidate = Some Byte.x01.
Proof. repeat split; vm_compute; reflexivity. Qed.

(** The search that [indirect_injection] repeats with the vendor name
    removed from the path (lines 511-518) hands the matcher a path that
    names no file: the probe is skipped, the matcher returns the 32-bit
    file of the object cache, and the 64-bit source is copied onto it. *)
Lemma vendor_stripped_search_is_not_probed :
  is_elf_binary Scenarios.fs_vendor Scenarios.vendor_src = true
  /\ Injector.ext_remove_vendor_name_from_path Scenarios.tools_vendor
       Scenarios.vendor_src = Ok "src/system/lib64/libfoo.so"
  /\ is_elf_binary Scenarios.fs_vendor "src/system/lib64/libfoo.so" = false
  /\ Matcher.search_original_file_in_obj empty_config Scenarios.fs_vendor "system"
       "SHARED_LIBRARIES" Scenarios.vendor_src "libfoo.samsung.so" "out/"
       "_intermediates" true = None
  /\ Matcher.search_original_file_in_obj empty_config Scenarios.fs_vendor "system"
       "SHARED_LIBRARIES" "src/system/lib64/libfoo.so" "libfoo.so" "out/"
       "_intermediates" true = Some [Scenarios.libfoo_obj32]
  /\ Props.elf_class Scenarios.fs_vendor Scenarios.vendor_src = Some Byte.x02
  /\ Props.elf_class Scenarios.fs_vendor Scenarios.libfoo_obj32 = Some Byte.x01
  /\ Injector.indirect_injection Scenarios.tools_vendor empty_config Scenarios.args
       Scenarios.vendor_target "libfoo.samsung.so" "system" "SHARED_LIBRARIES"
       Scenarios.vendor_src None Scenarios.fs_vendor
     = (<[Scenarios.libfoo_obj32 := Scenarios.elf64]> Scenarios.fs_vendor,
        Ok (Some (Scenarios.vendor_src, Some Scenarios.libfoo_obj32,
                  "SHARED_LIBRARIES"), None, Some true)).
Proof. repeat split; vm_compute; reflexivity. Qed.

(** ** The worker: lock, marker and outcomes *)

Module StringFacts.
Import PyStr.

Lemma length_append (s t : string) :
  String.length (s +:+ t) = (String.length s + String.length t)%nat.
Proof. induction s as [|a s IH]; simpl; [reflexivity|]. rewrite IH. reflexivity. Qed.

Lemma append_inj_l (p s t : string) : p +:+ s = p +:+ t -> s = t.
Proof. induction p as [|a p IH]; simpl; [auto|]. intros [= H]. auto. Qed.

Lemma length_lstrip s : (String.length (lstrip s) <= String.length s)%nat.
Proof.
  induction s as [|a s IH]; simpl; [lia|].
  destruct (is_space a); simpl; lia.
Qed.

Lemma length_rstrip s : (String.length (rstrip s) <= String.length s)%nat.
Proof.
  induction s as [|a s IH]; simpl; [lia|].
  destruct (is_space a && _); simpl; lia.
Qed.

Lemma length_strip s : (String.length (strip s) <= String.length s)%nat.
Proof.
  unfold strip. pose proof (length_rstrip (lstrip s)). pose proof (length_lstrip s). lia.
Qed.

(** A path and the path with a non-empty suffix differ, also after the
    path is stripped. *)
Lemma strip_neq_suffixed (p suffix : string) :
  (0 < String.length suffix)%nat -> strip p <> p +:+ suffix.
Proof.
  intros Hpos Heq. pose proof (length_strip p) as H.
  rewrite Heq, length_append in H. lia.
Qed.

Lemma neq_suffixed (p suffix : string) :
  (0 < String.length suffix)%nat -> p <> p +:+ suffix.
Proof.
  intros Hpos Heq. pose proof (f_equal String.length Heq) as H.
  rewrite length_append in H. lia.
Qed.

Lemma startswith_append (pre p s : string) :
  startswith pre p = true -> startswith pre (p +:+ s) = true.
Proof.
  revert p. induction pre as [|a pre IH]; intros [|b p]; simpl; try easy.
  intros H. apply andb_true_iff in H as [-> H]. simpl. auto.
Qed.

Lemma endswith_append (x suffix : string) : endswith suffix (x +:+ suffix) = true.
Proof.
  induction x as [|a x IH]; simpl.
  - destruct suffix; simpl; [reflexivity|].
    rewrite Ascii.eqb_refl, String.eqb_refl. reflexivity.
  - rewrite IH. apply orb_true_r.
Qed.

(** Appending a suffix without a slash extends the last component. *)
Lemma split_after_last_append (p suffix : string) :
  split_after_last "/" suffix = ("", suffix) ->
  split_after_last "/" (p +:+ suffix)
  = (fst (split_after_last "/" p), snd (split_after_last "/" p) +:+ suffix).
Proof.
  intros Hs. induction p as [|a p IH]; [exact Hs|].
  change (split_after_last "/" (String a p +:+ suffix))
    with (let (h, t) := split_after_last "/" (p +:+ suffix) in
          if Ascii.eqb a "/" then (String a h, t)
          else if String.eqb h "" then ("", String a t) else (String a h, t)).
  change (split_after_last "/" (String a p))
    with (let (h, t) := split_after_last "/" p in
          if Ascii.eqb a "/" then (String a h, t)
          else if String.eqb h "" then ("", String a t) else (String a h, t)).
  rewrite IH.
  destruct (split_after_last "/" p) as [h t]. cbn [fst snd].
  destruct (Ascii.eqb a "/"); [reflexivity|].
  destruct (String.eqb h ""); reflexivity.
Qed.

Lemma basename_append (p suffix : string) :
  split_after_last "/" suffix = ("", suffix) ->
  basename (p +:+ suffix) = basename p +:+ suffix.
Proof.
  intros Hs. unfold basename. rewrite split_after_last_append by exact Hs.
  reflexivity.
Qed.
End StringFacts.

Module EffectFacts.
Import Effects.

Lemma bind_ok {A B} (m : M A) (k : A -> M B) (fs fs' : FS) (b : B) :
  bind m k fs = (fs', Ok b) ->
  exists fs1 a, m fs = (fs1, Ok a) /\ k a fs1 = (fs', Ok b).
Proof.
  unfold bind. destruct (m fs) as [fs1 [a|e]]; [eauto|discriminate].
Qed.

(** Inverts a [bind] that returned: the first step returned too. *)
Ltac bind_inv H :=
  let fs1 := fresh "fs" in
  let x := fresh "x" in
  let Hm := fresh "Hm" in
  apply bind_ok in H as (fs1 & x & Hm & H).

Lemma try_except_ok {A} (m : M A) (h : exn -> M A) (fs fs' : FS) (a : A) :
  try_except m h fs = (fs', Ok a) ->
  m fs = (fs', Ok a)
  \/ exists fs1 e, m fs = (fs1, Raise e) /\ is_exception e = true
                   /\ h e fs1 = (fs', Ok a).
Proof.
  unfold try_except. destruct (m fs) as [fs1 [x|e]]; [auto|].
  destruct (is_exception e) eqn:He; [|discriminate].
  intros H. right. exists fs1, e. auto.
Qed.

Lemma ret_ok {A} (x a : A) (fs fs' : FS) : ret x fs = (fs', Ok a) -> fs' = fs /\ a = x.
Proof. unfold ret. intros [= <- <-]. auto. Qed.

Lemma read_ok {A} (f : FS -> A) (a : A) (fs fs' : FS) :
  read f fs = (fs', Ok a) -> fs' = fs /\ a = f fs.
Proof. unfold read. intros [= <- <-]. auto. Qed.

Lemma path_exists_insert_ne (fs : FS) k v p :
  k <> p -> path_exists (<[k := v]> fs) p = path_exists fs p.
Proof. intros H. unfold path_exists. rewrite lookup_insert_ne by exact H. reflexivity. Qed.

Lemma path_exists_insert (fs : FS) k v : path_exists (<[k := v]> fs) k = true.
Proof. unfold path_exists. rewrite lookup_insert_eq. reflexivity. Qed.

Lemma is_elf_binary_insert_ne (fs : FS) k v p :
  k <> p -> is_elf_binary (<[k := v]> fs) p = is_elf_binary fs p.
Proof. intros H. unfold is_elf_binary. rewrite lookup_insert_ne by exact H. reflexivity. Qed.
End EffectFacts.

Module WorkerFacts.
Import PyStr Effects Injector EffectFacts StringFacts.

Lemma lock_neq_marker p : p +:+ LOCK_SUFFIX <> p +:+ PROCESSED_SUFFIX.
Proof. intros H. apply append_inj_l in H. discriminate H. Qed.

(** The lock file does not change what the classifier sees. *)
Lemma get_module_type_lock (fs : FS) p pre cfg :
  Classifier.get_module_type (<[p +:+ LOCK_SUFFIX := []]> fs) p pre cfg
  = Classifier.get_module_type fs p pre cfg.
Proof.
  unfold Classifier.get_module_type. f_equal.
  apply ClassifierContent.get_module_type_logged_content.
  apply is_elf_binary_insert_ne. intros H. symmetry in H. revert H.
  apply strip_neq_suffixed. simpl. lia.
Qed.

(** The worker on a file without a marker: the lock is taken, the body
    runs, the marker is written. *)
Lemma process_file_concurrently_unmarked E c a file_path partition_name (fs : FS) :
  path_exists fs (file_path +:+ PROCESSED_SUFFIX) = false ->
  process_file_concurrently E c a file_path partition_name fs
  = let (fs', r) :=
      locked_body E c a file_path partition_name (file_path +:+ PROCESSED_SUFFIX)
                  (<[file_path +:+ LOCK_SUFFIX := []]> fs) in
    (<[file_path +:+ PROCESSED_SUFFIX := []]> fs',
     match r with
     | Ok result => Ok result
     | Raise e =>
         if is_exception e
         then Ok (Some (exn_str e +:+ ":" +:+ ext_format_exc E e), None, None)
         else Raise e
     end).
Proof.
  intros H. unfold process_file_concurrently. rewrite H. reflexivity.
Qed.

(** The worker on a file without a marker makes a processing attempt. *)
Lemma process_file_concurrently_attempt E c a file_path partition_name (fs : FS) :
  path_exists fs (file_path +:+ PROCESSED_SUFFIX) = false ->
  process_file_concurrently E c a file_path partition_name fs
  = Props.attempt E c a file_path partition_name fs.
Proof.
  intros H. rewrite process_file_concurrently_unmarked by exact H.
  unfold Props.attempt, locked_body, bind, read. cbv zeta.
  rewrite path_exists_insert_ne by apply lock_neq_marker. rewrite H.
  destruct (Classifier.get_module_type _ _ _ _) as [[module_type tmp]|e];
    [|reflexivity].
  destruct (str_in module_type ["SKIPPED"]); reflexivity.
Qed.

(** What the worker raises is no [Exception]: line 413 catches those. *)
Lemma process_file_concurrently_raise E c a file_path partition_name (fs fs' : FS) e :
  process_file_concurrently E c a file_path partition_name fs = (fs', Raise e) ->
  is_exception e = false.
Proof.
  unfold process_file_concurrently.
  destruct (path_exists fs _); [discriminate|].
  destruct (locked_body _ _ _ _ _ _ _) as [fs1 [r|e']]; [discriminate|].
  destruct (is_exception e') eqn:He; [discriminate|].
  intros [= _ <-]. exact He.
Qed.
End WorkerFacts.

(** C3. A file that the classifier labels SKIPPED is not injected: for
    whatever the external collaborators would do, the worker returns
    (it does not raise) the skip message without a record, and the file
    system it leaves is the one it found plus the lock file and the marker
    file. *)
Theorem skipped_file_is_not_injected
        (E : Injector.Externals) (c : PostInjectorConfig) (a : Injector.RunArgs)
        (file_path partition_name tmp_module_type : string) (fs : FS) :
  path_exists fs (file_path +:+ Injector.PROCESSED_SUFFIX) = false ->
  Classifier.get_module_type fs file_path (Injector.pre_injector_package_list a) (Some c)
  = Ok ("SKIPPED", tmp_module_type) ->
  Injector.process_file_concurrently E c a file_path partition_name fs
  = (<[file_path +:+ Injector.PROCESSED_SUFFIX := []]>
       (<[file_path +:+ Injector.LOCK_SUFFIX := []]> fs),
     Ok (Some ("Skipped File post-inject (Keyword/Extension/Filename): " +:+ file_path
               +:+ " | module_type: SKIPPED"), None, None)).
Proof.
  intros Hmarker Hskip.
  rewrite WorkerFacts.process_file_concurrently_unmarked by exact Hmarker.
  unfold Injector.locked_body, Effects.bind, Effects.read.
  rewrite EffectFacts.path_exists_insert_ne by apply WorkerFacts.lock_neq_marker.
  rewrite Hmarker, WorkerFacts.get_module_type_lock, Hskip.
  reflexivity.
Qed.

(** Scenario 4 of the specification: the library is on the keyword deny
    list. *)
Lemma skipped_file_is_not_injected_witness :
  Injector.process_file_concurrently Scenarios.tools
    (Scenarios.config_with ["libfoo"] [] [] false) Scenarios.args
    Scenarios.libfoo_src "system" Scenarios.fs_fresh
  = (<[Scenarios.libfoo_src +:+ Injector.PROCESSED_SUFFIX := []]>
       (<[Scenarios.libfoo_src +:+ Injector.LOCK_SUFFIX := []]> Scenarios.fs_fresh),
     Ok (Some ("Skipped File post-inject (Keyword/Extension/Filename): "
               +:+ Scenarios.libfoo_src +:+ " | module_type: SKIPPED"), None, None)).
Proof.
  apply (skipped_file_is_not_injected Scenarios.tools
           (Scenarios.config_with ["libfoo"] [] [] false) Scenarios.args
           Scenarios.libfoo_src "system" "SHARED_LIBRARIES" Scenarios.fs_fresh).
  - vm_compute. reflexivity.
  - vm_compute. reflexivity.
Defined.

(** C6. When the marker is absent at the initial check, it exists when the
    worker returns or raises, whatever the attempt did: success, error,
    an exception that line 413 catches or one that it lets pass. When the
    marker exists already, the worker returns the already-processed result
    and leaves the file system as it is: neither the classifier nor a
    collaborator ran. *)
Theorem marker_protocol
        (E : Injector.Externals) (c : PostInjectorConfig) (a : Injector.RunArgs)
        (file_path partition_name : string) (fs : FS) :
  (path_exists fs (file_path +:+ Injector.PROCESSED_SUFFIX) = false ->
   path_exists (fst (Injector.process_file_concurrently E c a file_path partition_name fs))
               (file_path +:+ Injector.PROCESSED_SUFFIX) = true)
  /\ (path_exists fs (file_path +:+ Injector.PROCESSED_SUFFIX) = true ->
      Injector.process_file_concurrently E c a file_path partition_name fs
      = (fs, Ok (Some ("File already processed: " +:+ file_path), None, None))).
Proof.
  split; intros H.
  - rewrite WorkerFacts.process_file_concurrently_unmarked by exact H.
    destruct (Injector.locked_body _ _ _ _ _ _ _) as [fs' r]. cbn [fst].
    apply EffectFacts.path_exists_insert.
  - unfold Injector.process_file_concurrently. rewrite H. reflexivity.
Qed.

(** A first attempt writes the marker; the next attempt finds it. *)
Lemma marker_protocol_witness :
  path_exists
    (fst (Injector.process_file_concurrently Scenarios.tools empty_config Scenarios.args
            Scenarios.libfoo_src "system" Scenarios.fs_fresh))
    (Scenarios.libfoo_src +:+ Injector.PROCESSED_SUFFIX) = true
  /\ Injector.process_file_concurrently Scenarios.tools empty_config Scenarios.args
       Scenarios.libfoo_src "system"
       (<[Scenarios.libfoo_src +:+ Injector.PROCESSED_SUFFIX := []]> Scenarios.fs_fresh)
     = (<[Scenarios.libfoo_src +:+ Injector.PROCESSED_SUFFIX := []]> Scenarios.fs_fresh,
        Ok (Some ("File already processed: " +:+ Scenarios.libfoo_src), None, None)).
Proof.
  split.
  - apply (proj1 (marker_protocol Scenarios.tools empty_config Scenarios.args
                    Scenarios.libfoo_src "system" Scenarios.fs_fresh)).
    vm_compute. reflexivity.
  - apply (proj2 (marker_protocol Scenarios.tools empty_config Scenarios.args
                    Scenarios.libfoo_src "system"
                    (<[Scenarios.libfoo_src +:+ Injector.PROCESSED_SUFFIX := []]>
                       Scenarios.fs_fresh))).
    vm_compute. reflexivity.
Defined.

Module OutcomeFacts.
Import PyStr Effects Injector EffectFacts Props.

Lemma handle_app_modules_shape E p (fs fs' : FS) e :
  handle_app_modules E p fs = (fs', Ok e) -> error_shape e.
Proof.
  unfold handle_app_modules. intros H. bind_inv H. destruct x as [s msg].
  apply ret_ok in H as [_ ->]. destruct s; [left|right]; reflexivity.
Qed.

Lemma transform_apex_shape E c filename p (fs fs' : FS) e :
  transform_apex E c filename p fs = (fs', Ok e) -> error_shape e.
Proof.
  unfold transform_apex. destruct (_ && _ && _); intros H.
  - bind_inv H. destruct x as [s msg]. destruct s; simpl in H.
    + apply ret_ok in H as [_ ->]. left. reflexivity.
    + discriminate H.
  - apply try_except_ok in H as [H|(fs1 & ex & _ & _ & H)].
    + bind_inv H. destruct x as [s msg]. apply ret_ok in H as [_ ->].
      destruct s; [left|right]; reflexivity.
    + apply ret_ok in H as [_ ->]. right. reflexivity.
Qed.

Lemma wrap_isolated_binary_shape E c filename p pn (fs fs' : FS) e :
  wrap_isolated_binary E c filename p pn fs = (fs', Ok e) -> error_shape e.
Proof.
  unfold wrap_isolated_binary. destruct (str_in _ _); intros H.
  - bind_inv H. destruct x as [s msg]. apply ret_ok in H as [_ ->].
    destruct s; [left|right]; reflexivity.
  - apply ret_ok in H as [_ ->]. left. reflexivity.
Qed.

(** The error message of the preparation is absent or not empty. *)
Lemma prepare_file_shape E c a p pn mt (fs fs' : FS) e p' :
  prepare_file E c a p pn mt fs = (fs', Ok (e, p')) -> error_shape e.
Proof.
  unfold prepare_file. intros Hm. destruct (_ && _).
  - bind_inv Hm. apply ret_ok in Hm as [_ [= <- _]].
    eapply handle_app_modules_shape; eauto.
  - destruct (_ || _).
    + bind_inv Hm. bind_inv Hm. apply ret_ok in Hm as [_ [= <- _]].
      eapply transform_apex_shape; eauto.
    + bind_inv Hm. destruct (_ && _).
      * bind_inv Hm. apply ret_ok in Hm as [_ [= <- _]].
        eapply wrap_isolated_binary_shape; eauto.
      * apply ret_ok in Hm as [_ [= -> _]]. left. reflexivity.
Qed.

(** An error message of the unskipped path comes without a record. *)
Lemma process_unskipped_exclusive E c a p pn mt (fs fs' : FS) err o ip :
  process_unskipped E c a p pn mt fs = (fs', Ok (err, o, ip)) ->
  err <> None -> o = None /\ ip = None.
Proof.
  unfold process_unskipped. intros H Herr. bind_inv H.
  destruct x as [error_message file_path].
  pose proof (prepare_file_shape _ _ _ _ _ _ _ _ _ _ Hm) as Hshape.
  destruct (truthy error_message) eqn:Ht; cbn [negb] in H.
  - apply ret_ok in H as [_ [= _ <- <-]]. auto.
  - destruct Hshape as [->|Hshape]; [|congruence].
    bind_inv H. destruct x as [inj_obj inj_partition].
    apply ret_ok in H as [_ [= Heq _ _]]. congruence.
Qed.

Lemma locked_body_exclusive E c a p pn marker (fs fs' : FS) err o ip :
  locked_body E c a p pn marker fs = (fs', Ok (err, o, ip)) ->
  err <> None -> o = None /\ ip = None.
Proof.
  unfold locked_body. intros H Herr. bind_inv H. destruct x.
  - apply ret_ok in H as [_ [= _ <- <-]]. auto.
  - bind_inv H. destruct x as [module_type tmp_module_type].
    destruct (str_in module_type ["SKIPPED"]).
    + apply ret_ok in H as [_ [= _ <- <-]]. auto.
    + eapply process_unskipped_exclusive; eauto.
Qed.

(** The result of the worker is that of the body under the lock, or the
    message of line 414, which comes without a record. *)
Lemma process_file_concurrently_result E c a p pn (fs fs' : FS) err o ip :
  process_file_concurrently E c a p pn fs = (fs', Ok (err, o, ip)) ->
  (err <> None /\ o = None /\ ip = None)
  \/ exists fs0 fs1,
      locked_body E c a p pn (p +:+ PROCESSED_SUFFIX) fs0 = (fs1, Ok (err, o, ip)).
Proof.
  destruct (path_exists fs (p +:+ PROCESSED_SUFFIX)) eqn:Hmarker.
  - unfold process_file_concurrently. rewrite Hmarker. intros [= _ <- <- <-].
    left. repeat split. discriminate.
  - rewrite WorkerFacts.process_file_concurrently_unmarked by exact Hmarker.
    destruct (locked_body _ _ _ _ _ _ _) as [fs1 [r|e]] eqn:Hbody.
    + intros [= _ ->]. right. eauto.
    + destruct (is_exception e); [|discriminate].
      intros [= _ <- <- <-]. left. repeat split. discriminate.
Qed.

Lemma process_file_concurrently_exclusive E c a p pn (fs fs' : FS) err o ip :
  process_file_concurrently E c a p pn fs = (fs', Ok (err, o, ip)) ->
  err <> None -> o = None /\ ip = None.
Proof.
  intros H Herr.
  apply process_file_concurrently_result in H as [(_ & Ho & Hip)|(fs0 & fs1 & H)];
    [auto|].
  eapply locked_body_exclusive; eauto.
Qed.

(** A record of the worker is a record of its call of
    [search_and_inject]. *)
Lemma process_file_concurrently_records E c a p pn (fs fs' : FS) err o ip :
  process_file_concurrently E c a p pn fs = (fs', Ok (err, o, ip)) ->
  o <> None \/ ip <> None ->
  exists module_type file_path fs1 fs2,
    search_and_inject E c a pn module_type file_path fs1 = (fs2, Ok (o, ip)).
Proof.
  intros H Hrecord.
  apply process_file_concurrently_result in H as [(_ & -> & ->)|(fs0 & fs1 & H)];
    [destruct Hrecord; contradiction|].
  unfold locked_body in H. bind_inv H. destruct x.
  { apply ret_ok in H as [_ [= _ -> ->]]. destruct Hrecord; contradiction. }
  bind_inv H. destruct x as [module_type tmp_module_type].
  destruct (str_in module_type ["SKIPPED"]).
  { apply ret_ok in H as [_ [= _ -> ->]]. destruct Hrecord; contradiction. }
  unfold process_unskipped in H. bind_inv H. destruct x as [error_message file_path].
  destruct (negb (truthy error_message)).
  - bind_inv H. destruct x as [inj_obj inj_partition].
    apply ret_ok in H as [-> [= _ -> ->]]. eauto.
  - apply ret_ok in H as [_ [= _ -> ->]]. destruct Hrecord; contradiction.
Qed.

(** The indirect injection hands the direct-injection record through. *)
Lemma indirect_injection_partition E c a target file_name pn mt p ip (fs fs' : FS)
      o ip' flag :
  indirect_injection E c a target file_name pn mt p ip fs = (fs', Ok (o, ip', flag)) ->
  ip' = ip.
Proof.
  unfold indirect_injection. destruct (str_in _ _).
  { intros H. apply ret_ok in H as [_ [= _ <- _]]. reflexivity. }
  destruct (_ && _).
  { intros H. apply ret_ok in H as [_ [= _ <- _]]. reflexivity. }
  intros H. bind_inv H. bind_inv H. destruct x0 as [[mapped|found]|].
  - bind_inv H. apply ret_ok in H as [_ [= _ <- _]]. reflexivity.
  - bind_inv H. destruct x0 as [inj_obj is_injected].
    apply ret_ok in H as [_ [= _ <- _]]. reflexivity.
  - apply ret_ok in H as [_ [= _ <- _]]. reflexivity.
Qed.

Lemma direct_injection_some E p target pn mt (fs fs' : FS) ip :
  direct_injection E p target pn mt fs = (fs', Ok ip) -> ip <> None.
Proof.
  unfold direct_injection. intros H. bind_inv H.
  apply ret_ok in H as [_ ->]. discriminate.
Qed.

(** Both records come out of [search_and_inject] only through the
    fallback. *)
Lemma search_and_inject_both E c a pn mt p (fs fs' : FS) o ip :
  search_and_inject E c a pn mt p fs = (fs', Ok (Some o, Some ip)) ->
  fallback_taken E c a pn mt p fs.
Proof.
  unfold search_and_inject, fallback_taken. intros H.
  bind_inv H. rename x into target. bind_inv H.
  apply read_ok in Hm0 as [-> ->].
  destruct (_ || _).
  { exfalso. destruct (_ && _).
    - bind_inv H. apply ret_ok in H as [_ [= ? ?]].
    - bind_inv H. destruct x as [[inj_obj inj_partition] flag].
      apply indirect_injection_partition in Hm0. subst inj_partition.
      apply ret_ok in H as [_ [= ? ?]]. }
  split; [reflexivity|].
  destruct (path_exists fs0 target) eqn:Hexists; cbn [negb] in H.
  - bind_inv H. destruct x as [[inj_obj inj_partition] flag].
    pose proof (indirect_injection_partition _ _ _ _ _ _ _ _ _ _ _ _ _ _ Hm0) as ->.
    destruct flag as [[|]|].
    + apply ret_ok in H as [_ [= ? ?]].
    + exists fs0, target, fs1, inj_obj. auto.
    + apply ret_ok in H as [_ [= ? ?]].
  - bind_inv H. apply ret_ok in H as [_ [= ? ?]].
Qed.

(** Under either policy condition the indirect injection returns at
    once, without a record and without a flag. *)
Lemma indirect_injection_skips E c a target file_name pn mt p ip (fs : FS) :
  indirect_injection_skipped c file_name = true ->
  indirect_injection E c a target file_name pn mt p ip fs = (fs, Ok (None, ip, None)).
Proof.
  unfold indirect_injection_skipped, indirect_injection. cbv zeta.
  destruct (str_in _ (SKIPPED_FILE_EXTENSION_LIST_INDIRECT_INJECTION c));
    [reflexivity|].
  cbn [orb]. intros ->. reflexivity.
Qed.

Lemma search_result_nonempty c (fs : FS) pn mt p file_name out ri exact l :
  Matcher.search_original_file_in_obj c fs pn mt p file_name out ri exact = Some l ->
  l <> [].
Proof.
  unfold Matcher.search_original_file_in_obj. cbv zeta.
  match goal with
  | |- context [Nat.ltb 0 (List.length ?X)] => generalize X
  end.
  intros X. destruct X; cbn; [discriminate|]. intros [= <-]. discriminate.
Qed.

Lemma option_map_found s l : option_map Found s = Some (Found l) -> s = Some l.
Proof. destruct s; [intros [= ->]; reflexivity|discriminate]. Qed.

(** The loop over the candidates leaves a record when there is a
    candidate. *)
Lemma inject_into_all_record E c p mt pn l :
  forall acc flag (fs fs' : FS) o flag',
  inject_into_all E c p mt pn acc flag l fs = (fs', Ok (o, flag')) ->
  l <> [] \/ acc <> None -> o <> None.
Proof.
  induction l as [|x rest IH]; intros acc flag fs fs' o flag' H Hsome.
  - apply ret_ok in H as [_ [= <- _]]. destruct Hsome; [contradiction|assumption].
  - cbn [inject_into_all] in H. bind_inv H.
    eapply IH; [exact H|]. right. discriminate.
Qed.

(** Without a policy condition an indirect injection that returns has a
    record and a flag. *)
Lemma indirect_injection_record E c a target file_name pn mt p ip (fs fs' : FS)
      o ip' flag :
  indirect_injection_skipped c file_name = false ->
  indirect_injection E c a target file_name pn mt p ip fs = (fs', Ok (o, ip', flag)) ->
  o <> None /\ flag <> None.
Proof.
  unfold indirect_injection_skipped, indirect_injection. cbv zeta.
  destruct (str_in _ (SKIPPED_FILE_EXTENSION_LIST_INDIRECT_INJECTION c));
    [discriminate|].
  cbn [orb]. intros ->.
  intros H. bind_inv H. bind_inv H. destruct x0 as [[mapped|found]|].
  - bind_inv H. apply ret_ok in H as [_ [= -> _ ->]]. split; discriminate.
  - bind_inv H. destruct x0 as [inj_obj is_injected].
    apply ret_ok in H as [_ [= -> _ ->]]. split; [|discriminate].
    eapply inject_into_all_record; [exact Hm1|]. left.
    destruct x as [o'|].
    + apply ret_ok in Hm0 as [_ [= <-]]. apply read_ok in Hm as [_ Hm].
      destruct (INDIRECT_INJECTION_FILE_MAPPING c !! file_name).
      * destruct (negb _); discriminate.
      * symmetry in Hm. apply option_map_found in Hm.
        eapply search_result_nonempty, Hm.
    + bind_inv Hm0. apply read_ok in Hm0 as [_ Hm0].
      symmetry in Hm0. apply option_map_found in Hm0.
      eapply search_result_nonempty, Hm0.
  - apply ret_ok in H as [_ [= -> _ ->]]. split; discriminate.
Qed.

(** When [search_and_inject] takes the indirect path and a policy
    condition holds, it returns no record; it has done nothing but ask
    for the target path. *)
Lemma search_and_inject_skipped E c a pn mt p (fs fs1 : FS) target :
  ext_get_target_injection_path E p pn (target_out_path a) fs = (fs1, Ok target) ->
  indirect_path_chosen c fs1 p target = true ->
  indirect_injection_skipped c (basename p) = true ->
  search_and_inject E c a pn mt p fs = (fs1, Ok (None, None)).
Proof.
  intros Htarget Hpath Hskip.
  unfold search_and_inject. cbv zeta.
  unfold bind at 1. rewrite Htarget. unfold bind at 1, read at 1.
  unfold indirect_path_chosen in Hpath. cbv zeta in Hpath.
  destruct (_ || _).
  - apply negb_true_iff in Hpath. rewrite Hpath.
    unfold bind. rewrite (indirect_injection_skips _ _ _ _ _ _ _ _ _ _ Hskip).
    reflexivity.
  - rewrite Hpath. cbn [negb].
    unfold bind. rewrite (indirect_injection_skips _ _ _ _ _ _ _ _ _ _ Hskip).
    reflexivity.
Qed.

(** Outside the fallback [search_and_inject] returns at most one
    record. *)
Lemma search_and_inject_at_most_one E c a pn mt p (fs fs' : FS) o ip :
  search_and_inject E c a pn mt p fs = (fs', Ok (o, ip)) ->
  ~ fallback_taken E c a pn mt p fs ->
  o = None \/ ip = None.
Proof.
  intros H Hno. destruct o as [o|]; [|left; reflexivity].
  destruct ip as [ip|]; [|right; reflexivity].
  exfalso. apply Hno. eapply search_and_inject_both, H.
Qed.

(** The worker on an unmarked file that is not SKIPPED, when a policy
    condition keeps the indirect injection from running. *)
Lemma process_file_concurrently_skipped E c a file_path pn mt tmp (fs fs1 fs2 : FS)
      error_message file_path' target :
  path_exists fs (file_path +:+ PROCESSED_SUFFIX) = false ->
  Classifier.get_module_type fs file_path (pre_injector_package_list a) (Some c)
  = Ok (mt, tmp) ->
  mt <> "SKIPPED" ->
  prepare_file E c a file_path pn mt (<[file_path +:+ LOCK_SUFFIX := []]> fs)
  = (fs1, Ok (error_message, file_path')) ->
  truthy error_message = false ->
  ext_get_target_injection_path E file_path' pn (target_out_path a) fs1
  = (fs2, Ok target) ->
  indirect_path_chosen c fs2 file_path' target = true ->
  indirect_injection_skipped c (basename file_path') = true ->
  process_file_concurrently E c a file_path pn fs
  = (<[file_path +:+ PROCESSED_SUFFIX := []]> fs2, Ok (None, None, None)).
Proof.
  intros Hmarker Hclass Hmt Hprep Hno Htarget Hpath Hskip.
  rewrite WorkerFacts.process_file_concurrently_attempt by exact Hmarker.
  unfold attempt. cbv zeta.
  rewrite WorkerFacts.get_module_type_lock, Hclass.
  assert (Hs : str_in mt ["SKIPPED"] = false).
  { unfold str_in. cbn [existsb]. rewrite orb_false_r.
    apply String.eqb_neq, Hmt. }
  rewrite Hs. unfold process_unskipped, bind at 1. rewrite Hprep.
  cbv beta iota. rewrite Hno. cbn [negb].
  unfold bind.
  rewrite (search_and_inject_skipped _ _ _ _ _ _ _ _ _ Htarget Hpath Hskip).
  destruct (prepare_file_shape _ _ _ _ _ _ _ _ _ _ Hprep) as [->|Ht];
    [reflexivity|congruence].
Qed.
End OutcomeFacts.

(** C1, as the code has it. For a worker that returns a result: an error
    string never comes with an injection record; a record of the result is
    one that [search_and_inject] returned, and outside its fallback (no
    container file, the target exists, the indirect injection reports that
    nothing was injected) [search_and_inject] returns at most one of the
    two records. The result holds no record and no error when the
    preparation of the file reported no error, [search_and_inject] takes
    the indirect path, and a policy condition keeps the indirect injection
    from running: the extension is on the list of extensions to skip, or
    the file is a shared library, the toggle
    [ENABLE_SHARED_LIBRARIES_INJECTION_IF_NOT_EXISTS] is on and the name is
    not on the list [ALLOW_FILE_INJECT_ALWAYS]. Without such a condition an
    indirect injection that returns has a record. *)
Theorem outcome_exclusivity
        (E : Injector.Externals) (c : PostInjectorConfig) (a : Injector.RunArgs) :
  (forall file_path partition_name (fs fs' : FS) error_message inj_obj inj_partition,
      Injector.process_file_concurrently E c a file_path partition_name fs
      = (fs', Ok (error_message, inj_obj, inj_partition)) ->
      error_message <> None -> inj_obj = None /\ inj_partition = None)
  /\ (forall file_path partition_name (fs fs' : FS) error_message inj_obj inj_partition,
         Injector.process_file_concurrently E c a file_path partition_name fs
         = (fs', Ok (error_message, inj_obj, inj_partition)) ->
         inj_obj <> None \/ inj_partition <> None ->
         exists module_type file_path' fs1 fs2,
           Injector.search_and_inject E c a partition_name module_type file_path' fs1
           = (fs2, Ok (inj_obj, inj_partition)))
  /\ (forall partition_name module_type file_path (fs fs' : FS) inj_obj inj_partition,
         Injector.search_and_inject E c a partition_name module_type file_path fs
         = (fs', Ok (inj_obj, inj_partition)) ->
         ~ Props.fallback_taken E c a partition_name module_type file_path fs ->
         inj_obj = None \/ inj_partition = None)
  /\ (forall partition_name module_type file_path (fs fs1 : FS) target,
         Injector.ext_get_target_injection_path E file_path partition_name
           (Injector.target_out_path a) fs = (fs1, Ok target) ->
         Props.indirect_path_chosen c fs1 file_path target = true ->
         Props.indirect_injection_skipped c (PyStr.basename file_path) = true ->
         Injector.search_and_inject E c a partition_name module_type file_path fs
         = (fs1, Ok (None, None)))
  /\ (forall file_path partition_name module_type tmp_module_type (fs fs1 fs2 : FS)
             error_message file_path' target,
         path_exists fs (file_path +:+ Injector.PROCESSED_SUFFIX) = false ->
         Classifier.get_module_type fs file_path (Injector.pre_injector_package_list a)
           (Some c) = Ok (module_type, tmp_module_type) ->
         module_type <> "SKIPPED" ->
         Injector.prepare_file E c a file_path partition_name module_type
           (<[file_path +:+ Injector.LOCK_SUFFIX := []]> fs)
         = (fs1, Ok (error_message, file_path')) ->
         Injector.truthy error_message = false ->
         Injector.ext_get_target_injection_path E file_path' partition_name
           (Injector.target_out_path a) fs1 = (fs2, Ok target) ->
         Props.indirect_path_chosen c fs2 file_path' target = true ->
         Props.indirect_injection_skipped c (PyStr.basename file_path') = true ->
         Injector.process_file_concurrently E c a file_path partition_name fs
         = (<[file_path +:+ Injector.PROCESSED_SUFFIX := []]> fs2,
            Ok (None, None, None)))
  /\ (forall target file_name partition_name module_type file_path inj_partition
             (fs fs' : FS) inj_obj inj_partition' is_injected,
         Props.indirect_injection_skipped c file_name = false ->
         Injector.indirect_injection E c a target file_name partition_name module_type
           file_path inj_partition fs = (fs', Ok (inj_obj, inj_partition', is_injected)) ->
         inj_obj <> None /\ is_injected <> None).
Proof.
  split; [|split; [|split; [|split; [|split]]]].
  - intros. eapply OutcomeFacts.process_file_concurrently_exclusive; eauto.
  - intros. eapply OutcomeFacts.process_file_concurrently_records; eauto.
  - intros. eapply OutcomeFacts.search_and_inject_at_most_one; eauto.
  - intros. eapply OutcomeFacts.search_and_inject_skipped; eauto.
  - intros. eapply OutcomeFacts.process_file_concurrently_skipped; eauto.
  - intros. eapply OutcomeFacts.indirect_injection_record; eauto.
Qed.

(** The library is denied: the error message comes alone. The library has
    no target yet: the record of the direct injection comes alone, and it
    is the one of [search_and_inject]. The target of the library exists and
    shared libraries are not to be injected over existing ones: the worker
    returns neither a record nor an error; with the name of the library on
    the list of files to inject always, the indirect injection runs and
    returns a record. *)
Lemma outcome_exclusivity_witness :
  (Injector.process_file_concurrently Scenarios.tools
     (Scenarios.config_with ["libfoo"] [] [] false) Scenarios.args
     Scenarios.libfoo_src "system" Scenarios.fs_fresh
   = (<[Scenarios.libfoo_src +:+ Injector.PROCESSED_SUFFIX := []]>
        (<[Scenarios.libfoo_src +:+ Injector.LOCK_SUFFIX := []]> Scenarios.fs_fresh),
      Ok (Some ("Skipped File post-inject (Keyword/Extension/Filename): "
                +:+ Scenarios.libfoo_src +:+ " | module_type: SKIPPED"), None, None))
   /\ (@None Injector.InjObj = None /\ @None Injector.InjPartition = None))
  /\ (exists module_type file_path' fs1 fs2,
         Injector.search_and_inject Scenarios.tools empty_config Scenarios.args "system"
           module_type file_path' fs1
         = (fs2, Ok (None, Some (Scenarios.libfoo_src, Scenarios.libfoo_target,
                                 "SHARED_LIBRARIES"))))
  /\ (Injector.search_and_inject Scenarios.tools empty_config Scenarios.args "system"
        "SHARED_LIBRARIES" Scenarios.libfoo_src Scenarios.fs_fresh
      = (<[Scenarios.libfoo_target := Scenarios.elf64]> Scenarios.fs_fresh,
         Ok (None, Some (Scenarios.libfoo_src, Scenarios.libfoo_target,
                         "SHARED_LIBRARIES")))
      /\ (@None Injector.InjObj = None
          \/ Some (Scenarios.libfoo_src, Scenarios.libfoo_target, "SHARED_LIBRARIES")
             = None))
  /\ Injector.search_and_inject Scenarios.tools Scenarios.config_if_not_exists
       Scenarios.args "system" "SHARED_LIBRARIES" Scenarios.libfoo_src
       Scenarios.fs_target_present
     = (Scenarios.fs_target_present, Ok (None, None))
  /\ Injector.process_file_concurrently Scenarios.tools Scenarios.config_if_not_exists
       Scenarios.args Scenarios.libfoo_src "system" Scenarios.fs_target_present
     = (<[Scenarios.libfoo_src +:+ Injector.PROCESSED_SUFFIX := []]>
          (<[Scenarios.libfoo_src +:+ Injector.LOCK_SUFFIX := []]>
             Scenarios.fs_target_present),
        Ok (None, None, None))
  /\ (Props.indirect_injection_skipped Scenarios.config_inject_always "libfoo.so" = false
      /\ Some ("Original file not found for indirect injection: "
               +:+ Scenarios.libfoo_src +:+ " | libfoo.so", @None string,
               "SHARED_LIBRARIES") <> None
      /\ Some false <> None).
Proof.
  assert (Hdenied :
    Injector.process_file_concurrently Scenarios.tools
      (Scenarios.config_with ["libfoo"] [] [] false) Scenarios.args
      Scenarios.libfoo_src "system" Scenarios.fs_fresh
    = (<[Scenarios.libfoo_src +:+ Injector.PROCESSED_SUFFIX := []]>
         (<[Scenarios.libfoo_src +:+ Injector.LOCK_SUFFIX := []]> Scenarios.fs_fresh),
       Ok (Some ("Skipped File post-inject (Keyword/Extension/Filename): "
                 +:+ Scenarios.libfoo_src +:+ " | module_type: SKIPPED"), None, None)))
    by (vm_compute; reflexivity).
  assert (Hdirect :
    Injector.process_file_concurrently Scenarios.tools empty_config Scenarios.args
      Scenarios.libfoo_src "system" Scenarios.fs_fresh
    = (<[Scenarios.libfoo_src +:+ Injector.PROCESSED_SUFFIX := []]>
         (<[Scenarios.libfoo_target := Scenarios.elf64]>
            (<[Scenarios.libfoo_src +:+ Injector.LOCK_SUFFIX := []]>
               Scenarios.fs_fresh)),
       Ok (None, None, Some (Scenarios.libfoo_src, Scenarios.libfoo_target,
                             "SHARED_LIBRARIES"))))
    by (vm_compute; reflexivity).
  assert (Hsearch :
    Injector.search_and_inject Scenarios.tools empty_config Scenarios.args "system"
      "SHARED_LIBRARIES" Scenarios.libfoo_src Scenarios.fs_fresh
    = (<[Scenarios.libfoo_target := Scenarios.elf64]> Scenarios.fs_fresh,
       Ok (None, Some (Scenarios.libfoo_src, Scenarios.libfoo_target,
                       "SHARED_LIBRARIES"))))
    by (vm_compute; reflexivity).
  assert (Hindirect :
    Injector.indirect_injection Scenarios.tools Scenarios.config_inject_always
      Scenarios.args Scenarios.libfoo_target "libfoo.so" "system" "SHARED_LIBRARIES"
      Scenarios.libfoo_src None Scenarios.fs_target_present
    = (Scenarios.fs_target_present,
       Ok (Some ("Original file not found for indirect injection: "
                 +:+ Scenarios.libfoo_src +:+ " | libfoo.so", None,
                 "SHARED_LIBRARIES"), None, Some false)))
    by (vm_compute; reflexivity).
  split; [|split; [|split; [|split; [|split]]]].
  - split; [exact Hdenied|].
    apply (proj1 (outcome_exclusivity Scenarios.tools
                    (Scenarios.config_with ["libfoo"] [] [] false) Scenarios.args)
             _ _ _ _ _ _ _ Hdenied).
    discriminate.
  - apply (proj1 (proj2 (outcome_exclusivity Scenarios.tools empty_config
                           Scenarios.args)) _ _ _ _ _ _ _ Hdirect).
    right. discriminate.
  - split; [exact Hsearch|].
    apply (proj1 (proj2 (proj2 (outcome_exclusivity Scenarios.tools empty_config
                                  Scenarios.args))) _ _ _ _ _ _ _ Hsearch).
    intros [_ (fs1 & target & fs2 & inj_obj & Htarget & Hexists & _)].
    injection Htarget as <- <-. discriminate Hexists.
  - apply (proj1 (proj2 (proj2 (proj2 (outcome_exclusivity Scenarios.tools
                                         Scenarios.config_if_not_exists
                                         Scenarios.args))))
             "system" "SHARED_LIBRARIES" Scenarios.libfoo_src
             Scenarios.fs_target_present Scenarios.fs_target_present
             Scenarios.libfoo_target);
      vm_compute; reflexivity.
  - apply (proj1 (proj2 (proj2 (proj2 (proj2 (outcome_exclusivity Scenarios.tools
                                                Scenarios.config_if_not_exists
                                                Scenarios.args)))))
             Scenarios.libfoo_src "system" "SHARED_LIBRARIES" "SHARED_LIBRARIES"
             Scenarios.fs_target_present
             (<[Scenarios.libfoo_src +:+ Injector.LOCK_SUFFIX := []]>
                Scenarios.fs_target_present)
             (<[Scenarios.libfoo_src +:+ Injector.LOCK_SUFFIX := []]>
                Scenarios.fs_target_present)
             None Scenarios.libfoo_src Scenarios.libfoo_target);
      try (vm_compute; reflexivity).
    discriminate.
  - assert (Hrule :
      Props.indirect_injection_skipped Scenarios.config_inject_always "libfoo.so"
      = false) by (vm_compute; reflexivity).
    split; [exact Hrule|].
    apply (proj2 (proj2 (proj2 (proj2 (proj2 (outcome_exclusivity Scenarios.tools
                                                Scenarios.config_inject_always
                                                Scenarios.args)))))
             _ _ _ _ _ _ _ _ _ _ _ Hrule Hindirect).
Defined.

(** C1 as stated fails in both directions. A library whose target exists
    and that has no candidate in the object cache ends with an indirect
    record (holding the not-found message) and a direct record; with the
    extension on the indirect-skip list it ends with no outcome at all. *)
Lemma two_records_counterexample :
  snd (Injector.process_file_concurrently Scenarios.tools empty_config Scenarios.args
         Scenarios.libfoo_src "system" Scenarios.fs_target_present)
  = Ok (None,
        Some ("Original file not found for indirect injection: "
              +:+ Scenarios.libfoo_src +:+ " | libfoo.so", None, "SHARED_LIBRARIES"),
        Some (Scenarios.libfoo_src, Scenarios.libfoo_target, "SHARED_LIBRARIES"))
  /\ snd (Injector.process_file_concurrently Scenarios.tools
            (Scenarios.config_with [] [] [".so"] false) Scenarios.args
            Scenarios.libfoo_src "system" Scenarios.fs_target_present)
     = Ok (None, None, None).
Proof. split; vm_compute; reflexivity. Qed.

(** ** The orchestrator: cleanup and a second run *)

Module CleanupFacts.
Import PyStr Effects Injector StringFacts.

(** The cleanup pass removes the lock and marker files below the
    directory and leaves every other file as it is. *)
Lemma cleanup_files_lookup directory (fs : FS) k :
  cleanup_files directory fs !! k
  = if Matcher.under directory k
       && (endswith LOCK_SUFFIX (basename k) || endswith PROCESSED_SUFFIX (basename k))
    then None else fs !! k.
Proof.
  unfold cleanup_files.
  destruct (Matcher.under directory k && _) eqn:Hk.
  - apply map_lookup_filter_None_2. right. intros x _ HP.
    cbn [fst] in HP. rewrite Hk in HP. exact HP.
  - destruct (fs !! k) as [x|] eqn:Hx.
    + apply map_lookup_filter_Some_2; [exact Hx|].
      cbn [fst]. rewrite Hk. exact I.
    + apply map_lookup_filter_None_2. left. exact Hx.
Qed.

Lemma cleanup_files_removes directory (fs : FS) k :
  Matcher.under directory k = true ->
  endswith LOCK_SUFFIX (basename k) || endswith PROCESSED_SUFFIX (basename k) = true ->
  cleanup_files directory fs !! k = None.
Proof.
  intros Hunder Hsuffix. rewrite cleanup_files_lookup, Hunder, Hsuffix. reflexivity.
Qed.

Lemma under_append directory p suffix :
  Matcher.under directory p = true -> Matcher.under directory (p +:+ suffix) = true.
Proof. unfold Matcher.under. apply startswith_append. Qed.

Lemma marker_removed directory (fs : FS) file_path :
  Matcher.under directory file_path = true ->
  path_exists (cleanup_files directory fs) (file_path +:+ PROCESSED_SUFFIX) = false
  /\ path_exists (cleanup_files directory fs) (file_path +:+ LOCK_SUFFIX) = false.
Proof.
  intros Hunder. unfold path_exists. split.
  - rewrite cleanup_files_removes; [reflexivity| |].
    + apply under_append, Hunder.
    + rewrite (basename_append file_path PROCESSED_SUFFIX) by reflexivity.
      rewrite (endswith_append _ PROCESSED_SUFFIX). apply orb_true_r.
  - rewrite cleanup_files_removes; [reflexivity| |].
    + apply under_append, Hunder.
    + rewrite (basename_append file_path LOCK_SUFFIX) by reflexivity.
      rewrite (endswith_append _ LOCK_SUFFIX). reflexivity.
Qed.

(** A run of a partition that returns has collected the results of all
    its tasks and cleaned up behind them. *)
Lemma process_partition_files_ok E c a folder_path (fs fs2 : FS) lists :
  process_partition_files E c a folder_path fs = (fs2, Ok lists) ->
  exists fs1,
    run_tasks E c a (basename folder_path) (partition_file_paths fs folder_path) []
              ([], [], []) fs = (fs1, Ok lists)
    /\ fs2 = cleanup_files folder_path fs1.
Proof.
  unfold process_partition_files.
  destruct (pre_injector_package_list a); [|discriminate].
  destruct (run_tasks _ _ _ _ _ _ _ _) as [fs1 [collected|e]]; [|discriminate].
  intros [= <- <-]. exists fs1. auto.
Qed.
End CleanupFacts.

(** C2, as the code has it. While the marker of a file exists, a call of
    the worker on the file changes nothing. When the run of a partition
    returns, the cleanup pass has removed the lock file and the completion
    marker of every path below the partition folder and has left every
    other file as the tasks left it. A second run therefore finds no
    marker of the first one: on every file below the folder the worker
    makes a processing attempt as on a file never seen (it takes the lock,
    classifies the file and, unless it is SKIPPED, processes it, and
    writes the marker). *)
Theorem cleanup_removes_markers
        (E : Injector.Externals) (c : PostInjectorConfig) (a : Injector.RunArgs)
        (folder_path : string) (fs fs2 : FS) (lists : Injector.PartitionResult) :
  Injector.process_partition_files E c a folder_path fs = (fs2, Ok lists) ->
  (exists fs1,
     Injector.run_tasks E c a (PyStr.basename folder_path)
       (Injector.partition_file_paths fs folder_path) [] ([], [], []) fs
     = (fs1, Ok lists)
     /\ forall path,
         fs2 !! path
         = if Matcher.under folder_path path
              && (PyStr.endswith Injector.LOCK_SUFFIX (PyStr.basename path)
                  || PyStr.endswith Injector.PROCESSED_SUFFIX (PyStr.basename path))
           then None else fs1 !! path)
  /\ (forall file_path,
         Matcher.under folder_path file_path = true ->
         path_exists fs2 (file_path +:+ Injector.PROCESSED_SUFFIX) = false
         /\ path_exists fs2 (file_path +:+ Injector.LOCK_SUFFIX) = false)
  /\ (forall (E' : Injector.Externals) (c' : PostInjectorConfig)
             (a' : Injector.RunArgs) file_path partition_name,
         Matcher.under folder_path file_path = true ->
         Injector.process_file_concurrently E' c' a' file_path partition_name fs2
         = Props.attempt E' c' a' file_path partition_name fs2)
  /\ (forall (E' : Injector.Externals) (c' : PostInjectorConfig)
             (a' : Injector.RunArgs) file_path partition_name (fs0 : FS),
         path_exists fs0 (file_path +:+ Injector.PROCESSED_SUFFIX) = true ->
         Injector.process_file_concurrently E' c' a' file_path partition_name fs0
         = (fs0, Ok (Some ("File already processed: " +:+ file_path), None, None))).
Proof.
  intros Hrun.
  destruct (CleanupFacts.process_partition_files_ok _ _ _ _ _ _ _ Hrun)
    as (fs1 & Htasks & ->).
  split; [|split; [|split]].
  - exists fs1. split; [exact Htasks|].
    intros path. apply CleanupFacts.cleanup_files_lookup.
  - intros file_path Hunder. apply CleanupFacts.marker_removed, Hunder.
  - intros E' c' a' file_path partition_name Hunder.
    apply WorkerFacts.process_file_concurrently_attempt.
    apply CleanupFacts.marker_removed, Hunder.
  - intros E' c' a' file_path partition_name fs0 Hmarker.
    unfold Injector.process_file_concurrently. rewrite Hmarker. reflexivity.
Qed.

(** The first run of the partition injects the library directly. After it
    the marker and the lock file of the library are gone, the library and
    its target are there, and the worker makes a new attempt on the
    library. *)
Lemma cleanup_removes_markers_witness :
  Injector.process_partition_files Scenarios.tools empty_config Scenarios.args
    "src/system" Scenarios.fs_fresh
  = (Scenarios.after_first_run,
     Ok ([], [], [(Scenarios.libfoo_src, Scenarios.libfoo_target, "SHARED_LIBRARIES")]))
  /\ Scenarios.after_first_run
     = {[ Scenarios.libfoo_src := Scenarios.elf64;
          Scenarios.libfoo_target := Scenarios.elf64 ]}
  /\ (path_exists Scenarios.after_first_run
                  (Scenarios.libfoo_src +:+ Injector.PROCESSED_SUFFIX) = false
      /\ path_exists Scenarios.after_first_run
                     (Scenarios.libfoo_src +:+ Injector.LOCK_SUFFIX) = false)
  /\ Injector.process_file_concurrently Scenarios.tools empty_config Scenarios.args
       Scenarios.libfoo_src "system" Scenarios.after_first_run
     = Props.attempt Scenarios.tools empty_config Scenarios.args Scenarios.libfoo_src
         "system" Scenarios.after_first_run.
Proof.
  assert (Hrun :
    Injector.process_partition_files Scenarios.tools empty_config Scenarios.args
      "src/system" Scenarios.fs_fresh
    = (Scenarios.after_first_run,
       Ok ([], [], [(Scenarios.libfoo_src, Scenarios.libfoo_target,
                     "SHARED_LIBRARIES")])))
    by (vm_compute; reflexivity).
  split; [exact Hrun|]. split; [vm_compute; reflexivity|].
  destruct (cleanup_removes_markers Scenarios.tools empty_config Scenarios.args
              "src/system" Scenarios.fs_fresh Scenarios.after_first_run _ Hrun)
    as (_ & Hmarkers & Hsecond & _).
  split.
  - apply Hmarkers. reflexivity.
  - apply Hsecond. reflexivity.
Defined.

(** C2 as stated fails. The first run injects the library directly and
    leaves no marker; the second run over the result does not skip the
    library: it finds the target present, searches the object cache and
    falls back to a second direct injection, so it reports records again. *)
Lemma second_run_counterexample :
  snd (Injector.process_partition_files Scenarios.tools empty_config Scenarios.args
         "src/system" Scenarios.fs_fresh)
  = Ok ([], [], [(Scenarios.libfoo_src, Scenarios.libfoo_target, "SHARED_LIBRARIES")])
  /\ path_exists Scenarios.after_first_run
                 (Scenarios.libfoo_src +:+ Injector.PROCESSED_SUFFIX) = false
  /\ snd (Injector.process_partition_files Scenarios.tools empty_config Scenarios.args
            "src/system" Scenarios.after_first_run)
     = Ok ([],
           [("Original file not found for indirect injection: "
             +:+ Scenarios.libfoo_src +:+ " | libfoo.so", None, "SHARED_LIBRARIES")],
           [(Scenarios.libfoo_src, Scenarios.libfoo_target, "SHARED_LIBRARIES")]).
Proof. repeat split; vm_compute; reflexivity. Qed.

(** ** Indirect injection below a container mount point *)

(** No label of the classifier is routed to [/bin/]. *)
Lemma apex_route_never_bin (module_type file_name : string) :
  In module_type ("SKIPPED" :: Classifier.BASE_LABELS) ->
  Injector.apex_new_file_path module_type file_name <> "/bin/" +:+ file_name.
Proof.
  unfold Classifier.BASE_LABELS. simpl.
  intros [<-|[<-|[<-|[<-|[<-|[<-|[<-|[<-|[]]]]]]]]]; discriminate.
Qed.

(** C9 at the failing input. An executable is routed to [/etc/], not to
    [/bin/]: the code compares the module type with [BINARY], a label the
    classifier never produces. The executable of a flattened container is
    classified EXECUTABLES, the matcher returns the candidate below
    [/apex/], and the indirect injection copies the source to [/etc/foo]. *)
Theorem apex_route_of_executables :
  (forall file_name,
      Injector.apex_new_file_path "EXECUTABLES" file_name = "/etc/" +:+ file_name)
  /\ Classifier.get_module_type Scenarios.fs_apex_candidate Scenarios.tool_src (Some [])
       (Some empty_config) = Ok ("EXECUTABLES", "EXECUTABLES")
  /\ Matcher.search_original_file_in_obj empty_config Scenarios.fs_apex_candidate
       "system" "EXECUTABLES" Scenarios.tool_src "foo" "out/" "_intermediates" true
     = Some [Scenarios.tool_candidate]
  /\ Injector.inject_file_into_obj Scenarios.tools empty_config Scenarios.tool_src
       Scenarios.tool_candidate "EXECUTABLES" "system" Scenarios.fs_apex_candidate
     = (<["/etc/foo" := Scenarios.elf64]> Scenarios.fs_apex_candidate, Ok true).
Proof.
  split; [intros; reflexivity|].
  repeat split; vm_compute; reflexivity.
Qed.

(** ** Container operations and failed stages *)

Module ApexFacts.
Import PyStr Effects Apex EffectFacts.

Lemma backup_original_apex_file_out file_path (fs fs' : FS) out org :
  backup_original_apex_file file_path fs = (fs', Ok (out, org)) ->
  out = prepare_apex_out_file file_path.
Proof.
  unfold backup_original_apex_file. intros H.
  bind_inv H. bind_inv H. bind_inv H. bind_inv H.
  apply ret_ok in H as [_ [= -> _]]. reflexivity.
Qed.

Lemma sign_apex_file_success T p key (fs fs' : FS) e :
  sign_apex_file T p key fs = (fs', Ok (true, e)) ->
  exists fs1 log, tool_sign_apex_container_signapk T p fs = (fs1, Ok (true, log)).
Proof.
  unfold sign_apex_file. intros H. bind_inv H. destruct x as [[|] log].
  - eauto.
  - apply ret_ok in H as [_ H]. discriminate H.
Qed.

Lemma create_and_sign_success T manifest extract_dir root out canned path
      (fs fs' : FS) msg :
  create_and_sign_apex_repack_container T manifest extract_dir root out canned path fs
  = (fs', Ok (true, msg)) ->
  exists fs0 fs1 log, tool_sign_apex_container_signapk T out fs0 = (fs1, Ok (true, log)).
Proof.
  unfold create_and_sign_apex_repack_container. intros H.
  bind_inv H. bind_inv H. destruct x0 as [[[|] log] key].
  - bind_inv H. destruct x0 as [[|] e].
    + apply sign_apex_file_success in Hm1 as (fs3 & log' & Hsign). eauto.
    + apply ret_ok in H as [_ H]. discriminate H.
  - apply ret_ok in H as [_ H]. discriminate H.
Qed.

(** The sibling path: a repackage reports success only when the signing
    stage reported success on the output container. *)
Lemma repackage_success_signed T apex_file_path (fs fs' : FS) msg :
  repackage_apex_file T apex_file_path fs = (fs', Ok (true, msg)) ->
  exists fs0 fs1 log,
    tool_sign_apex_container_signapk T (prepare_apex_out_file apex_file_path) fs0
    = (fs1, Ok (true, log)).
Proof.
  unfold repackage_apex_file. intros H. bind_inv H. destruct x as [out org].
  apply backup_original_apex_file_out in Hm. subst out.
  apply try_except_ok in H as [H|(fs1 & e & _ & _ & H)];
    [|apply ret_ok in H as [_ H]; discriminate H].
  bind_inv H. bind_inv H. bind_inv H. destruct x1 as [[|] log].
  - bind_inv H. bind_inv H. destruct x2 as [found manifest]. bind_inv H.
    destruct x2.
    + eapply create_and_sign_success; eauto.
    + apply ret_ok in H as [_ H]. discriminate H.
  - apply ret_ok in H as [_ H]. discriminate H.
Qed.
End ApexFacts.

(** C7 at the failing input. In a merge whose packaging stage writes the
    output container and whose signing stage reports failure, the merge
    reports failure; [handle_apex_modules] finds the output file, replaces
    the container with it and returns success: the container on disk is the
    unsigned output, not the backup copy. *)
Theorem merge_reports_success_after_failed_signing :
  Scenarios.fs_media !! Scenarios.media_apex = Some Scenarios.vendor_container
  /\ snd (Apex.merge_apex_files Scenarios.tools_signing_fails Scenarios.merge_config
            "out/obj/ETC/com.android.media_intermediates" Scenarios.media_apex
            Scenarios.media_out "out/"
            (fst (Apex.backup_original_apex_file Scenarios.media_apex Scenarios.fs_media)))
     = Ok (false, "apexer done")
  /\ snd (Apex.handle_apex_modules Scenarios.tools_signing_fails
            (Some Scenarios.merge_config) Scenarios.media_apex "out/" Scenarios.fs_media)
     = Ok (true, "apexer done")
  /\ fst (Apex.handle_apex_modules Scenarios.tools_signing_fails
            (Some Scenarios.merge_config) Scenarios.media_apex "out/" Scenarios.fs_media)
     !! Scenarios.media_apex = Some Scenarios.unsigned_container
  /\ fst (Apex.handle_apex_modules Scenarios.tools_signing_fails
            (Some Scenarios.merge_config) Scenarios.media_apex "out/" Scenarios.fs_media)
     !! (Scenarios.media_apex +:+ ".original_apex") = Some Scenarios.vendor_container.
Proof. repeat split; vm_compute; reflexivity. Qed.

(** * Further properties of the classifier *)

Module RuleFacts.
Import PyStr Classifier Props RuleConditions ClassifierFacts.

Lemma lbind_at {A B} (m : Logged A) (f g : A -> Logged B) :
  f (fst m) = g (fst m) -> lbind m f = lbind m g.
Proof. unfold lbind. intros ->. reflexivity. Qed.

Section Skipped.
Variable c : PostInjectorConfig.
Variables source_file_path file_extension file_name file_name_no_ext tmp : string.

Lemma rules_before_loop_denied m :
  general_deny_fires c source_file_path file_extension file_name = true ->
  rules_before_loop c source_file_path file_extension file_name file_name_no_ext m
  = "SKIPPED".
Proof.
  unfold general_deny_fires, rules_before_loop, rule_general_deny.
  intros ->. reflexivity.
Qed.

(** Once SKIPPED, a type stays SKIPPED through lines 124-166 unless a
    relaxing rule fires. *)
Lemma rules_after_loop_skipped :
  relaxing_rule_fires c source_file_path file_extension file_name = false ->
  fst (rules_after_loop c source_file_path file_extension file_name
         (str_in file_extension [".apex"; ".capex"]) tmp "SKIPPED") = "SKIPPED".
Proof.
  unfold relaxing_rule_fires. cbv zeta.
  intros H.
  apply orb_false_elim in H as [H H5].
  apply orb_false_elim in H as [H H4].
  apply orb_false_elim in H as [H H3].
  apply orb_false_elim in H as [H1 H2].
  unfold rules_after_loop. rewrite !fst_lbind.
  unfold rule_allow_file_always. rewrite H5. cbn [fst lret].
  unfold rule_allow_app_always. rewrite H4. cbn [fst lret].
  assert (Hs : fst (rule_shared_library_if_not_exists c file_extension file_name tmp
                      "SKIPPED") = "SKIPPED").
  { unfold rule_shared_library_if_not_exists.
    destruct (ENABLE_SHARED_LIBRARIES_INJECTION_IF_NOT_EXISTS c
              && str_in file_extension [".so"]); [|reflexivity].
    cbn [andb] in H1. apply negb_false_iff in H1. rewrite H1. reflexivity. }
  rewrite Hs.
  assert (Ha : rule_apex_always_keyword c file_name
                 (str_in file_extension [".apex"; ".capex"])
                 (rule_apex_keyword_not_in_list c file_name
                    (str_in file_extension [".apex"; ".capex"])
                    (rule_skipped_apex_keyword c file_name
                       (str_in file_extension [".apex"; ".capex"]) "SKIPPED"))
               = "SKIPPED").
  { unfold rule_apex_always_keyword. rewrite H3.
    unfold rule_apex_keyword_not_in_list.
    rewrite <- andb_assoc in H2.
    destruct (ENABLE_ALLOW_APEX_INJECT_ALWAYS_KEYWORD_NOT_IN_LIST c);
      [cbn [andb] in H2; rewrite H2|];
      unfold rule_skipped_apex_keyword;
      destruct (str_in file_extension [".apex"; ".capex"]
                && any_keyword_in (SKIPPED_APEX_KEYWORD_LIST c) file_name);
      reflexivity. }
  rewrite Ha.
  reflexivity.
Qed.
End Skipped.

Lemma lbind_cong {A B} (m m' : Logged A) (f g : A -> Logged B) :
  m = m' -> f (fst m) = g (fst m) -> lbind m f = lbind m' g.
Proof. intros <-. apply lbind_at. Qed.

Section DeadKeys.
Variable c : PostInjectorConfig.
Variable keywords : list string.
Variable toggle : bool.
Variables source_file_path file_extension file_name file_name_no_ext tmp : string.
Variable is_apex : bool.

Let c' := with_app_keywords_and_java_toggle keywords toggle c.

Lemma rules_before_loop_keys m :
  rules_before_loop c' source_file_path file_extension file_name file_name_no_ext m
  = rules_before_loop c source_file_path file_extension file_name file_name_no_ext m.
Proof.
  unfold rules_before_loop. rewrite !allowed_app_keyword_id. reflexivity.
Qed.

(** The [elif] of line 151 assigns the tentative type to a type that
    is JAVA_LIBRARIES, which at that point is the tentative type. *)
Lemma rule_java_libraries_keys m :
  allowed tmp m ->
  rule_java_libraries c' tmp m = rule_java_libraries c tmp m.
Proof.
  intros H. unfold rule_java_libraries.
  change (DISABLE_JAVA_LIBRARIES_INJECTION c')
    with (DISABLE_JAVA_LIBRARIES_INJECTION c).
  destruct (String.eqb m "JAVA_LIBRARIES") eqn:E; [|reflexivity].
  apply String.eqb_eq in E.
  destruct (DISABLE_JAVA_LIBRARIES_INJECTION c); [reflexivity|].
  assert (Hm : m = tmp).
  { destruct H as [H|[H|H]]; [exact H|congruence|congruence]. }
  rewrite Hm. cbn [andb].
  destruct (ALLOW_ALL_JAVA_LIBRARIES_INJECTION c');
    destruct (ALLOW_ALL_JAVA_LIBRARIES_INJECTION c); reflexivity.
Qed.

Lemma rules_after_loop_keys m :
  allowed tmp m ->
  rules_after_loop c' source_file_path file_extension file_name is_apex tmp m
  = rules_after_loop c source_file_path file_extension file_name is_apex tmp m.
Proof.
  intros H. unfold rules_after_loop.
  apply lbind_cong; [reflexivity|]. cbv beta zeta.
  apply lbind_cong; [reflexivity|]. cbv beta zeta.
  apply lbind_cong; [|reflexivity].
  apply rule_java_libraries_keys.
  apply (disallow_app_allowed c'), apex_always_keyword_allowed,
    apex_keyword_not_in_list_allowed, skipped_apex_keyword_allowed,
    shared_library_allowed, H.
Qed.

Lemma apply_rules_keys pre :
  apply_rules c' source_file_path file_extension file_name file_name_no_ext
              is_apex tmp pre
  = apply_rules c source_file_path file_extension file_name file_name_no_ext
                is_apex tmp pre.
Proof.
  unfold apply_rules. rewrite rules_before_loop_keys.
  apply lbind_at.
  match goal with
  | |- context [rule_already_injected ?fn ?fne ?pre ?m] =>
      pose proof (already_injected_cases fn fne tmp pre m
                    (rules_before_loop_allowed c source_file_path file_extension
                       fn fne tmp tmp (or_introl eq_refl))) as Hloop
  end.
  destruct (fst (rule_already_injected _ _ _ _)) as [m'|e]; [|reflexivity].
  rewrite (rules_after_loop_keys m' Hloop). reflexivity.
Qed.
End DeadKeys.

End RuleFacts.

(** X1. A file that the deny rule of line 111 rejects (a skipped keyword
    in its path, an extension or a file name that is not allowed) ends as
    SKIPPED, with or without a list of already injected names, unless one
    of the relaxing rules of lines 124-166 fires for it. *)
Theorem denied_file_is_skipped
        (fs : FS) (source_file_path : string)
        (pre_injector_package_list : option (list string))
        (c : PostInjectorConfig) :
  RuleConditions.general_deny_fires c (PyStr.strip source_file_path)
    (snd (PyStr.splitext (PyStr.strip source_file_path)))
    (Classifier.rule_file_name fs source_file_path) = true ->
  RuleConditions.relaxing_rule_fires c (PyStr.strip source_file_path)
    (snd (PyStr.splitext (PyStr.strip source_file_path)))
    (Classifier.rule_file_name fs source_file_path) = false ->
  exists tentative,
    Classifier.get_module_type fs source_file_path pre_injector_package_list (Some c)
    = Ok ("SKIPPED", tentative).
Proof.
  intros Hdeny Hrelax.
  unfold Classifier.rule_file_name in Hdeny, Hrelax. cbv zeta in Hdeny, Hrelax.
  unfold Classifier.get_module_type, Classifier.get_module_type_logged,
    Classifier.apply_rules.
  rewrite ClassifierFacts.fst_lbind.
  rewrite (RuleFacts.rules_before_loop_denied _ _ _ _ _ _ Hdeny).
  change (fst (Classifier.rule_already_injected _ _ pre_injector_package_list "SKIPPED"))
    with (@Ok string "SKIPPED").
  cbv beta iota.
  rewrite ClassifierFacts.fst_lbind.
  rewrite (RuleFacts.rules_after_loop_skipped _ _ _ _ _ Hrelax).
  eexists. reflexivity.
Qed.

(** A library with a skipped keyword in its path, classified without a
    list of already injected names. *)
Lemma denied_file_is_skipped_witness :
  RuleConditions.general_deny_fires (Scenarios.config_with ["libfoo"] [] [] false)
    (PyStr.strip Scenarios.libfoo_src)
    (snd (PyStr.splitext (PyStr.strip Scenarios.libfoo_src)))
    (Classifier.rule_file_name Scenarios.fs_fresh Scenarios.libfoo_src) = true
  /\ RuleConditions.relaxing_rule_fires (Scenarios.config_with ["libfoo"] [] [] false)
       (PyStr.strip Scenarios.libfoo_src)
       (snd (PyStr.splitext (PyStr.strip Scenarios.libfoo_src)))
       (Classifier.rule_file_name Scenarios.fs_fresh Scenarios.libfoo_src) = false
  /\ exists tentative,
      Classifier.get_module_type Scenarios.fs_fresh Scenarios.libfoo_src None
        (Some (Scenarios.config_with ["libfoo"] [] [] false))
      = Ok ("SKIPPED", tentative).
Proof.
  split; [reflexivity|]. split; [reflexivity|].
  apply (denied_file_is_skipped Scenarios.fs_fresh Scenarios.libfoo_src None
           (Scenarios.config_with ["libfoo"] [] [] false)); reflexivity.
Defined.

(** X2. A shared library, an ETC file or an app whose file name, or file
    name without extension, equals an entry of the list of already
    injected names (after [FMD_APEX] and [fmd] are removed from the entry
    and it is stripped) ends as SKIPPED unless a relaxing rule fires. *)
Theorem already_injected_is_skipped
        (fs : FS) (source_file_path : string)
        (pre_injector_package_list : list string)
        (c : PostInjectorConfig) (final tentative : string) :
  Classifier.get_module_type fs source_file_path (Some pre_injector_package_list)
                             (Some c) = Ok (final, tentative) ->
  In tentative ["SHARED_LIBRARIES"; "ETC"; "APPS"] ->
  existsb (Classifier.matches_package
             (Classifier.rule_file_name fs source_file_path)
             (fst (PyStr.splitext (PyStr.basename (PyStr.strip source_file_path)))))
          pre_injector_package_list = true ->
  RuleConditions.relaxing_rule_fires c (PyStr.strip source_file_path)
    (snd (PyStr.splitext (PyStr.strip source_file_path)))
    (Classifier.rule_file_name fs source_file_path) = false ->
  final = "SKIPPED".
Proof.
  intros Hrun Hin Hmatch Hrelax.
  unfold Classifier.rule_file_name in Hmatch, Hrelax. cbv zeta in Hmatch, Hrelax.
  unfold Classifier.get_module_type, Classifier.get_module_type_logged,
    Classifier.apply_rules in Hrun.
  cbv zeta in Hrun.
  rewrite ClassifierFacts.fst_lbind in Hrun.
  match type of Hrun with
  | context [Classifier.rule_already_injected ?fn ?fne (Some ?l) ?m] =>
      assert (Hloop : fst (Classifier.rule_already_injected fn fne (Some l) m)
                      = Ok "SKIPPED");
      [pose proof (ClassifierFacts.rules_before_loop_allowed c
                     (PyStr.strip source_file_path)
                     (snd (PyStr.splitext (PyStr.strip source_file_path)))
                     fn fne _ _ (or_introl eq_refl) : Props.allowed _ m) as Hm;
       set (before := m) in *|]
  end.
  { assert (Htmp : tentative = fst (Classifier.base_module_type fs
                                      (PyStr.dirname source_file_path)
                                      (PyStr.strip source_file_path)
                                      (snd (PyStr.splitext (PyStr.strip source_file_path)))
                                      (PyStr.basename (PyStr.strip source_file_path)))).
    { destruct (fst (Classifier.rule_already_injected _ _ _ _)); [|discriminate].
      rewrite ClassifierFacts.fst_lbind in Hrun. cbn in Hrun. congruence. }
    clear Hrun. unfold Classifier.rule_already_injected. rewrite Hmatch.
    destruct Hm as [Hm|[Hm|Hm]]; rewrite Hm; [|reflexivity|reflexivity].
    rewrite <- Htmp.
    cbn in Hin. destruct Hin as [<-|[<-|[<-|[]]]]; reflexivity. }
  rewrite Hloop in Hrun. cbv beta iota in Hrun.
  rewrite ClassifierFacts.fst_lbind in Hrun.
  rewrite (RuleFacts.rules_after_loop_skipped _ _ _ _ _ Hrelax) in Hrun.
  cbn in Hrun. congruence.
Qed.

(** A library that an earlier phase has injected under its name without
    extension. *)
Lemma already_injected_is_skipped_witness :
  exists final,
    Classifier.get_module_type Scenarios.fs_fresh Scenarios.libfoo_src
      (Some ["FMD_APEXlibfoo "]) (Some empty_config) = Ok (final, "SHARED_LIBRARIES")
    /\ final = "SKIPPED".
Proof.
  exists "SKIPPED". split; [reflexivity|].
  apply (already_injected_is_skipped Scenarios.fs_fresh Scenarios.libfoo_src
           ["FMD_APEXlibfoo "] empty_config "SKIPPED" "SHARED_LIBRARIES");
    [reflexivity|simpl; auto|reflexivity|reflexivity].
Defined.

(** X3. The keys [ALLOWED_APP_INJECTION_KEYWORD] and
    [ALLOW_ALL_JAVA_LIBRARIES_INJECTION] of the rule set have no effect:
    whatever their values, the classifier returns the same result and logs
    the same records. The first is read by a rule that assigns APPS to a
    type that is APPS (line 105), the second by a branch that assigns the
    tentative type to a type that still is the tentative type (line 151). *)
Theorem app_keyword_and_java_toggle_are_dead
        (fs : FS) (source_file_path : string)
        (pre_injector_package_list : option (list string))
        (c : PostInjectorConfig) (keywords : list string) (toggle : bool) :
  Classifier.get_module_type_logged fs source_file_path pre_injector_package_list
    (Some (RuleConditions.with_app_keywords_and_java_toggle keywords toggle c))
  = Classifier.get_module_type_logged fs source_file_path pre_injector_package_list
      (Some c).
Proof.
  unfold Classifier.get_module_type_logged. cbv zeta.
  apply RuleFacts.apply_rules_keys.
Qed.

(** * Further properties of the matcher *)

Module SubstringFacts.
Import PyStr StringFacts.

Lemma append_cons (a : ascii) (s t : string) : String a s +:+ t = String a (s +:+ t).
Proof. reflexivity. Qed.

Lemma append_empty_l (t : string) : "" +:+ t = t.
Proof. reflexivity. Qed.

Lemma startswith_refl (x post : string) : startswith x (x +:+ post) = true.
Proof.
  induction x as [|a x IH]; simpl; [reflexivity|].
  rewrite Ascii.eqb_refl. exact IH.
Qed.

Lemma startswith_prefix (x y s : string) :
  startswith (x +:+ y) s = true -> startswith x s = true.
Proof.
  revert s. induction x as [|a x IH]; intros s; [reflexivity|].
  destruct s as [|b s]; simpl; [discriminate|].
  intros H. apply andb_true_iff in H as [-> H]. simpl. apply IH, H.
Qed.

Lemma contains_prefix (x y s : string) :
  contains (x +:+ y) s = true -> contains x s = true.
Proof.
  induction s as [|b s IH]; cbn [contains]; intros H;
    apply orb_true_iff in H as [H|H]; try discriminate H.
  - rewrite (startswith_prefix _ _ _ H). reflexivity.
  - rewrite (startswith_prefix _ _ _ H). reflexivity.
  - rewrite (IH H). apply orb_true_r.
Qed.

Lemma contains_startswith (x s : string) :
  startswith x s = true -> contains x s = true.
Proof. destruct s; cbn [contains]; intros ->; reflexivity. Qed.

Lemma contains_middle (x pre post : string) :
  contains x (pre +:+ x +:+ post) = true.
Proof.
  induction pre as [|a pre IH].
  - change ("" +:+ x +:+ post) with (x +:+ post).
    apply contains_startswith, startswith_refl.
  - change (String a pre +:+ x +:+ post) with (String a (pre +:+ x +:+ post)).
    cbn [contains]. rewrite IH. apply orb_true_r.
Qed.

Lemma split_after_last_concat (c : ascii) (p : string) :
  p = fst (split_after_last c p) +:+ snd (split_after_last c p).
Proof.
  induction p as [|a p IH]; [reflexivity|].
  cbn [split_after_last].
  destruct (split_after_last c p) as [h t]. cbn [fst snd] in IH.
  destruct (Ascii.eqb a c); [cbn [fst snd]; rewrite append_cons; congruence|].
  destruct (String.eqb h "") eqn:E; cbn [fst snd].
  - apply String.eqb_eq in E. subst h. rewrite append_empty_l in *. congruence.
  - rewrite append_cons. congruence.
Qed.

Lemma rstrip_sep_prefix (s : string) : exists r, s = rstrip_sep s +:+ r.
Proof.
  induction s as [|a s [r IH]]; [exists ""; reflexivity|].
  cbn [rstrip_sep].
  destruct (Ascii.eqb a "/" && String.eqb (rstrip_sep s) "").
  - exists (String a s). reflexivity.
  - exists r. rewrite append_cons. congruence.
Qed.

Lemma append_assoc (a b c : string) : (a +:+ b) +:+ c = a +:+ (b +:+ c).
Proof.
  induction a as [|x a IH]; [reflexivity|].
  rewrite !append_cons, IH. reflexivity.
Qed.

Lemma dirname_prefix (p : string) : exists r, p = dirname p +:+ r.
Proof.
  unfold dirname.
  pose proof (split_after_last_concat "/" p) as H.
  destruct (negb _ && negb _).
  - destruct (rstrip_sep_prefix (fst (split_after_last "/" p))) as [r Hr].
    exists (r +:+ snd (split_after_last "/" p)).
    rewrite <- append_assoc, <- Hr. exact H.
  - eexists. exact H.
Qed.

(** The name of the parent directory of a path occurs in the path. *)
Lemma contains_parent_dir (p : string) : contains (basename (dirname p)) p = true.
Proof.
  destruct (dirname_prefix p) as [r Hr].
  pose proof (split_after_last_concat "/" (dirname p)) as Hd.
  fold (basename (dirname p)) in Hd.
  rewrite Hr at 2. rewrite Hd at 2.
  rewrite append_assoc. apply contains_middle.
Qed.

End SubstringFacts.

Module SearchFacts.
Import PyStr Effects Matcher Props SearchFolder MatcherFacts StringFacts SubstringFacts.

Lemma search_unfold c fs partition_name module_type file_path file_name
      target_out_path replace_intermediate exact_match_files :
  search_original_file_in_obj c fs partition_name module_type file_path file_name
    target_out_path replace_intermediate exact_match_files
  = let result_file_path_list :=
      List.filter
        (accepts_candidate c fs
           (if str_in partition_name ["super"; "system"] then "" else partition_name)
           module_type file_path file_name replace_intermediate)
        (narrow_file_path_list fs file_path file_name module_type exact_match_files
           (get_all_files fs (search_folder_path target_out_path module_type))) in
    if Nat.ltb 0 (List.length result_file_path_list)
    then Some result_file_path_list else None.
Proof. reflexivity. Qed.

Lemma filter_none {A} (f : A -> bool) (l : list A) :
  (forall x, In x l -> f x = false) -> List.filter f l = [].
Proof.
  induction l as [|a l IH]; intros H; [reflexivity|].
  cbn [List.filter]. rewrite (H a (or_introl eq_refl)).
  apply IH. intros x Hx. apply H. right. exact Hx.
Qed.

(** The result of the matcher and its candidates. *)
Lemma search_result_accepted c fs partition_name module_type file_path file_name
      target_out_path replace_intermediate exact_match_files l candidate :
  search_original_file_in_obj c fs partition_name module_type file_path file_name
    target_out_path replace_intermediate exact_match_files = Some l ->
  In candidate l ->
  accepts_candidate c fs
    (if str_in partition_name ["super"; "system"] then "" else partition_name)
    module_type file_path file_name replace_intermediate candidate = true
  /\ In candidate
       (narrow_file_path_list fs file_path file_name module_type exact_match_files
          (get_all_files fs (search_folder_path target_out_path module_type))).
Proof.
  rewrite search_unfold. cbv zeta.
  destruct (Nat.ltb 0 _); [|discriminate].
  intros [= <-] Hin. apply filter_In in Hin as [Hin Hacc]. split; assumption.
Qed.

Lemma remove_first_subset x l y : In y (remove_first x l) -> In y l.
Proof.
  induction l as [|z l IH]; cbn [remove_first]; [auto|].
  destruct (String.eqb z x); cbn; intuition.
Qed.

Lemma remove_incompatible_subset fs file_path module_type fuel i matches y :
  In y (remove_incompatible fs file_path module_type fuel i matches) -> In y matches.
Proof.
  revert i matches. induction fuel as [|fuel IH]; intros i matches; cbn; [auto|].
  destruct (matches !! i) as [m|]; [|auto].
  intros H. apply IH in H.
  destruct (negb _); [apply remove_first_subset in H|]; exact H.
Qed.

(** What is left after narrowing was in the list, and has the name of
    the source when some file of the list has it. *)
Lemma narrow_subset fs file_path file_name module_type exact_match_files l y :
  In y (narrow_file_path_list fs file_path file_name module_type exact_match_files l) ->
  In y l.
Proof.
  unfold narrow_file_path_list. destruct exact_match_files; [|auto].
  destruct (List.filter _ l) as [|m ms] eqn:E.
  - intros H. apply filter_In in H as [H _]. exact H.
  - intros H. apply remove_incompatible_subset in H. rewrite <- E in H.
    apply filter_In in H as [H _]. exact H.
Qed.

Lemma narrow_exact fs file_path file_name module_type l f y :
  In f l -> basename f = file_name ->
  In y (narrow_file_path_list fs file_path file_name module_type true l) ->
  basename y = file_name.
Proof.
  intros Hf Hname. unfold narrow_file_path_list.
  destruct (List.filter _ l) as [|m ms] eqn:E.
  - exfalso.
    assert (Hin : In f (List.filter (fun file => String.eqb (basename file) file_name)
                                    l)).
    { apply filter_In. split; [exact Hf|]. apply String.eqb_eq, Hname. }
    rewrite E in Hin. exact Hin.
  - intros H. apply remove_incompatible_subset in H. rewrite <- E in H.
    apply filter_In in H as [_ H]. apply String.eqb_eq, H.
Qed.

Lemma walk_files_spec (fs : FS) directory p :
  In p (walk_files fs directory) <-> under directory p = true /\ is_Some (fs !! p).
Proof.
  unfold walk_files. rewrite filter_In, in_map_iff. split.
  - intros [[[k v] [<- Hkv]] Hu]. split; [exact Hu|].
    apply list_elem_of_In, elem_of_map_to_list in Hkv. eexists. exact Hkv.
  - intros [Hu [v Hv]]. split; [|exact Hu].
    exists (p, v). split; [reflexivity|].
    apply list_elem_of_In, elem_of_map_to_list, Hv.
Qed.

Lemma endswith_target_obj_path target_out_path :
  endswith "/" (target_obj_path target_out_path) = true.
Proof.
  unfold target_obj_path. cbv zeta.
  destruct (endswith "/" (path_join target_out_path FOLDER_NAME_OBJECTS)) eqn:E;
    cbn [negb]; [exact E|].
  apply endswith_append.
Qed.

Lemma under_search_folder target_out_path module_type p :
  under (search_folder_path target_out_path module_type) p = true ->
  startswith (target_obj_path target_out_path) p = true.
Proof.
  unfold under, search_folder_path.
  destruct (negb (str_in module_type _)).
  - destruct (endswith "/" _); [|rewrite append_assoc]; apply startswith_prefix.
  - rewrite endswith_target_obj_path. auto.
Qed.

(** Removing a rejected candidate does not change what is accepted. *)
Lemma filter_remove_first (f : string -> bool) x l :
  f x = false -> List.filter f (remove_first x l) = List.filter f l.
Proof.
  intros Hx. induction l as [|y l IH]; [reflexivity|].
  cbn [remove_first]. destruct (String.eqb y x) eqn:E.
  - apply String.eqb_eq in E. subst y. cbn [List.filter]. rewrite Hx. reflexivity.
  - cbn [List.filter]. rewrite IH. reflexivity.
Qed.

Lemma filter_remove_incompatible c fs partition_name module_type file_path file_name
      replace_intermediate fuel i matches :
  List.filter (accepts_candidate c fs partition_name module_type file_path file_name
                                 replace_intermediate)
              (remove_incompatible fs file_path module_type fuel i matches)
  = List.filter (accepts_candidate c fs partition_name module_type file_path file_name
                                   replace_intermediate) matches.
Proof.
  revert i matches. induction fuel as [|fuel IH]; intros i matches; [reflexivity|].
  cbn [remove_incompatible].
  destruct (matches !! i) as [m|]; [|reflexivity].
  rewrite IH.
  destruct (check_file_compatibility fs file_path m module_type) eqn:E;
    cbn [negb]; [reflexivity|].
  apply filter_remove_first.
  destruct (accepts_candidate c fs partition_name module_type file_path file_name
                              replace_intermediate m) eqn:Ha; [|reflexivity].
  apply accepts_candidate_compatible in Ha. congruence.
Qed.

(** A source with [arm] in its path outside of a directory [arm] or
    [arm64] is compatible with no candidate. *)
Lemma arm_orphan_incompatible fs file_path candidate module_type :
  contains "arm" file_path = true ->
  basename (dirname file_path) <> "arm64" ->
  basename (dirname file_path) <> "arm" ->
  module_type <> "JAVA_LIBRARIES" ->
  check_file_compatibility fs file_path candidate module_type = false.
Proof.
  intros Harm H64 H32 Hjava.
  unfold check_file_compatibility, is_parent_dir_arm_and_target_arm.
  rewrite Harm.
  apply String.eqb_neq in H64, H32, Hjava. rewrite H64, H32, Hjava.
  reflexivity.
Qed.

(** A compatible candidate of a source in a directory [arm] or [arm64]
    passed the test on the two parent directories. *)
Lemma compatible_parent_dirs fs file_path candidate module_type :
  contains "arm" file_path = true ->
  module_type <> "JAVA_LIBRARIES" ->
  check_file_compatibility fs file_path candidate module_type = true ->
  is_parent_dir_arm_and_target_arm file_path candidate = true.
Proof.
  intros Harm Hjava. unfold check_file_compatibility.
  rewrite Harm. apply String.eqb_neq in Hjava. rewrite Hjava. cbv zeta.
  destruct (is_parent_dir_arm_and_target_arm file_path candidate);
    [reflexivity|].
  cbn [negb]. discriminate.
Qed.

End SearchFacts.

(** X4. A source file with [arm] anywhere in its path whose parent
    directory is neither [arm] nor [arm64] has no original in the object
    cache: for every module type but JAVA_LIBRARIES the matcher returns
    nothing, whatever the object cache holds. *)
Theorem arm_in_path_finds_nothing
        (c : PostInjectorConfig) (fs : FS)
        (partition_name module_type file_path file_name target_out_path
         replace_intermediate : string)
        (exact_match_files : bool) :
  PyStr.contains "arm" file_path = true ->
  PyStr.basename (PyStr.dirname file_path) <> "arm64" ->
  PyStr.basename (PyStr.dirname file_path) <> "arm" ->
  module_type <> "JAVA_LIBRARIES" ->
  Matcher.search_original_file_in_obj c fs partition_name module_type file_path
    file_name target_out_path replace_intermediate exact_match_files = None.
Proof.
  intros Harm H64 H32 Hjava. rewrite SearchFacts.search_unfold. cbv zeta.
  rewrite SearchFacts.filter_none; [reflexivity|].
  intros candidate _.
  destruct (Matcher.accepts_candidate _ _ _ _ _ _ _ candidate) eqn:E; [|reflexivity].
  apply MatcherFacts.accepts_candidate_compatible in E.
  rewrite SearchFacts.arm_orphan_incompatible in E by assumption.
  discriminate E.
Qed.

(** The library [libalarm.so] is not matched with its own copy in the
    object cache. *)
Lemma arm_in_path_finds_nothing_witness :
  PyStr.contains "arm" MatcherScenarios.libalarm_src = true
  /\ Matcher.search_original_file_in_obj empty_config MatcherScenarios.fs_alarm
       "system" "SHARED_LIBRARIES" MatcherScenarios.libalarm_src "libalarm.so" "out/"
       "_intermediates" true = None.
Proof.
  split; [reflexivity|].
  apply (arm_in_path_finds_nothing empty_config MatcherScenarios.fs_alarm "system"
           "SHARED_LIBRARIES" MatcherScenarios.libalarm_src "libalarm.so" "out/"
           "_intermediates" true);
    [reflexivity|vm_compute; discriminate|vm_compute; discriminate|discriminate].
Defined.

(** X5. The matcher keeps [arm] and [arm64] apart, for every module type
    but JAVA_LIBRARIES: a source in a directory [arm64] is matched only
    with candidates whose parent directory has [arm64] in its name, a
    source in a directory [arm] only with candidates whose parent
    directory has [arm] but not [arm64] in its name. *)
Theorem arm_directories_are_kept_apart
        (c : PostInjectorConfig) (fs : FS)
        (partition_name module_type file_path file_name target_out_path
         replace_intermediate : string)
        (exact_match_files : bool) (l : list string) (candidate : string) :
  module_type <> "JAVA_LIBRARIES" ->
  Matcher.search_original_file_in_obj c fs partition_name module_type file_path
    file_name target_out_path replace_intermediate exact_match_files = Some l ->
  In candidate l ->
  (PyStr.basename (PyStr.dirname file_path) = "arm64" ->
   PyStr.contains "arm64" (PyStr.basename (PyStr.dirname candidate)) = true)
  /\ (PyStr.basename (PyStr.dirname file_path) = "arm" ->
      PyStr.contains "arm64" (PyStr.basename (PyStr.dirname candidate)) = false
      /\ PyStr.contains "arm" (PyStr.basename (PyStr.dirname candidate)) = true).
Proof.
  intros Hjava Hsearch Hin.
  pose proof (MatcherFacts.search_result_compatible _ _ _ _ _ _ _ _ _ _ _
                Hsearch Hin) as Hcompat.
  pose proof (SubstringFacts.contains_parent_dir file_path) as Hparent.
  split.
  - intros H64. rewrite H64 in Hparent.
    apply (SubstringFacts.contains_prefix "arm" "64") in Hparent.
    pose proof (SearchFacts.compatible_parent_dirs _ _ _ _ Hparent Hjava Hcompat) as H.
    unfold Matcher.is_parent_dir_arm_and_target_arm in H. rewrite H64 in H.
    cbn [String.eqb Ascii.eqb Bool.eqb] in H. cbv zeta in H.
    change (String.eqb "arm64" "arm64") with true in H. cbv iota in H.
    destruct (PyStr.contains "arm64" (PyStr.basename (PyStr.dirname candidate)));
      [reflexivity|discriminate H].
  - intros H32. rewrite H32 in Hparent.
    pose proof (SearchFacts.compatible_parent_dirs _ _ _ _ Hparent Hjava Hcompat) as H.
    unfold Matcher.is_parent_dir_arm_and_target_arm in H. rewrite H32 in H.
    cbv zeta in H.
    change (String.eqb "arm" "arm64") with false in H.
    change (String.eqb "arm" "arm") with true in H. cbv iota in H.
    clear Hparent.
    destruct (PyStr.contains "arm64" (PyStr.basename (PyStr.dirname candidate)));
      [discriminate H|].
    destruct (PyStr.contains "arm" (PyStr.basename (PyStr.dirname candidate)));
      [split; reflexivity|discriminate H].
Qed.

(** Of the two builds in the object cache the one in [arm64] is matched
    with the library of the directory [arm64]. *)
Lemma arm_directories_are_kept_apart_witness :
  Matcher.search_original_file_in_obj empty_config MatcherScenarios.fs_arm "system"
    "SHARED_LIBRARIES" MatcherScenarios.libbar_src "libbar.so" "out/" "_intermediates"
    true = Some [MatcherScenarios.libbar_obj_arm64]
  /\ PyStr.contains "arm64"
       (PyStr.basename (PyStr.dirname MatcherScenarios.libbar_obj_arm64)) = true.
Proof.
  assert (Hsearch :
    Matcher.search_original_file_in_obj empty_config MatcherScenarios.fs_arm "system"
      "SHARED_LIBRARIES" MatcherScenarios.libbar_src "libbar.so" "out/" "_intermediates"
      true = Some [MatcherScenarios.libbar_obj_arm64])
    by (vm_compute; reflexivity).
  split; [exact Hsearch|].
  refine (proj1 (arm_directories_are_kept_apart empty_config MatcherScenarios.fs_arm
                   "system" "SHARED_LIBRARIES" MatcherScenarios.libbar_src "libbar.so"
                   "out/" "_intermediates" true [MatcherScenarios.libbar_obj_arm64]
                   MatcherScenarios.libbar_obj_arm64 _ Hsearch _) _);
    [discriminate|simpl; left; reflexivity|vm_compute; reflexivity].
Defined.

(** X6. Every candidate the matcher returns is an existing file below the
    object cache [<target_out_path>/obj/] of the output tree, and its path
    has [ndk] in it only if the path of the source has. *)
Theorem candidates_are_files_of_the_object_cache
        (c : PostInjectorConfig) (fs : FS)
        (partition_name module_type file_path file_name target_out_path
         replace_intermediate : string)
        (exact_match_files : bool) (l : list string) (candidate : string) :
  Matcher.search_original_file_in_obj c fs partition_name module_type file_path
    file_name target_out_path replace_intermediate exact_match_files = Some l ->
  In candidate l ->
  PyStr.startswith (SearchFolder.target_obj_path target_out_path) candidate = true
  /\ path_exists fs candidate = true
  /\ (PyStr.contains "ndk" candidate = true -> PyStr.contains "ndk" file_path = true).
Proof.
  intros Hsearch Hin.
  destruct (SearchFacts.search_result_accepted _ _ _ _ _ _ _ _ _ _ _ Hsearch Hin)
    as [Hacc Hnarrow].
  apply SearchFacts.narrow_subset in Hnarrow.
  apply SearchFacts.walk_files_spec in Hnarrow as [Hunder [content Hcontent]].
  split; [eapply SearchFacts.under_search_folder, Hunder|].
  split; [unfold path_exists; rewrite Hcontent; reflexivity|].
  intros Hndk. unfold Matcher.accepts_candidate in Hacc. cbv zeta in Hacc.
  rewrite Hndk in Hacc.
  destruct (PyStr.contains "ndk" file_path); [reflexivity|].
  rewrite orb_true_r in Hacc. discriminate Hacc.
Qed.

(** The candidate of the library scenario. *)
Lemma candidates_are_files_of_the_object_cache_witness :
  Matcher.search_original_file_in_obj empty_config Scenarios.fs_object_cache
    "system" "SHARED_LIBRARIES" Scenarios.libfoo_src "libfoo.so" "out/"
    "_intermediates" true = Some [Scenarios.libfoo_obj64]
  /\ PyStr.startswith (SearchFolder.target_obj_path "out/") Scenarios.libfoo_obj64
     = true
  /\ path_exists Scenarios.fs_object_cache Scenarios.libfoo_obj64 = true.
Proof.
  assert (Hsearch :
    Matcher.search_original_file_in_obj empty_config Scenarios.fs_object_cache
      "system" "SHARED_LIBRARIES" Scenarios.libfoo_src "libfoo.so" "out/"
      "_intermediates" true = Some [Scenarios.libfoo_obj64])
    by (vm_compute; reflexivity).
  split; [exact Hsearch|].
  destruct (candidates_are_files_of_the_object_cache empty_config
              Scenarios.fs_object_cache "system" "SHARED_LIBRARIES" Scenarios.libfoo_src
              "libfoo.so" "out/" "_intermediates" true [Scenarios.libfoo_obj64]
              Scenarios.libfoo_obj64 Hsearch (or_introl eq_refl)) as (H1 & H2 & _).
  split; [exact H1|exact H2].
Defined.

(** X7. The loop of lines 805-808, which removes incompatible files from
    the list of exact matches while it iterates over that list (and so
    passes over the file behind each one it removes), has no effect on the
    result: the candidates accepted from the narrowed list are those
    accepted from the list without any removal. *)
Theorem removal_pass_has_no_effect
        (c : PostInjectorConfig) (fs : FS)
        (partition_name module_type file_path file_name replace_intermediate : string)
        (exact_match_files : bool) (file_path_list : list string) :
  List.filter (Matcher.accepts_candidate c fs partition_name module_type file_path
                 file_name replace_intermediate)
              (Matcher.narrow_file_path_list fs file_path file_name module_type
                 exact_match_files file_path_list)
  = List.filter (Matcher.accepts_candidate c fs partition_name module_type file_path
                   file_name replace_intermediate)
                (SearchFolder.narrow_without_removal file_name exact_match_files
                   file_path_list).
Proof.
  unfold Matcher.narrow_file_path_list, SearchFolder.narrow_without_removal.
  destruct exact_match_files; [|reflexivity].
  destruct (List.filter _ file_path_list) as [|m ms]; [reflexivity|].
  apply SearchFacts.filter_remove_incompatible.
Qed.

(** X8. With exact matching on, when some file of the searched folder has
    the file name of the source, every candidate the matcher returns has
    that file name: files that only share the extension or the module
    directory are not considered. *)
Theorem exact_name_has_priority
        (c : PostInjectorConfig) (fs : FS)
        (partition_name module_type file_path file_name target_out_path
         replace_intermediate : string)
        (l : list string) (file candidate : string) :
  path_exists fs file = true ->
  Matcher.under (SearchFolder.search_folder_path target_out_path module_type) file
  = true ->
  PyStr.basename file = file_name ->
  Matcher.search_original_file_in_obj c fs partition_name module_type file_path
    file_name target_out_path replace_intermediate true = Some l ->
  In candidate l ->
  PyStr.basename candidate = file_name.
Proof.
  intros Hexists Hunder Hname Hsearch Hin.
  destruct (SearchFacts.search_result_accepted _ _ _ _ _ _ _ _ _ _ _ Hsearch Hin)
    as [_ Hnarrow].
  eapply SearchFacts.narrow_exact; [|exact Hname|exact Hnarrow].
  apply SearchFacts.walk_files_spec. split; [exact Hunder|].
  unfold path_exists in Hexists. destruct (fs !! file); [eauto|discriminate].
Qed.

(** The 32-bit build in the object cache has the name of the library. *)
Lemma exact_name_has_priority_witness :
  Matcher.search_original_file_in_obj empty_config Scenarios.fs_object_cache
    "system" "SHARED_LIBRARIES" Scenarios.libfoo_src "libfoo.so" "out/"
    "_intermediates" true = Some [Scenarios.libfoo_obj64]
  /\ PyStr.basename Scenarios.libfoo_obj64 = "libfoo.so".
Proof.
  assert (Hsearch :
    Matcher.search_original_file_in_obj empty_config Scenarios.fs_object_cache
      "system" "SHARED_LIBRARIES" Scenarios.libfoo_src "libfoo.so" "out/"
      "_intermediates" true = Some [Scenarios.libfoo_obj64])
    by (vm_compute; reflexivity).
  split; [exact Hsearch|].
  apply (exact_name_has_priority empty_config Scenarios.fs_object_cache "system"
           "SHARED_LIBRARIES" Scenarios.libfoo_src "libfoo.so" "out/" "_intermediates"
           [Scenarios.libfoo_obj64] Scenarios.libfoo_obj32 Scenarios.libfoo_obj64);
    [vm_compute; reflexivity|vm_compute; reflexivity|vm_compute; reflexivity
     |exact Hsearch|simpl; left; reflexivity].
Defined.

(** * Further properties of the injection *)

Module InjectionFacts.
Import PyStr Effects Injector EffectFacts.

(** A plain candidate is overwritten with the content of the source. *)
Lemma inject_file_into_obj_plain E c source original module_type partition_name
      (fs : FS) content :
  fs !! source = Some content ->
  path_exists fs original = true ->
  original <> source ->
  contains "/apex/" original = false ->
  str_in (basename source) (APEX_BINARY_ISOLATED_NAMESPACE_LIST c)
  || str_in source (APEX_BINARY_ISOLATED_NAMESPACE_LIST c) = false ->
  ext_can_write E original = true ->
  inject_file_into_obj E c source original module_type partition_name fs
  = (<[original := content]> fs, Ok true).
Proof.
  intros Hsrc Horg Hneq Hapex Hiso Hwrite.
  unfold inject_file_into_obj, bind, compute_file_hash, try_except, copyfile, ret.
  unfold path_exists in Horg. rewrite Hsrc.
  destruct (fs !! original); [|discriminate].
  rewrite Hapex, Hiso, Hsrc.
  assert (Heqb : String.eqb source original = false).
  { apply String.eqb_neq. congruence. }
  rewrite Heqb, Hwrite. reflexivity.
Qed.

Lemma str_in_cons x y l : str_in x (y :: l) = String.eqb x y || str_in x l.
Proof. reflexivity. Qed.

Lemma inject_into_all_plain E c source module_type partition_name content l :
  forall (fs : FS) inj_obj is_injected,
  fs !! source = Some content ->
  str_in (basename source) (APEX_BINARY_ISOLATED_NAMESPACE_LIST c)
  || str_in source (APEX_BINARY_ISOLATED_NAMESPACE_LIST c) = false ->
  (forall original, In original l ->
     path_exists fs original = true /\ original <> source
     /\ contains "/apex/" original = false /\ ext_can_write E original = true) ->
  exists fs',
    inject_into_all E c source module_type partition_name inj_obj is_injected l fs
    = (fs', Ok (match l with
                | [] => (inj_obj, is_injected)
                | _ => (Some (source, Some (List.last l ""), module_type), true)
                end))
    /\ forall path, fs' !! path = if str_in path l then Some content else fs !! path.
Proof.
  induction l as [|x rest IH]; intros fs inj_obj is_injected Hsrc Hiso Hall.
  - exists fs. split; reflexivity.
  - destruct (Hall x (or_introl eq_refl)) as (Hex & Hneq & Hapex & Hwrite).
    cbn [inject_into_all]. unfold bind at 1.
    rewrite (inject_file_into_obj_plain E c source x module_type partition_name fs
               content Hsrc Hex Hneq Hapex Hiso Hwrite).
    destruct (IH (<[x := content]> fs) (Some (source, Some x, module_type)) true)
      as (fs' & Hrun & Hfs').
    + rewrite lookup_insert_ne by exact Hneq. exact Hsrc.
    + exact Hiso.
    + intros y Hy. destruct (Hall y (or_intror Hy)) as (Hy1 & Hy2 & Hy3 & Hy4).
      repeat split; try assumption.
      unfold path_exists in *.
      destruct (decide (x = y)) as [->|Hxy];
        [rewrite lookup_insert_eq; reflexivity|].
      rewrite lookup_insert_ne by exact Hxy. exact Hy1.
    + exists fs'. split.
      * rewrite Hrun. destruct rest; reflexivity.
      * intros path. rewrite Hfs', str_in_cons.
        destruct (String.eqb path x) eqn:Hpath.
        -- apply String.eqb_eq in Hpath. subst path.
           rewrite lookup_insert_eq. destruct (str_in x rest); reflexivity.
        -- apply String.eqb_neq in Hpath.
           rewrite lookup_insert_ne by congruence. reflexivity.
Qed.

Lemma inject_into_all_last E c source module_type partition_name l :
  forall original (fs fs' : FS) inj_obj is_injected inj_obj' is_injected',
  inject_into_all E c source module_type partition_name inj_obj is_injected
                  (l ++ [original]) fs = (fs', Ok (inj_obj', is_injected')) ->
  inj_obj' = Some (source, Some original, module_type)
  /\ exists fs1,
      inject_file_into_obj E c source original module_type partition_name fs1
      = (fs', Ok is_injected').
Proof.
  induction l as [|x rest IH]; intros original fs fs' inj_obj is_injected inj_obj'
                                      is_injected' H.
  - cbn [app inject_into_all] in H. bind_inv H.
    apply ret_ok in H as [-> [= <- <-]]. split; [reflexivity|eauto].
  - cbn [app inject_into_all] in H. bind_inv H. eapply IH, H.
Qed.

End InjectionFacts.

(** X9. When the matcher returns several candidates, the injection flag
    and the record of the indirect injection are those of the last one:
    the record names the last candidate, and the flag is the result of the
    copy onto it, whatever happened with the candidates before it. *)
Theorem last_candidate_decides
        (E : Injector.Externals) (c : PostInjectorConfig)
        (file_path module_type partition_name : string)
        (earlier : list string) (last_candidate : string)
        (fs fs' : FS) (inj_obj' : option Injector.InjObj) (is_injected' : bool) :
  Injector.inject_into_all E c file_path module_type partition_name None false
    (earlier ++ [last_candidate]) fs = (fs', Ok (inj_obj', is_injected')) ->
  inj_obj' = Some (file_path, Some last_candidate, module_type)
  /\ exists fs1,
      Injector.inject_file_into_obj E c file_path last_candidate module_type
        partition_name fs1 = (fs', Ok is_injected').
Proof. apply InjectionFacts.inject_into_all_last. Qed.

(** The copy onto the first of two builds succeeds, the copy onto the
    second one fails: the flag says that nothing was injected. *)
Lemma last_candidate_decides_witness :
  exists fs',
    Injector.inject_into_all InjectionScenarios.tools_first_build_only empty_config
      Scenarios.libfoo_src "SHARED_LIBRARIES" "system" None false
      ([InjectionScenarios.libfoo_obj_a] ++ [InjectionScenarios.libfoo_obj_b])
      InjectionScenarios.fs_two_builds
    = (fs', Ok (Some (Scenarios.libfoo_src, Some InjectionScenarios.libfoo_obj_b,
                      "SHARED_LIBRARIES"), false))
    /\ fs' !! InjectionScenarios.libfoo_obj_a = Some Scenarios.elf64
    /\ exists fs1,
        Injector.inject_file_into_obj InjectionScenarios.tools_first_build_only
          empty_config Scenarios.libfoo_src InjectionScenarios.libfoo_obj_b
          "SHARED_LIBRARIES" "system" fs1 = (fs', Ok false).
Proof.
  assert (Hrun :
    Injector.inject_into_all InjectionScenarios.tools_first_build_only empty_config
      Scenarios.libfoo_src "SHARED_LIBRARIES" "system" None false
      ([InjectionScenarios.libfoo_obj_a] ++ [InjectionScenarios.libfoo_obj_b])
      InjectionScenarios.fs_two_builds
    = (<[InjectionScenarios.libfoo_obj_a := Scenarios.elf64]>
         InjectionScenarios.fs_two_builds,
       Ok (Some (Scenarios.libfoo_src, Some InjectionScenarios.libfoo_obj_b,
                 "SHARED_LIBRARIES"), false)))
    by (vm_compute; reflexivity).
  exists (<[InjectionScenarios.libfoo_obj_a := Scenarios.elf64]>
            InjectionScenarios.fs_two_builds).
  split; [exact Hrun|]. split; [vm_compute; reflexivity|].
  exact (proj2 (last_candidate_decides _ _ _ _ _ _ _ _ _ _ _ Hrun)).
Defined.

(** X10. When the source can be read and every candidate is an existing
    writable file outside of [/apex/] other than the source (and the
    source is not on the isolated-namespace list), the loop over the
    candidates returns with the flag set and the record of the last
    candidate, every candidate holds the content of the source, and no
    other file has changed. *)
Theorem every_candidate_is_overwritten
        (E : Injector.Externals) (c : PostInjectorConfig)
        (file_path module_type partition_name : string)
        (original_file_path_list : list string) (fs : FS) (content : list Byte.byte) :
  original_file_path_list <> [] ->
  fs !! file_path = Some content ->
  PyStr.str_in (PyStr.basename file_path) (APEX_BINARY_ISOLATED_NAMESPACE_LIST c)
  || PyStr.str_in file_path (APEX_BINARY_ISOLATED_NAMESPACE_LIST c) = false ->
  (forall original, In original original_file_path_list ->
     path_exists fs original = true /\ original <> file_path
     /\ PyStr.contains "/apex/" original = false
     /\ Injector.ext_can_write E original = true) ->
  exists fs',
    Injector.inject_into_all E c file_path module_type partition_name None false
      original_file_path_list fs
    = (fs', Ok (Some (file_path, Some (List.last original_file_path_list ""),
                      module_type), true))
    /\ forall path,
        fs' !! path = if PyStr.str_in path original_file_path_list
                      then Some content else fs !! path.
Proof.
  intros Hne Hsrc Hiso Hall.
  destruct (InjectionFacts.inject_into_all_plain E c file_path module_type
              partition_name content original_file_path_list fs None false
              Hsrc Hiso Hall) as (fs' & Hrun & Hfs').
  exists fs'. split; [|exact Hfs'].
  rewrite Hrun. destruct original_file_path_list; [contradiction|reflexivity].
Qed.

(** Both builds of the object cache receive the library. *)
Lemma every_candidate_is_overwritten_witness :
  exists fs',
    Injector.inject_into_all Scenarios.tools empty_config Scenarios.libfoo_src
      "SHARED_LIBRARIES" "system" None false
      [InjectionScenarios.libfoo_obj_a; InjectionScenarios.libfoo_obj_b]
      InjectionScenarios.fs_two_builds
    = (fs', Ok (Some (Scenarios.libfoo_src, Some InjectionScenarios.libfoo_obj_b,
                      "SHARED_LIBRARIES"), true))
    /\ forall path,
        fs' !! path
        = if PyStr.str_in path
               [InjectionScenarios.libfoo_obj_a; InjectionScenarios.libfoo_obj_b]
          then Some Scenarios.elf64 else InjectionScenarios.fs_two_builds !! path.
Proof.
  apply (every_candidate_is_overwritten Scenarios.tools empty_config
           Scenarios.libfoo_src "SHARED_LIBRARIES" "system"
           [InjectionScenarios.libfoo_obj_a; InjectionScenarios.libfoo_obj_b]
           InjectionScenarios.fs_two_builds Scenarios.elf64).
  - discriminate.
  - vm_compute. reflexivity.
  - reflexivity.
  - intros original [<-|[<-|[]]]; repeat split; try reflexivity; discriminate.
Defined.

(** X11. The injection into the object cache raises [OSError], leaving
    the file system as it is, when the source or the candidate cannot be
    read. When both can be read and the copy is a plain one (the candidate
    lies below [/apex/], or the source is not on the isolated-namespace
    list), it does not raise: a copy that goes through returns [True] with
    the target holding the content of the source, and a copy that fails
    (source and target are the same file, or the target cannot be written)
    is caught and [False] is returned, the file system unchanged. For a
    source on the isolated-namespace list the result is that of
    [inject_apex_symlink_file], with [False] in the place of an
    [Exception] it raises; what is no [Exception] passes. *)
Theorem inject_file_into_obj_raises_only_on_unreadable
        (E : Injector.Externals) (c : PostInjectorConfig)
        (source_file_path original_file_path module_type partition_name : string)
        (fs : FS) :
  (path_exists fs source_file_path && path_exists fs original_file_path = false ->
   exists message,
     Injector.inject_file_into_obj E c source_file_path original_file_path
       module_type partition_name fs = (fs, Raise (OSError message)))
  /\ (forall content,
         fs !! source_file_path = Some content ->
         path_exists fs original_file_path = true ->
         PyStr.contains "/apex/" original_file_path = true
         \/ PyStr.str_in (PyStr.basename source_file_path)
                         (APEX_BINARY_ISOLATED_NAMESPACE_LIST c)
            || PyStr.str_in source_file_path (APEX_BINARY_ISOLATED_NAMESPACE_LIST c)
            = false ->
         let target :=
           if PyStr.contains "/apex/" original_file_path
           then Injector.apex_new_file_path module_type
                  (PyStr.basename original_file_path)
           else original_file_path in
         Injector.inject_file_into_obj E c source_file_path original_file_path
           module_type partition_name fs
         = if negb (String.eqb source_file_path target) && Injector.ext_can_write E target
           then (<[target := content]> fs, Ok true)
           else (fs, Ok false))
  /\ (path_exists fs source_file_path && path_exists fs original_file_path = true ->
      PyStr.contains "/apex/" original_file_path = false ->
      PyStr.str_in (PyStr.basename source_file_path)
                   (APEX_BINARY_ISOLATED_NAMESPACE_LIST c)
      || PyStr.str_in source_file_path (APEX_BINARY_ISOLATED_NAMESPACE_LIST c) = true ->
      Injector.inject_file_into_obj E c source_file_path original_file_path
        module_type partition_name fs
      = match Injector.ext_inject_apex_symlink_file E (PyStr.basename source_file_path)
                source_file_path original_file_path partition_name fs with
        | (fs1, Ok is_injected) => (fs1, Ok is_injected)
        | (fs1, Raise e) => if is_exception e then (fs1, Ok false) else (fs1, Raise e)
        end).
Proof.
  unfold Injector.inject_file_into_obj, Effects.bind, Effects.compute_file_hash,
    path_exists.
  destruct (fs !! source_file_path) as [content|] eqn:Hsource.
  2: { split; [intros _; eexists; reflexivity|].
       split; [intros content' [=]|discriminate]. }
  destruct (fs !! original_file_path) as [old|] eqn:Horiginal.
  2: { split; [intros _; eexists; reflexivity|].
       split; [intros content' _ [=]|discriminate]. }
  split; [discriminate|]. split.
  - intros content' [= <-] _ Hplain. cbv zeta.
    unfold Effects.try_except, Effects.bind, Effects.copyfile, Effects.ret.
    destruct (PyStr.contains "/apex/" original_file_path) eqn:Hapex.
    + rewrite Hsource.
      destruct (String.eqb source_file_path _); [reflexivity|].
      destruct (Injector.ext_can_write E _); reflexivity.
    + destruct Hplain as [Hplain|Hplain]; [discriminate|].
      rewrite Hplain, Hsource.
      destruct (String.eqb source_file_path original_file_path); [reflexivity|].
      destruct (Injector.ext_can_write E original_file_path); reflexivity.
  - intros _ Hapex Hisolated. rewrite Hapex, Hisolated.
    unfold Effects.try_except, Effects.ret.
    destruct (Injector.ext_inject_apex_symlink_file E _ _ _ _ fs) as [fs1 [b|e]];
      reflexivity.
Qed.

(** The object file of the library does not exist; its target is
    overwritten; the second build of the object cache cannot be written;
    the library is on the isolated-namespace list. *)
Lemma inject_file_into_obj_raises_only_on_unreadable_witness :
  (exists message,
     Injector.inject_file_into_obj Scenarios.tools empty_config Scenarios.libfoo_src
       Scenarios.libfoo_obj64 "SHARED_LIBRARIES" "system" Scenarios.fs_target_present
     = (Scenarios.fs_target_present, Raise (OSError message)))
  /\ Injector.inject_file_into_obj Scenarios.tools empty_config Scenarios.libfoo_src
       Scenarios.libfoo_target "SHARED_LIBRARIES" "system" Scenarios.fs_target_present
     = (<[Scenarios.libfoo_target := Scenarios.elf64]> Scenarios.fs_target_present,
        Ok true)
  /\ Injector.inject_file_into_obj InjectionScenarios.tools_first_build_only
       empty_config Scenarios.libfoo_src InjectionScenarios.libfoo_obj_b
       "SHARED_LIBRARIES" "system" InjectionScenarios.fs_two_builds
     = (InjectionScenarios.fs_two_builds, Ok false)
  /\ Injector.inject_file_into_obj InjectionScenarios.tools_symlink_fails
       (InjectionScenarios.config_isolated ["libfoo.so"]) Scenarios.libfoo_src
       Scenarios.libfoo_target "SHARED_LIBRARIES" "system" Scenarios.fs_target_present
     = (Scenarios.fs_target_present, Ok false).
Proof.
  split; [|split; [|split]].
  - apply (proj1 (inject_file_into_obj_raises_only_on_unreadable Scenarios.tools
                    empty_config Scenarios.libfoo_src Scenarios.libfoo_obj64
                    "SHARED_LIBRARIES" "system" Scenarios.fs_target_present)).
    vm_compute. reflexivity.
  - apply (proj1 (proj2 (inject_file_into_obj_raises_only_on_unreadable Scenarios.tools
                           empty_config Scenarios.libfoo_src Scenarios.libfoo_target
                           "SHARED_LIBRARIES" "system" Scenarios.fs_target_present))
             Scenarios.elf64);
      [vm_compute; reflexivity|vm_compute; reflexivity|right; reflexivity].
  - apply (proj1 (proj2 (inject_file_into_obj_raises_only_on_unreadable
                           InjectionScenarios.tools_first_build_only empty_config
                           Scenarios.libfoo_src InjectionScenarios.libfoo_obj_b
                           "SHARED_LIBRARIES" "system"
                           InjectionScenarios.fs_two_builds))
             Scenarios.elf64);
      [vm_compute; reflexivity|vm_compute; reflexivity|right; reflexivity].
  - apply (proj2 (proj2 (inject_file_into_obj_raises_only_on_unreadable
                           InjectionScenarios.tools_symlink_fails
                           (InjectionScenarios.config_isolated ["libfoo.so"])
                           Scenarios.libfoo_src Scenarios.libfoo_target
                           "SHARED_LIBRARIES" "system" Scenarios.fs_target_present)));
      vm_compute; reflexivity.
Defined.

(** * Further properties of the worker and the orchestrator *)

Module WorkerSteps.
Import PyStr Effects Injector EffectFacts WorkerFacts Props.

(** The worker on an unmarked file that is not SKIPPED runs the work of
    lines 353-412 under the lock. *)
Lemma process_file_concurrently_unskipped E c a file_path partition_name (fs : FS)
      module_type tmp_module_type :
  path_exists fs (file_path +:+ PROCESSED_SUFFIX) = false ->
  Classifier.get_module_type fs file_path (pre_injector_package_list a) (Some c)
  = Ok (module_type, tmp_module_type) ->
  module_type <> "SKIPPED" ->
  process_file_concurrently E c a file_path partition_name fs
  = let (fs', r) :=
      process_unskipped E c a file_path partition_name module_type
                        (<[file_path +:+ LOCK_SUFFIX := []]> fs) in
    (<[file_path +:+ PROCESSED_SUFFIX := []]> fs',
     match r with
     | Ok result => Ok result
     | Raise e =>
         if is_exception e
         then Ok (Some (exn_str e +:+ ":" +:+ ext_format_exc E e), None, None)
         else Raise e
     end).
Proof.
  intros Hmarker Hclass Hskip.
  rewrite process_file_concurrently_unmarked by exact Hmarker.
  unfold locked_body, bind, read.
  rewrite path_exists_insert_ne by apply lock_neq_marker.
  rewrite Hmarker, get_module_type_lock, Hclass.
  assert (Hs : str_in module_type ["SKIPPED"] = false).
  { unfold str_in. cbn [existsb]. rewrite orb_false_r.
    apply String.eqb_neq, Hskip. }
  rewrite Hs. reflexivity.
Qed.

Lemma collect_files_processed acc r :
  (let '(error_message, inj_obj, inj_partition) := r in
   error_message <> None -> inj_obj = None /\ inj_partition = None) ->
  (Statistics.files_processed (collect acc r)
   <= Statistics.files_processed acc + 2)%nat.
Proof.
  destruct acc as [[errors objs] parts]. destruct r as [[err o] ip].
  intros H. unfold collect, Statistics.files_processed.
  destruct err as [e|].
  - destruct (H ltac:(discriminate)) as [-> ->].
    destruct (truthy (Some e)); rewrite ?length_app; cbn [List.length]; lia.
  - cbn [truthy]. destruct o, ip; rewrite ?length_app; cbn [List.length]; lia.
Qed.

Lemma collect_exception_files_processed acc e :
  (Statistics.files_processed (collect_exception acc e)
   <= Statistics.files_processed acc + 2)%nat.
Proof.
  destruct acc as [[errors objs] parts].
  unfold collect_exception, Statistics.files_processed.
  rewrite length_app. cbn [List.length]. lia.
Qed.

(** The collection of the results ends with lists within the bound, or
    with what is no [Exception]. *)
Lemma run_tasks_files_processed E c a partition_name file_paths :
  forall processed_files acc (fs : FS),
  match snd (run_tasks E c a partition_name file_paths processed_files acc fs) with
  | Ok lists =>
      (Statistics.files_processed lists
       <= Statistics.files_processed acc + 2 * List.length file_paths)%nat
  | Raise e => is_exception e = false
  end.
Proof.
  induction file_paths as [|p rest IH]; intros processed acc fs.
  - cbn. lia.
  - cbn [run_tasks]. destruct (str_in p processed).
    + specialize (IH processed acc fs).
      destruct (snd (run_tasks _ _ _ _ rest _ _ _)); [|exact IH].
      cbn [List.length]. lia.
    + destruct (process_file_concurrently E c a p partition_name fs)
        as [fs' [r|e]] eqn:Hr.
      * specialize (IH (p :: processed) (collect acc r) fs').
        destruct (snd (run_tasks _ _ _ _ rest _ _ _)); [|exact IH].
        pose proof (collect_files_processed acc r) as Hc.
        destruct r as [[err o] ip].
        specialize (Hc (OutcomeFacts.process_file_concurrently_exclusive
                          _ _ _ _ _ _ _ _ _ _ Hr)).
        cbn [List.length]. lia.
      * rewrite (process_file_concurrently_raise _ _ _ _ _ _ _ _ Hr).
        cbn [snd]. eapply process_file_concurrently_raise, Hr.
Qed.

End WorkerSteps.

(** X12. An app whose signing fails is not injected: the worker returns
    the signing error without a record, and the file system it leaves is
    the one the signer left plus the marker file; the search for the
    target and the injection do not run. *)
Theorem unsigned_app_is_not_injected
        (E : Injector.Externals) (c : PostInjectorConfig) (a : Injector.RunArgs)
        (file_path partition_name tmp_module_type message : string) (fs fs' : FS) :
  path_exists fs (file_path +:+ Injector.PROCESSED_SUFFIX) = false ->
  Classifier.get_module_type fs file_path (Injector.pre_injector_package_list a) (Some c)
  = Ok ("APPS", tmp_module_type) ->
  PyStr.lower (snd (PyStr.splitext file_path)) = ".apk" ->
  Injector.ext_handle_apk_signing E file_path
    (<[file_path +:+ Injector.LOCK_SUFFIX := []]> fs) = (fs', Ok (false, message)) ->
  Injector.process_file_concurrently E c a file_path partition_name fs
  = (<[file_path +:+ Injector.PROCESSED_SUFFIX := []]> fs',
     Ok (Some ("Error signing APK file: " +:+ file_path +:+ "|" +:+ message), None,
         None)).
Proof.
  intros Hmarker Hclass Hext Hsign.
  rewrite (WorkerSteps.process_file_concurrently_unskipped E c a file_path
             partition_name fs "APPS" tmp_module_type Hmarker Hclass)
    by discriminate.
  unfold Injector.process_unskipped, Injector.prepare_file. rewrite Hext.
  change (String.eqb "APPS" "APPS" && String.eqb ".apk" ".apk") with true.
  cbv iota. unfold Injector.handle_app_modules, Effects.bind.
  rewrite Hsign. reflexivity.
Qed.

(** The signer fails on the app of the source tree. *)
Lemma unsigned_app_is_not_injected_witness :
  Injector.process_file_concurrently InjectionScenarios.tools_unsigned empty_config
    Scenarios.args InjectionScenarios.app_src "system" InjectionScenarios.fs_app
  = (<[InjectionScenarios.app_src +:+ Injector.PROCESSED_SUFFIX := []]>
       (<[InjectionScenarios.app_src +:+ Injector.LOCK_SUFFIX := []]>
          InjectionScenarios.fs_app),
     Ok (Some ("Error signing APK file: " +:+ InjectionScenarios.app_src +:+ "|"
               +:+ "apksigner failed"), None, None)).
Proof.
  apply (unsigned_app_is_not_injected InjectionScenarios.tools_unsigned empty_config
           Scenarios.args InjectionScenarios.app_src "system" "APPS" "apksigner failed"
           InjectionScenarios.fs_app
           (<[InjectionScenarios.app_src +:+ Injector.LOCK_SUFFIX := []]>
              InjectionScenarios.fs_app));
    vm_compute; reflexivity.
Defined.

(** X13. A container file whose merge or repackaging fails is not
    injected. When the transformation of lines 369-391 reports an error,
    the worker returns that error without a record; when it raises an
    [Exception] (line 379 does), the worker returns the text of line 414
    without a record; when it raises what is no [Exception] (the
    [SystemExit] of a pipeline that calls [exit] passes the handlers of
    lines 373, 389 and 413), the worker raises it on. In each case the
    file system the worker leaves is the one the transformation left plus
    the marker file: the search for the target and the injection do not
    run. *)
Theorem failed_container_is_not_injected
        (E : Injector.Externals) (c : PostInjectorConfig) (a : Injector.RunArgs)
        (file_path partition_name module_type tmp_module_type file_path' : string)
        (fs fs1 fs2 : FS) (outcome : result (option string)) :
  path_exists fs (file_path +:+ Injector.PROCESSED_SUFFIX) = false ->
  Classifier.get_module_type fs file_path (Injector.pre_injector_package_list a) (Some c)
  = Ok (module_type, tmp_module_type) ->
  module_type <> "SKIPPED" ->
  PyStr.lower (snd (PyStr.splitext file_path)) = ".apex"
  \/ PyStr.lower (snd (PyStr.splitext file_path)) = ".capex" ->
  Injector.normalize_apex_path E a (PyStr.basename file_path) file_path
    (<[file_path +:+ Injector.LOCK_SUFFIX := []]> fs) = (fs1, Ok file_path') ->
  Injector.transform_apex E c (PyStr.basename file_path) file_path' fs1
  = (fs2, outcome) ->
  outcome <> Ok None ->
  Injector.process_file_concurrently E c a file_path partition_name fs
  = (<[file_path +:+ Injector.PROCESSED_SUFFIX := []]> fs2,
     match outcome with
     | Ok error_message => Ok (error_message, None, None)
     | Raise e =>
         if is_exception e
         then Ok (Some (Effects.exn_str e +:+ ":" +:+ Injector.ext_format_exc E e),
                  None, None)
         else Raise e
     end).
Proof.
  intros Hmarker Hclass Hskip Hext Hnorm Htrans Hfail.
  rewrite (WorkerSteps.process_file_concurrently_unskipped E c a file_path
             partition_name fs module_type tmp_module_type Hmarker Hclass Hskip).
  unfold Injector.process_unskipped, Injector.prepare_file.
  assert (Hapk : String.eqb module_type "APPS"
                 && String.eqb (PyStr.lower (snd (PyStr.splitext file_path))) ".apk"
                 = false).
  { destruct Hext as [-> | ->]; apply andb_false_r. }
  assert (Hapex : String.eqb (PyStr.lower (snd (PyStr.splitext file_path))) ".apex"
                  || String.eqb (PyStr.lower (snd (PyStr.splitext file_path))) ".capex"
                  = true).
  { destruct Hext as [-> | ->]; reflexivity. }
  rewrite Hapk, Hapex. unfold Effects.bind at 1 2. rewrite Hnorm.
  unfold Effects.bind at 1. rewrite Htrans.
  destruct outcome as [[message|]|e]; [|contradiction|reflexivity].
  destruct (OutcomeFacts.transform_apex_shape _ _ _ _ _ _ _ Htrans) as [H|H];
    [discriminate H|].
  unfold Effects.ret at 1. cbv beta iota. rewrite H. reflexivity.
Qed.

(** The repackaging of the container file fails; the repackaging of the
    container file ends in [exit(1)]. *)
Lemma failed_container_is_not_injected_witness :
  Injector.process_file_concurrently InjectionScenarios.tools_repack_fails
    empty_config Scenarios.args InjectionScenarios.container_src "system"
    InjectionScenarios.fs_container
  = (<[InjectionScenarios.container_src +:+ Injector.PROCESSED_SUFFIX := []]>
       (<[InjectionScenarios.container_src +:+ Injector.LOCK_SUFFIX := []]>
          InjectionScenarios.fs_container),
     Ok (Some ("Error handling repack APEX file: "
               +:+ InjectionScenarios.container_src +:+ "|apexer failed"), None, None))
  /\ Injector.process_file_concurrently InjectionScenarios.tools_repack_exits
       empty_config Scenarios.args InjectionScenarios.container_src "system"
       InjectionScenarios.fs_container
     = (<[InjectionScenarios.container_src +:+ Injector.PROCESSED_SUFFIX := []]>
          (<[InjectionScenarios.container_src +:+ Injector.LOCK_SUFFIX := []]>
             InjectionScenarios.fs_container),
        Raise (SystemExit 1)).
Proof.
  split.
  - apply (failed_container_is_not_injected InjectionScenarios.tools_repack_fails
             empty_config Scenarios.args InjectionScenarios.container_src "system"
             "ETC" "ETC" InjectionScenarios.container_src
             InjectionScenarios.fs_container
             (<[InjectionScenarios.container_src +:+ Injector.LOCK_SUFFIX := []]>
                InjectionScenarios.fs_container)
             (<[InjectionScenarios.container_src +:+ Injector.LOCK_SUFFIX := []]>
                InjectionScenarios.fs_container)
             (Ok (Some ("Error handling repack APEX file: "
                        +:+ InjectionScenarios.container_src +:+ "|apexer failed"))));
      try (vm_compute; reflexivity); try discriminate.
    left. vm_compute. reflexivity.
  - apply (failed_container_is_not_injected InjectionScenarios.tools_repack_exits
             empty_config Scenarios.args InjectionScenarios.container_src "system"
             "ETC" "ETC" InjectionScenarios.container_src
             InjectionScenarios.fs_container
             (<[InjectionScenarios.container_src +:+ Injector.LOCK_SUFFIX := []]>
                InjectionScenarios.fs_container)
             (<[InjectionScenarios.container_src +:+ Injector.LOCK_SUFFIX := []]>
                InjectionScenarios.fs_container)
             (Raise (SystemExit 1)));
      try (vm_compute; reflexivity); try discriminate.
    left. vm_compute. reflexivity.
Defined.

(** X14. A file that is no container file ([.apex], [.capex]), whose
    target exists in the output tree, whose indirect injection no policy
    condition skips (lines 483-491), and for which neither the override
    table nor the matcher (with the path as it is and with the vendor name
    removed) yields an original, is injected directly all the same.
    [search_and_inject] returns both records: the not-found message in the
    place of the indirect-injection record (it is not an error message of
    the worker) and the record of the direct injection. *)
Theorem unmatched_file_is_injected_directly
        (E : Injector.Externals) (c : PostInjectorConfig) (a : Injector.RunArgs)
        (partition_name module_type file_path target file_path_vendor_replaced
         target_path : string) (fs fs1 fs2 : FS) :
  String.eqb (snd (PyStr.splitext (PyStr.basename file_path))) ".apex"
  || String.eqb (snd (PyStr.splitext (PyStr.basename file_path))) ".capex" = false ->
  Injector.ext_get_target_injection_path E file_path partition_name
    (Injector.target_out_path a) fs = (fs1, Ok target) ->
  path_exists fs1 target = true ->
  PyStr.str_in (snd (PyStr.splitext (PyStr.basename file_path)))
    (SKIPPED_FILE_EXTENSION_LIST_INDIRECT_INJECTION c) = false ->
  negb (PyStr.str_in (PyStr.basename file_path) (ALLOW_FILE_INJECT_ALWAYS c))
  && (ENABLE_SHARED_LIBRARIES_INJECTION_IF_NOT_EXISTS c
      && String.eqb (snd (PyStr.splitext (PyStr.basename file_path))) ".so") = false ->
  INDIRECT_INJECTION_FILE_MAPPING c !! PyStr.basename file_path = None ->
  Matcher.search_original_file_in_obj c fs1 partition_name module_type file_path
    (PyStr.basename file_path) (Injector.target_out_path a) "_intermediates" true
  = None ->
  Injector.ext_remove_vendor_name_from_path E file_path = Ok file_path_vendor_replaced ->
  Matcher.search_original_file_in_obj c fs1 partition_name module_type
    file_path_vendor_replaced (PyStr.basename file_path_vendor_replaced)
    (Injector.target_out_path a) "_intermediates" true = None ->
  Injector.ext_inject_file_into_partition E file_path target partition_name fs1
  = (fs2, Ok target_path) ->
  Injector.search_and_inject E c a partition_name module_type file_path fs
  = (fs2,
     Ok (Some ("Original file not found for indirect injection: " +:+ file_path
               +:+ " | " +:+ PyStr.basename file_path, None, module_type),
         Some (file_path, target_path, module_type))).
Proof.
  intros Hext Htarget Hexists Hskip Hshared Hmap Hsearch Hvendor Hsearch' Hinject.
  unfold Injector.search_and_inject. cbv zeta.
  unfold Effects.bind at 1. rewrite Htarget.
  unfold Effects.bind at 1, Effects.read at 1. rewrite Hext, Hexists. cbn [negb].
  unfold Effects.bind at 1.
  assert (Hind :
    Injector.indirect_injection E c a target (PyStr.basename file_path) partition_name
      module_type file_path None fs1
    = (fs1, Ok (Some ("Original file not found for indirect injection: " +:+ file_path
                      +:+ " | " +:+ PyStr.basename file_path, None, module_type),
                None, Some false))).
  { unfold Injector.indirect_injection. cbv zeta.
    rewrite Hskip, Hshared.
    unfold Effects.bind, Effects.read, Effects.lift.
    rewrite Hmap, Hsearch. cbn [option_map]. rewrite Hvendor, Hsearch'.
    reflexivity. }
  rewrite Hind.
  unfold Injector.direct_injection, Effects.bind. rewrite Hinject. reflexivity.
Qed.

(** The second run of the library scenario: the target exists, the object
    cache is empty. *)
Lemma unmatched_file_is_injected_directly_witness :
  Injector.search_and_inject Scenarios.tools empty_config Scenarios.args "system"
    "SHARED_LIBRARIES" Scenarios.libfoo_src Scenarios.fs_target_present
  = (<[Scenarios.libfoo_target := Scenarios.elf64]> Scenarios.fs_target_present,
     Ok (Some ("Original file not found for indirect injection: "
               +:+ Scenarios.libfoo_src +:+ " | "
               +:+ PyStr.basename Scenarios.libfoo_src, None, "SHARED_LIBRARIES"),
         Some (Scenarios.libfoo_src, Scenarios.libfoo_target, "SHARED_LIBRARIES"))).
Proof.
  apply (unmatched_file_is_injected_directly Scenarios.tools empty_config
           Scenarios.args "system" "SHARED_LIBRARIES" Scenarios.libfoo_src
           Scenarios.libfoo_target Scenarios.libfoo_src Scenarios.libfoo_target
           Scenarios.fs_target_present Scenarios.fs_target_present
           (<[Scenarios.libfoo_target := Scenarios.elf64]>
              Scenarios.fs_target_present));
    vm_compute; reflexivity.
Defined.

(** X15. The number that a run logs as the number of files processed (the
    lengths of the error list and of the two record lists added up) is at
    most twice the number of files of the partition: a file contributes an
    error message, or up to two records. A run with a list of already
    injected names returns such lists, or raises what is no [Exception]
    (the [SystemExit] of a task); without a list of names the function
    raises at its first log line, which takes the length of the list. *)
Theorem files_processed_is_at_most_twice_the_files
        (E : Injector.Externals) (c : PostInjectorConfig) (a : Injector.RunArgs)
        (folder_path : string) (fs : FS) :
  Injector.pre_injector_package_list a <> None ->
  match snd (Injector.process_partition_files E c a folder_path fs) with
  | Ok lists =>
      (Statistics.files_processed lists
       <= 2 * List.length (Injector.partition_file_paths fs folder_path))%nat
  | Raise e => is_exception e = false
  end.
Proof.
  intros Hlist. unfold Injector.process_partition_files.
  destruct (Injector.pre_injector_package_list a); [|contradiction].
  pose proof (WorkerSteps.run_tasks_files_processed E c a (PyStr.basename folder_path)
                (Injector.partition_file_paths fs folder_path) [] ([], [], []) fs)
    as H.
  destruct (Injector.run_tasks _ _ _ _ _ _ _ _) as [fs' [lists|e]];
    cbn [snd] in *; exact H.
Qed.

(** The second run of the library scenario counts the one library
    twice. *)
Lemma files_processed_is_at_most_twice_the_files_witness :
  snd (Injector.process_partition_files Scenarios.tools empty_config Scenarios.args
         "src/system" Scenarios.after_first_run)
  = Ok ([],
        [("Original file not found for indirect injection: "
          +:+ Scenarios.libfoo_src +:+ " | libfoo.so", None, "SHARED_LIBRARIES")],
        [(Scenarios.libfoo_src, Scenarios.libfoo_target, "SHARED_LIBRARIES")])
  /\ List.length (Injector.partition_file_paths Scenarios.after_first_run "src/system")
     = 1%nat
  /\ match snd (Injector.process_partition_files Scenarios.tools empty_config
                  Scenarios.args "src/system" Scenarios.after_first_run) with
     | Ok lists =>
         (Statistics.files_processed lists
          <= 2 * List.length (Injector.partition_file_paths Scenarios.after_first_run
                                "src/system"))%nat
     | Raise e => is_exception e = false
     end.
Proof.
  split; [vm_compute; reflexivity|]. split; [vm_compute; reflexivity|].
  apply (files_processed_is_at_most_twice_the_files Scenarios.tools empty_config
           Scenarios.args "src/system" Scenarios.after_first_run).
  discriminate.
Defined.

(** * Further properties of the container operations *)

Module ContainerFacts.
Import PyStr Effects Apex EffectFacts StringFacts.

Lemma backup_neq_file (file_path : string) : file_path +:+ ".original_apex" <> file_path.
Proof. intros H. symmetry in H. revert H. apply neq_suffixed. simpl. lia. Qed.

Lemma bind_step {A B} (m : M A) (k : A -> M B) (fs fs1 : FS) (a : A) :
  m fs = (fs1, Ok a) -> bind m k fs = k a fs1.
Proof. unfold bind. intros ->. reflexivity. Qed.

Lemma bind_raise {A B} (m : M A) (k : A -> M B) (fs fs1 : FS) (e : exn) :
  m fs = (fs1, Raise e) -> bind m k fs = (fs1, Raise e).
Proof. unfold bind. intros ->. reflexivity. Qed.

(** A [try] block whose handler returns raises nothing but what is no
    [Exception]. *)
Lemma try_except_returns {A} (m : M A) (h : exn -> A) (fs : FS) :
  exists fs',
    (exists a, try_except m (fun e => ret (h e)) fs = (fs', Ok a))
    \/ (exists e, try_except m (fun e => ret (h e)) fs = (fs', Raise e)
                  /\ is_exception e = false).
Proof.
  unfold try_except. destruct (m fs) as [fs' [a|e]].
  - exists fs'. left. eauto.
  - destruct (is_exception e) eqn:He; exists fs'; [left|right]; eauto.
Qed.

(** The backup step, case by case. *)
Lemma backup_original_apex_file_restores file_path (fs : FS) original current :
  fs !! (file_path +:+ ".original_apex") = Some original ->
  fs !! file_path = Some current ->
  backup_original_apex_file file_path fs
  = (let fs1 := <[file_path := original]> (delete file_path fs) in
     if path_exists fs1 (prepare_apex_out_file file_path)
     then delete (prepare_apex_out_file file_path) fs1 else fs1,
     Ok (prepare_apex_out_file file_path, file_path +:+ ".original_apex")).
Proof.
  intros Horg Hfile. pose proof (backup_neq_file file_path) as Hneq.
  unfold backup_original_apex_file, bind, read, restore_original_apex, remove,
    copyfile, path_exists, always_writable, ret.
  cbv zeta. rewrite Horg. unfold bind. rewrite Hfile.
  rewrite lookup_delete_ne by congruence. rewrite Horg.
  assert (Heqb : String.eqb (file_path +:+ ".original_apex") file_path = false)
    by (apply String.eqb_neq, Hneq).
  rewrite Heqb.
  destruct (<[file_path := original]> (delete file_path fs)
              !! prepare_apex_out_file file_path) eqn:E; rewrite ?E; reflexivity.
Qed.

Lemma backup_original_apex_file_creates file_path (fs : FS) current :
  fs !! (file_path +:+ ".original_apex") = None ->
  fs !! file_path = Some current ->
  backup_original_apex_file file_path fs
  = (let fs1 := <[file_path +:+ ".original_apex" := current]> fs in
     if path_exists fs1 (prepare_apex_out_file file_path)
     then delete (prepare_apex_out_file file_path) fs1 else fs1,
     Ok (prepare_apex_out_file file_path, file_path +:+ ".original_apex")).
Proof.
  intros Horg Hfile. pose proof (backup_neq_file file_path) as Hneq.
  unfold backup_original_apex_file, bind, read, remove, copyfile, path_exists,
    always_writable, ret.
  cbv zeta. rewrite Horg, Hfile.
  assert (Heqb : String.eqb file_path (file_path +:+ ".original_apex") = false)
    by (apply String.eqb_neq; congruence).
  rewrite Heqb.
  destruct (<[file_path +:+ ".original_apex" := current]> fs
              !! prepare_apex_out_file file_path) eqn:E; rewrite ?E; reflexivity.
Qed.

Lemma backup_original_apex_file_lost file_path (fs : FS) original :
  fs !! (file_path +:+ ".original_apex") = Some original ->
  fs !! file_path = None ->
  backup_original_apex_file file_path fs = (fs, Raise (OSError (open_error file_path))).
Proof.
  intros Horg Hfile.
  unfold backup_original_apex_file, bind, read, restore_original_apex, remove,
    path_exists.
  rewrite Horg. unfold bind. rewrite Hfile. reflexivity.
Qed.

(** A string without an occurrence of [old] is left as it is. *)
Lemma replace_from_absent old new s :
  contains old s = false -> replace_from old new 0 s = s.
Proof.
  induction s as [|a s IH]; [reflexivity|].
  cbn [contains replace_from]. intros H.
  apply orb_false_elim in H as [Hstart Hrest].
  rewrite Hstart, (IH Hrest). reflexivity.
Qed.

Lemma replace_absent old new s :
  old <> "" -> contains old s = false -> replace old new s = s.
Proof.
  intros Hold H. unfold replace. destruct old; [contradiction|].
  apply replace_from_absent, H.
Qed.

(** The replacement of the container by the output file: the container
    holds what the output file held, the output file is gone, and no
    other file has changed. *)
Lemma replace_org_apex_file_moves file_path apex_out_file (fs fs' : FS) :
  replace_org_apex_file file_path apex_out_file fs = (fs', Ok tt) ->
  exists content,
    fs !! apex_out_file = Some content
    /\ fs' !! file_path = Some content
    /\ fs' !! apex_out_file = None
    /\ forall path, path <> file_path -> path <> apex_out_file ->
                    fs' !! path = fs !! path.
Proof.
  unfold replace_org_apex_file, bind, remove, copyfile, always_writable.
  destruct (fs !! file_path) as [old|] eqn:Hfile; [|discriminate].
  destruct (delete file_path fs !! apex_out_file) as [new|] eqn:Hout; [|discriminate].
  destruct (String.eqb apex_out_file file_path) eqn:Heq; [discriminate|].
  apply String.eqb_neq in Heq.
  rewrite lookup_insert_ne by congruence. rewrite Hout.
  intros [= <-]. rewrite lookup_delete_ne in Hout by congruence.
  exists new. split; [exact Hout|]. split; [|split].
  - rewrite lookup_delete_ne, lookup_insert_eq by congruence. reflexivity.
  - apply lookup_delete_eq.
  - intros path H1 H2.
    rewrite lookup_delete_ne, lookup_insert_ne, lookup_delete_ne by congruence.
    reflexivity.
Qed.

Lemma sign_apex_file_verified T p key (fs fs' : FS) e :
  sign_apex_file T p key fs = (fs', Ok (true, e)) ->
  exists fs1 log verified,
    tool_sign_apex_container_signapk T p fs = (fs1, Ok (true, log))
    /\ tool_verify_apk_file T p fs1 = (fs', Ok verified).
Proof.
  unfold sign_apex_file. intros H. bind_inv H. destruct x as [[|] log].
  - bind_inv H. apply ret_ok in H as [-> _]. eauto.
  - apply ret_ok in H as [_ H]. discriminate H.
Qed.

Lemma create_and_sign_moved T manifest extract_dir root out canned path
      (fs fs' : FS) msg :
  create_and_sign_apex_repack_container T manifest extract_dir root out canned
    (Some path) fs = (fs', Ok (true, msg)) ->
  msg = "APEX signing success: " +:+ out
  /\ exists fs0 fs1 fs2 log verified content,
      tool_sign_apex_container_signapk T out fs0 = (fs1, Ok (true, log))
      /\ tool_verify_apk_file T out fs1 = (fs2, Ok verified)
      /\ fs2 !! out = Some content
      /\ fs' !! path = Some content
      /\ fs' !! out = None
      /\ forall other, other <> path -> other <> out -> fs' !! other = fs2 !! other.
Proof.
  unfold create_and_sign_apex_repack_container. intros H.
  bind_inv H. bind_inv H. destruct x0 as [[[|] log] key].
  - bind_inv H. destruct x0 as [[|] e].
    + bind_inv H. apply ret_ok in H as [-> [= <-]]. destruct x0.
      split; [reflexivity|].
      apply sign_apex_file_verified in Hm1 as (fs4 & log' & verified & Hs & Hv).
      apply replace_org_apex_file_moves in Hm2 as (content & H1 & H2 & H3 & H4).
      exists fs1, fs4, fs2, log', verified, content. auto 10.
    + apply ret_ok in H as [_ H]. discriminate H.
  - apply ret_ok in H as [_ H]. discriminate H.
Qed.

Lemma repackage_success_moved T apex_file_path (fs fs' : FS) msg :
  repackage_apex_file T apex_file_path fs = (fs', Ok (true, msg)) ->
  msg = "APEX signing success: " +:+ prepare_apex_out_file apex_file_path
  /\ exists fs0 fs1 fs2 log verified content,
      tool_sign_apex_container_signapk T (prepare_apex_out_file apex_file_path) fs0
      = (fs1, Ok (true, log))
      /\ tool_verify_apk_file T (prepare_apex_out_file apex_file_path) fs1
         = (fs2, Ok verified)
      /\ fs2 !! prepare_apex_out_file apex_file_path = Some content
      /\ fs' !! apex_file_path = Some content
      /\ fs' !! prepare_apex_out_file apex_file_path = None
      /\ forall other,
          other <> apex_file_path -> other <> prepare_apex_out_file apex_file_path ->
          fs' !! other = fs2 !! other.
Proof.
  unfold repackage_apex_file. intros H. bind_inv H. destruct x as [out org].
  apply ApexFacts.backup_original_apex_file_out in Hm. subst out.
  apply try_except_ok in H as [H|(fs1 & e & _ & _ & H)];
    [|apply ret_ok in H as [_ H]; discriminate H].
  bind_inv H. bind_inv H. bind_inv H. destruct x1 as [[|] log].
  - bind_inv H. bind_inv H. destruct x2 as [found manifest]. bind_inv H.
    destruct x2.
    + eapply create_and_sign_moved; eauto.
    + apply ret_ok in H as [_ H]. discriminate H.
  - apply ret_ok in H as [_ H]. discriminate H.
Qed.

End ContainerFacts.

(** X16. A repackaging reports success only when the signer reported
    success on the output container. The message then is the
    signing-success message, and the output file has been moved onto the
    container file: the container file holds what the output file held
    after the signing and its verification, the output file is gone, and
    the replacement has changed no other file. *)
Theorem repackage_success_means_signed_and_replaced
        (T : Apex.Tools) (apex_file_path : string) (fs fs' : FS) (message : string) :
  Apex.repackage_apex_file T apex_file_path fs = (fs', Ok (true, message)) ->
  message = "APEX signing success: " +:+ Apex.prepare_apex_out_file apex_file_path
  /\ exists (fs0 fs1 fs2 : FS) log verified content,
      Apex.tool_sign_apex_container_signapk T (Apex.prepare_apex_out_file apex_file_path)
        fs0 = (fs1, Ok (true, log))
      /\ Apex.tool_verify_apk_file T (Apex.prepare_apex_out_file apex_file_path) fs1
         = (fs2, Ok verified)
      /\ fs2 !! Apex.prepare_apex_out_file apex_file_path = Some content
      /\ fs' !! apex_file_path = Some content
      /\ fs' !! Apex.prepare_apex_out_file apex_file_path = None
      /\ forall other,
          other <> apex_file_path ->
          other <> Apex.prepare_apex_out_file apex_file_path ->
          fs' !! other = fs2 !! other.
Proof. apply ContainerFacts.repackage_success_moved. Qed.

(** Every stage works: the container file holds the signed output. *)
Lemma repackage_success_means_signed_and_replaced_witness :
  Apex.repackage_apex_file ContainerScenarios.tools_repack Scenarios.media_apex
    Scenarios.fs_media
  = (ContainerScenarios.fs_repacked,
     Ok (true, "APEX signing success: " +:+ Scenarios.media_out))
  /\ ContainerScenarios.fs_repacked !! Scenarios.media_apex
     = Some ContainerScenarios.signed_container
  /\ exists (fs2 : FS) content,
      fs2 !! Apex.prepare_apex_out_file Scenarios.media_apex = Some content
      /\ ContainerScenarios.fs_repacked !! Scenarios.media_apex = Some content
      /\ ContainerScenarios.fs_repacked !! Apex.prepare_apex_out_file Scenarios.media_apex
         = None.
Proof.
  assert (Hrun :
    Apex.repackage_apex_file ContainerScenarios.tools_repack Scenarios.media_apex
      Scenarios.fs_media
    = (ContainerScenarios.fs_repacked,
       Ok (true, "APEX signing success: " +:+ Scenarios.media_out)))
    by (vm_compute; reflexivity).
  split; [exact Hrun|]. split; [vm_compute; reflexivity|].
  destruct (repackage_success_means_signed_and_replaced _ _ _ _ _ Hrun)
    as (_ & fs0 & fs1 & fs2 & log & verified & content & _ & _ & H1 & H2 & H3 & _).
  exists fs2, content. auto.
Defined.

(** X17. The two container pipelines let nothing but what is no
    [Exception] pass their [try] block. The merge raises before it has
    touched a file when no rule set is loaded. With a rule set, when the
    backup step returns, the repackaging and the merge return a pair
    (success flag, message) or raise what is no [Exception] (the
    [SystemExit] of [load_apex_manifest_from_aosp] and
    [move_apex_manifest_file], which call [exit]); when the backup step
    raises, they raise the same exception and leave the file system as the
    backup step left it. *)
Theorem container_pipelines_catch_exceptions_only
        (T : Apex.Tools) (cfg : Apex.ApexConfig) (file_path target_out_path : string)
        (fs : FS) :
  Apex.handle_apex_modules T None file_path target_out_path fs
  = (fs, Raise (PyException "No POST_INJECTOR_CONFIG found"))
  /\ match Apex.backup_original_apex_file file_path fs with
     | (fs1, Ok _) =>
         (exists fs',
            (exists outcome, Apex.repackage_apex_file T file_path fs = (fs', Ok outcome))
            \/ (exists e, Apex.repackage_apex_file T file_path fs = (fs', Raise e)
                          /\ is_exception e = false))
         /\ (exists fs',
               (exists outcome,
                  Apex.handle_apex_modules T (Some cfg) file_path target_out_path fs
                  = (fs', Ok outcome))
               \/ (exists e,
                     Apex.handle_apex_modules T (Some cfg) file_path target_out_path fs
                     = (fs', Raise e)
                     /\ is_exception e = false))
     | (fs1, Raise e) =>
         Apex.repackage_apex_file T file_path fs = (fs1, Raise e)
         /\ Apex.handle_apex_modules T (Some cfg) file_path target_out_path fs
            = (fs1, Raise e)
     end.
Proof.
  split; [reflexivity|].
  unfold Apex.repackage_apex_file, Apex.handle_apex_modules.
  destruct (Apex.backup_original_apex_file file_path fs) as [fs1 [[out org]|e]] eqn:Hb.
  - rewrite !(ContainerFacts.bind_step _ _ _ _ _ Hb).
    split; apply ContainerFacts.try_except_returns.
  - rewrite !(ContainerFacts.bind_raise _ _ _ _ _ Hb). split; reflexivity.
Qed.

(** The calls of [exit] pass the handlers: a repackaging whose manifest is
    gone when [move_apex_manifest_file] looks again, and a merge for which
    [load_apex_manifest_from_aosp] finds no manifest, raise [SystemExit];
    the backup copy of the container file is what they leave. *)
Example container_pipelines_exit :
  Apex.repackage_apex_file ContainerScenarios.tools_exit Scenarios.media_apex
    Scenarios.fs_media
  = (<[Scenarios.media_apex +:+ ".original_apex" := Scenarios.vendor_container]>
       Scenarios.fs_media,
     Raise (SystemExit 1))
  /\ Apex.handle_apex_modules ContainerScenarios.tools_exit (Some Scenarios.merge_config)
       Scenarios.media_apex "out/" Scenarios.fs_media
     = (<[Scenarios.media_apex +:+ ".original_apex" := Scenarios.vendor_container]>
          Scenarios.fs_media,
        Raise (SystemExit (-1))).
Proof. split; vm_compute; reflexivity. Qed.

(** X18. Every attempt on a container file starts from the original: when
    the backup step returns, the container file and the backup copy both
    hold the content of the backup copy if there was one, and the content
    of the container file otherwise; no output file of an earlier attempt
    is left, and no other file has changed. (The output path differs from
    the two other paths when the file name holds [.apex].) *)
Theorem backup_starts_from_the_original
        (file_path : string) (fs : FS) (current : list Byte.byte) :
  fs !! file_path = Some current ->
  Apex.prepare_apex_out_file file_path <> file_path ->
  Apex.prepare_apex_out_file file_path <> file_path +:+ ".original_apex" ->
  exists fs',
    Apex.backup_original_apex_file file_path fs
    = (fs', Ok (Apex.prepare_apex_out_file file_path, file_path +:+ ".original_apex"))
    /\ fs' !! file_path
       = Some (default current (fs !! (file_path +:+ ".original_apex")))
    /\ fs' !! (file_path +:+ ".original_apex")
       = Some (default current (fs !! (file_path +:+ ".original_apex")))
    /\ fs' !! Apex.prepare_apex_out_file file_path = None
    /\ forall path,
        path <> file_path -> path <> file_path +:+ ".original_apex" ->
        path <> Apex.prepare_apex_out_file file_path ->
        fs' !! path = fs !! path.
Proof.
  intros Hfile Hout Hout'. pose proof (ContainerFacts.backup_neq_file file_path) as Hneq.
  destruct (fs !! (file_path +:+ ".original_apex")) as [original|] eqn:Horg.
  - rewrite (ContainerFacts.backup_original_apex_file_restores _ _ _ _ Horg Hfile).
    cbv zeta. cbn [default]. eexists. split; [reflexivity|].
    unfold path_exists.
    destruct (<[file_path := original]> (delete file_path fs)
                !! Apex.prepare_apex_out_file file_path) eqn:E.
    + rewrite lookup_delete_eq, !lookup_delete_ne by congruence.
      rewrite lookup_insert_eq, lookup_insert_ne, lookup_delete_ne by congruence.
      repeat split; try assumption; try reflexivity.
      intros path H1 H2 H3.
      rewrite lookup_delete_ne, lookup_insert_ne, lookup_delete_ne by congruence.
      reflexivity.
    + rewrite E, lookup_insert_eq, lookup_insert_ne, lookup_delete_ne by congruence.
      repeat split; try assumption; try reflexivity.
      intros path H1 H2 H3.
      rewrite lookup_insert_ne, lookup_delete_ne by congruence. reflexivity.
  - rewrite (ContainerFacts.backup_original_apex_file_creates _ _ _ Horg Hfile).
    cbv zeta. cbn [default]. eexists. split; [reflexivity|].
    unfold path_exists.
    destruct (<[file_path +:+ ".original_apex" := current]> fs
                !! Apex.prepare_apex_out_file file_path) eqn:E.
    + rewrite lookup_delete_eq, !lookup_delete_ne by congruence.
      rewrite lookup_insert_eq, lookup_insert_ne by congruence.
      repeat split; try assumption; try reflexivity.
      intros path H1 H2 H3.
      rewrite lookup_delete_ne, lookup_insert_ne by congruence. reflexivity.
    + rewrite E, lookup_insert_eq, lookup_insert_ne by congruence.
      repeat split; try assumption; try reflexivity.
      intros path H1 H2 H3. rewrite lookup_insert_ne by congruence. reflexivity.
Qed.

(** After an earlier attempt the container file is restored from the
    backup copy and the output file of that attempt is removed. *)
Lemma backup_starts_from_the_original_witness :
  exists fs',
    Apex.backup_original_apex_file Scenarios.media_apex
      ContainerScenarios.fs_after_attempt
    = (fs', Ok (Apex.prepare_apex_out_file Scenarios.media_apex,
                Scenarios.media_apex +:+ ".original_apex"))
    /\ fs' !! Scenarios.media_apex = Some Scenarios.vendor_container
    /\ fs' !! Scenarios.media_out = None.
Proof.
  destruct (backup_starts_from_the_original Scenarios.media_apex
              ContainerScenarios.fs_after_attempt Scenarios.unsigned_container)
    as (fs' & Hrun & Hfile & _ & Hout & _);
    [reflexivity|vm_compute; discriminate|vm_compute; discriminate|].
  exists fs'. split; [exact Hrun|]. split; [exact Hfile|exact Hout].
Defined.

(** X19. A container file that is missing while its backup copy exists is
    not restored: the backup step tries to remove the missing file first
    and raises, both pipelines raise with it, and the file system stays as
    it is. *)
Theorem lost_container_is_not_restored
        (T : Apex.Tools) (cfg : Apex.ApexConfig) (file_path target_out_path : string)
        (fs : FS) (original : list Byte.byte) :
  fs !! (file_path +:+ ".original_apex") = Some original ->
  fs !! file_path = None ->
  Apex.backup_original_apex_file file_path fs
  = (fs, Raise (OSError (Effects.open_error file_path)))
  /\ Apex.repackage_apex_file T file_path fs
     = (fs, Raise (OSError (Effects.open_error file_path)))
  /\ Apex.handle_apex_modules T (Some cfg) file_path target_out_path fs
     = (fs, Raise (OSError (Effects.open_error file_path))).
Proof.
  intros Horg Hfile.
  pose proof (ContainerFacts.backup_original_apex_file_lost _ _ _ Horg Hfile) as Hb.
  split; [exact Hb|].
  unfold Apex.repackage_apex_file, Apex.handle_apex_modules.
  rewrite !(ContainerFacts.bind_raise _ _ _ _ _ Hb). split; reflexivity.
Qed.

(** Only the backup copy of the container file is left. *)
Lemma lost_container_is_not_restored_witness :
  Apex.backup_original_apex_file Scenarios.media_apex
    ContainerScenarios.fs_container_lost
  = (ContainerScenarios.fs_container_lost,
     Raise (OSError (Effects.open_error Scenarios.media_apex)))
  /\ Apex.repackage_apex_file ContainerScenarios.tools_repack Scenarios.media_apex
       ContainerScenarios.fs_container_lost
     = (ContainerScenarios.fs_container_lost,
        Raise (OSError (Effects.open_error Scenarios.media_apex)))
  /\ Apex.handle_apex_modules ContainerScenarios.tools_repack
       (Some Scenarios.merge_config) Scenarios.media_apex "out/"
       ContainerScenarios.fs_container_lost
     = (ContainerScenarios.fs_container_lost,
        Raise (OSError (Effects.open_error Scenarios.media_apex))).
Proof.
  apply (lost_container_is_not_restored ContainerScenarios.tools_repack
           Scenarios.merge_config Scenarios.media_apex "out/"
           ContainerScenarios.fs_container_lost Scenarios.vendor_container);
    reflexivity.
Defined.

(** X20. For a path whose file name does not hold [.apex] (a [.capex]
    file, say) the output path of the backup step is the path itself: the
    step copies the file to the backup copy and then removes the file as
    if it were the output of an earlier attempt. *)
Theorem container_without_apex_in_its_name_is_removed
        (file_path : string) (fs : FS) (current : list Byte.byte) :
  PyStr.contains ".apex" (PyStr.basename file_path) = false ->
  PyStr.path_join (PyStr.dirname file_path) (PyStr.basename file_path) = file_path ->
  fs !! file_path = Some current ->
  fs !! (file_path +:+ ".original_apex") = None ->
  Apex.backup_original_apex_file file_path fs
  = (delete file_path (<[file_path +:+ ".original_apex" := current]> fs),
     Ok (file_path, file_path +:+ ".original_apex")).
Proof.
  intros Hname Hjoin Hfile Horg.
  rewrite (ContainerFacts.backup_original_apex_file_creates _ _ _ Horg Hfile).
  assert (Hout : Apex.prepare_apex_out_file file_path = file_path).
  { unfold Apex.prepare_apex_out_file. cbv zeta.
    rewrite ContainerFacts.replace_absent by (discriminate || exact Hname).
    exact Hjoin. }
  rewrite Hout. cbv zeta. unfold path_exists.
  rewrite lookup_insert_ne by apply ContainerFacts.backup_neq_file.
  rewrite Hfile. reflexivity.
Qed.

(** The compressed container file is gone after the backup step. *)
Lemma container_without_apex_in_its_name_is_removed_witness :
  Apex.backup_original_apex_file ContainerScenarios.media_capex
    ContainerScenarios.fs_capex
  = (delete ContainerScenarios.media_capex
       (<[ContainerScenarios.media_capex +:+ ".original_apex"
          := Scenarios.vendor_container]> ContainerScenarios.fs_capex),
     Ok (ContainerScenarios.media_capex,
         ContainerScenarios.media_capex +:+ ".original_apex")).
Proof.
  apply (container_without_apex_in_its_name_is_removed ContainerScenarios.media_capex
           ContainerScenarios.fs_capex Scenarios.vendor_container);
    reflexivity.
Defined.

(** * Properties of the target path *)

Module PathTests.
Import Paths.

Example split_sep_path : split_sep "a//b/" = ["a"; ""; "b"; ""].
Proof. reflexivity. Qed.

Example normpath_dots : normpath "out/system/./lib64/../lib//libfoo.so"
                        = "out/system/lib/libfoo.so".
Proof. reflexivity. Qed.

Example normpath_two_slashes : normpath "//a/../../b/" = "//b".
Proof. reflexivity. Qed.

Example normpath_relative_parent : normpath "../a/.." = "..".
Proof. reflexivity. Qed.

Example normpath_three_slashes : normpath "///a" = "/a".
Proof. reflexivity. Qed.

Example normpath_above_root : normpath "/.." = "/".
Proof. reflexivity. Qed.

Example normpath_nothing_left : normpath "a/.." = ".".
Proof. reflexivity. Qed.

Example get_subfolders_library :
  get_subfolders Scenarios.libfoo_src "system" = Ok ["lib64"].
Proof. reflexivity. Qed.

(** The target of the library scenarios. *)
Example get_target_injection_path_library :
  get_target_injection_path plain_directories no_isolated_namespace
    Scenarios.libfoo_src "system" "out/" Scenarios.fs_fresh
  = (Scenarios.fs_fresh, Ok Scenarios.libfoo_target).
Proof. vm_compute. reflexivity. Qed.

Example get_target_injection_path_nested_partition :
  fst (snd (get_target_injection_path plain_directories no_isolated_namespace
              "src/system/vendor/lib/libbar.so" "system" "/aosp/out/" ∅),
       tt)
  = Ok "/aosp/out/vendor/lib/libbar.so".
Proof. vm_compute. reflexivity. Qed.

End PathTests.

Module PathFacts.
Import PyStr Effects Paths StringFacts SubstringFacts.

Lemma index_of_absent x l : ~ In x l -> index_of x l = None.
Proof.
  induction l as [|y l IH]; [reflexivity|].
  intros H. cbn [index_of].
  destruct (String.eqb y x) eqn:E.
  - apply String.eqb_eq in E. exfalso. apply H. left. exact E.
  - rewrite IH; [reflexivity|]. intros Hin. apply H. right. exact Hin.
Qed.

Lemma index_of_lookup x l i : index_of x l = Some i -> l !! i = Some x.
Proof.
  revert i. induction l as [|y l IH]; intros i; [discriminate|].
  cbn [index_of]. destruct (String.eqb y x) eqn:E.
  - intros [= <-]. apply String.eqb_eq in E. subst y. reflexivity.
  - destruct (index_of x l) as [j|]; [|discriminate].
    intros [= <-]. cbn. apply IH. reflexivity.
Qed.

Lemma split_sep_cons s : exists part parts, split_sep s = part :: parts.
Proof.
  induction s as [|c s (part & parts & IH)]; [eexists; eexists; reflexivity|].
  cbn [split_sep]. rewrite IH. destruct (Ascii.eqb c "/"); eexists; eexists; reflexivity.
Qed.

Lemma join_sep_cons part next parts :
  join_sep (part :: next :: parts) = part +:+ "/" +:+ join_sep (next :: parts).
Proof. reflexivity. Qed.

Lemma join_sep_first c part parts :
  join_sep (String c part :: parts) = String c (join_sep (part :: parts)).
Proof. destruct parts; reflexivity. Qed.

Lemma join_split_sep s : join_sep (split_sep s) = s.
Proof.
  induction s as [|c s IH]; [reflexivity|].
  cbn [split_sep]. destruct (split_sep_cons s) as (part & parts & Hs).
  rewrite Hs in *. destruct (Ascii.eqb c "/") eqn:E.
  - apply Ascii.eqb_eq in E. subst c. rewrite join_sep_cons, IH. reflexivity.
  - rewrite join_sep_first, IH. reflexivity.
Qed.

(** The components up to an index, joined, are a prefix of the path
    with a slash at its end. *)
Lemma join_sep_take l :
  forall i, (i < List.length l)%nat ->
  exists rest, join_sep l +:+ "/" = (join_sep (take (S i) l) +:+ "/") +:+ rest.
Proof.
  induction l as [|x l IH]; intros i Hi; [cbn in Hi; lia|].
  destruct l as [|y l].
  - exists "". destruct i; cbn [take join_sep];
      rewrite append_assoc; reflexivity.
  - destruct i as [|j].
    + exists (join_sep (y :: l) +:+ "/").
      cbn [take]. rewrite join_sep_cons. cbn [join_sep].
      rewrite !append_assoc. reflexivity.
    + destruct (IH j ltac:(cbn in *; lia)) as [rest Hrest].
      exists rest.
      change (take (S (S j)) (x :: y :: l)) with (x :: take (S j) (y :: l)).
      change (take (S j) (y :: l)) with (y :: take j l) in *.
      rewrite !join_sep_cons, !append_assoc.
      rewrite !append_assoc in Hrest. rewrite Hrest. reflexivity.
Qed.

Lemma join_sep_ends l :
  forall i x, l !! i = Some x ->
  exists pre, join_sep (take (S i) l) = pre +:+ x.
Proof.
  induction l as [|y l IH]; intros i x Hx; [discriminate|].
  destruct i as [|j].
  - cbn in Hx. injection Hx as ->. exists "". reflexivity.
  - cbn in Hx. destruct (IH j x Hx) as [pre Hpre].
    destruct l as [|z l]; [discriminate|].
    change (take (S (S j)) (y :: z :: l)) with (y :: take (S j) (z :: l)).
    change (take (S j) (z :: l)) with (z :: take j l) in *.
    rewrite join_sep_cons, Hpre.
    exists (y +:+ "/" +:+ pre). rewrite !append_assoc. reflexivity.
Qed.

Lemma lookup_length (l : list string) i x : l !! i = Some x -> (i < List.length l)%nat.
Proof. intros H. apply lookup_lt_is_Some. eauto. Qed.

End PathFacts.

(** X21. When the name of the partition (with [system] for [super])
    occurs in the path of the source but is none of its components, and
    the first component is not the name either, the search for the
    subfolders raises [ValueError], and so does the computation of the
    target path, before it looks at the output tree. *)
Theorem partition_name_inside_a_component_raises
        (D : Paths.Directories) (cfg : Paths.NamespaceConfig)
        (source_file_path partition_name target_out_path : string) (fs : FS) :
  PyStr.contains (Paths.effective_partition_name partition_name) source_file_path
  = true ->
  Paths.is_top_folder source_file_path (Paths.effective_partition_name partition_name)
  = false ->
  ~ In (PyStr.replace "/" "" (Paths.effective_partition_name partition_name))
       (Paths.split_sep source_file_path) ->
  Paths.get_subfolders source_file_path (Paths.effective_partition_name partition_name)
  = Raise (ValueError ("'" +:+ PyStr.replace "/" ""
                                 (Paths.effective_partition_name partition_name)
                       +:+ "' is not in list"))
  /\ Paths.get_target_injection_path D cfg source_file_path partition_name
       target_out_path fs
     = (fs, Raise (ValueError ("'" +:+ PyStr.replace "/" ""
                                         (Paths.effective_partition_name partition_name)
                               +:+ "' is not in list"))).
Proof.
  intros Hin Htop Hcomp.
  assert (Hsub :
    Paths.get_subfolders source_file_path (Paths.effective_partition_name partition_name)
    = Raise (ValueError ("'" +:+ PyStr.replace "/" ""
                                   (Paths.effective_partition_name partition_name)
                         +:+ "' is not in list"))).
  { unfold Paths.get_subfolders. rewrite Hin, Htop. cbn [negb andb].
    cbv zeta. rewrite (PathFacts.index_of_absent _ _ Hcomp). reflexivity. }
  split; [exact Hsub|].
  unfold Paths.get_target_injection_path. cbv zeta.
  unfold Effects.bind at 1, Effects.lift. rewrite Hsub. reflexivity.
Qed.

(** An app below [system_ext] of the partition [super]. *)
Lemma partition_name_inside_a_component_raises_witness :
  Paths.get_subfolders Paths.super_app (Paths.effective_partition_name "super")
  = Raise (ValueError "'system' is not in list")
  /\ Paths.get_target_injection_path Paths.plain_directories
       Paths.no_isolated_namespace Paths.super_app "super" "out/" Paths.fs_super
     = (Paths.fs_super, Raise (ValueError "'system' is not in list")).
Proof.
  apply (partition_name_inside_a_component_raises Paths.plain_directories
           Paths.no_isolated_namespace Paths.super_app "super" "out/" Paths.fs_super).
  - reflexivity.
  - reflexivity.
  - vm_compute. intros [H|[H|[H|[H|[H|[]]]]]]; discriminate H.
Defined.

(** X22. A source whose path does not hold the name of the partition
    (with [system] for [super]) lands in the root of the partition of the
    output tree, whatever directories lie between the partition and the
    file in the source tree: when the root exists, the target path is the
    normalized join of the root and the file name. *)
Theorem file_outside_its_partition_lands_in_the_root
        (D : Paths.Directories) (cfg : Paths.NamespaceConfig)
        (source_file_path partition_name target_out_path : string) (fs : FS) :
  PyStr.contains (Paths.effective_partition_name partition_name) source_file_path
  = false ->
  Paths.dir_exists D (Paths.target_partition_path partition_name target_out_path) fs
  = true ->
  Paths.get_target_injection_path D cfg source_file_path partition_name
    target_out_path fs
  = (fs, Ok (Paths.normpath
               (PyStr.path_join
                  (Paths.target_partition_path partition_name target_out_path)
                  (PyStr.basename source_file_path)))).
Proof.
  intros Hin Hdir.
  unfold Paths.get_target_injection_path, Paths.get_subfolders. cbv zeta.
  rewrite Hin. cbn [andb].
  unfold Effects.bind, Effects.lift, Effects.read, Effects.ret. cbn [List.length Nat.eqb].
  rewrite Hdir. reflexivity.
Qed.

(** A library below [vendor/lib64] of the partition [super]. *)
Lemma file_outside_its_partition_lands_in_the_root_witness :
  Paths.get_target_injection_path Paths.plain_directories Paths.no_isolated_namespace
    Paths.super_library "super" "out/" Paths.fs_super
  = (Paths.fs_super, Ok "out/system/libbaz.so").
Proof.
  apply (file_outside_its_partition_lands_in_the_root Paths.plain_directories
           Paths.no_isolated_namespace Paths.super_library "super" "out/"
           Paths.fs_super); vm_compute; reflexivity.
Defined.

(** X23. [get_path_up_to_first_term] returns a path exactly when the term
    is a component of the path; the path it returns ends with the term and
    a slash, and the path it was given, with a slash at its end, starts
    with it. *)
Theorem path_up_to_first_term_is_a_prefix (path term : string) :
  match Paths.get_path_up_to_first_term path term with
  | Some root =>
      In term (Paths.split_sep path)
      /\ PyStr.endswith (term +:+ "/") root = true
      /\ PyStr.startswith root (path +:+ "/") = true
  | None => ~ In term (Paths.split_sep path)
  end.
Proof.
  unfold Paths.get_path_up_to_first_term. cbv zeta.
  destruct (Paths.index_of term (Paths.split_sep path)) as [i|] eqn:Hi.
  - apply PathFacts.index_of_lookup in Hi.
    split; [apply list_elem_of_In; eapply list_elem_of_lookup_2, Hi|].
    replace (i + 1)%nat with (S i) by lia. split.
    + destruct (PathFacts.join_sep_ends _ _ _ Hi) as [pre ->].
      rewrite SubstringFacts.append_assoc. apply StringFacts.endswith_append.
    + destruct (PathFacts.join_sep_take (Paths.split_sep path) i
                  (PathFacts.lookup_length _ _ _ Hi)) as [rest Hrest].
      rewrite PathFacts.join_split_sep in Hrest. rewrite Hrest.
      apply SubstringFacts.startswith_refl.
  - intros Hin. apply list_elem_of_In, list_elem_of_lookup in Hin as [i Hin].
    revert Hi. generalize (Paths.split_sep path) i Hin. clear.
    intros l. induction l as [|y l IH]; intros i Hl; [discriminate|].
    cbn [Paths.index_of]. destruct (String.eqb y term) eqn:E; [discriminate|].
    destruct i as [|j].
    + cbn in Hl. injection Hl as ->. rewrite String.eqb_refl in E. discriminate.
    + cbn in Hl. specialize (IH j Hl).
      destruct (Paths.index_of term l); [discriminate|]. intros _. apply IH. reflexivity.
Qed.

(** * Properties of the direct injection *)

Module DirectTests.
Import Direct.

(** The direct injection of the library scenarios does what the
    collaborator of those scenarios does. *)
Example inject_file_into_partition_library :
  inject_file_into_partition Scenarios.tools Paths.plain_directories (fun _ => true)
    empty_config no_overwrite Scenarios.libfoo_src Scenarios.libfoo_target "/aosp/"
    "system" "sdk_phone_arm64-userdebug" Scenarios.fs_fresh
  = Injector.ext_inject_file_into_partition Scenarios.tools Scenarios.libfoo_src
      Scenarios.libfoo_target "system" Scenarios.fs_fresh.
Proof. vm_compute. reflexivity. Qed.

End DirectTests.

(** X24. The direct injection of a file that is not on the
    isolated-namespace list returns the target path whether or not
    anything was copied, when creating the directory and changing the mode
    work: the target holds the content of the source if the source exists
    and the copy goes through; if the source is missing, is the target
    itself, or the target cannot be written, the file system is left as it
    is, and the target path is returned all the same. *)
Theorem direct_injection_reports_the_target_regardless
        (E : Injector.Externals) (D : Paths.Directories) (chmod_ok : string -> bool)
        (c : PostInjectorConfig) (dc : Direct.DirectConfig)
        (source_file_path target_file_injection_path aosp_path partition_name
         lunch_target : string) (fs : FS) :
  PyStr.str_in (PyStr.basename target_file_injection_path)
               (APEX_BINARY_ISOLATED_NAMESPACE_LIST c)
  || PyStr.str_in (Direct.effective_source dc source_file_path)
                  (APEX_BINARY_ISOLATED_NAMESPACE_LIST c) = false ->
  Paths.makedirs D
    (PyStr.dirname (Direct.effective_target dc aosp_path lunch_target
                      target_file_injection_path)) fs = (fs, Ok tt) ->
  chmod_ok (Direct.effective_target dc aosp_path lunch_target target_file_injection_path)
  = true ->
  Direct.inject_file_into_partition E D chmod_ok c dc source_file_path
    target_file_injection_path aosp_path partition_name lunch_target fs
  = (Direct.injected E (Direct.effective_source dc source_file_path)
       (Direct.effective_target dc aosp_path lunch_target target_file_injection_path)
       fs,
     Ok (Direct.effective_target dc aosp_path lunch_target target_file_injection_path)).
Proof.
  intros Hiso Hmk Hchmod.
  unfold Direct.inject_file_into_partition. cbv zeta. rewrite Hiso.
  set (source := Direct.effective_source dc source_file_path) in *.
  set (target := Direct.effective_target dc aosp_path lunch_target
                   target_file_injection_path) in *.
  assert (Hperm : forall fs', Direct.set_executable_permission chmod_ok target fs' = true).
  { intros fs'. unfold Direct.set_executable_permission. rewrite Hchmod.
    destruct (_ && _); reflexivity. }
  unfold Direct.injected, Effects.bind, Effects.read, Effects.try_except,
    Effects.compute_file_hash, Effects.copyfile, Effects.ret, Effects.raise,
    path_exists.
  destruct (fs !! target) as [old|] eqn:Htarget;
    destruct (fs !! source) as [content|] eqn:Hsource;
    repeat (cbv beta iota zeta delta [is_exception];
            first [rewrite Hsource | rewrite Htarget | rewrite Hmk | rewrite Hperm]);
    cbv beta iota zeta delta [is_exception]; cbn [negb];
    try reflexivity;
    destruct (String.eqb source target);
    repeat (cbv beta iota zeta delta [is_exception];
            first [rewrite Hsource | rewrite Htarget | rewrite Hmk | rewrite Hperm]);
    try reflexivity;
    destruct (Injector.ext_can_write E target);
    repeat (cbv beta iota zeta delta [is_exception];
            first [rewrite Hsource | rewrite Htarget | rewrite Hmk | rewrite Hperm]);
    reflexivity.
Qed.

(** The source of the direct injection is missing: nothing is copied, and
    the target path is returned. *)
Lemma direct_injection_reports_the_target_regardless_witness :
  Direct.inject_file_into_partition Scenarios.tools Paths.plain_directories
    (fun _ => true) empty_config Direct.no_overwrite "src/system/lib64/libgone.so"
    "out/system/lib64/libgone.so" "/aosp/" "system" "sdk_phone_arm64-userdebug"
    Scenarios.fs_fresh
  = (Scenarios.fs_fresh, Ok "out/system/lib64/libgone.so").
Proof.
  apply (direct_injection_reports_the_target_regardless Scenarios.tools
           Paths.plain_directories (fun _ => true) empty_config Direct.no_overwrite
           "src/system/lib64/libgone.so" "out/system/lib64/libgone.so" "/aosp/"
           "system" "sdk_phone_arm64-userdebug" Scenarios.fs_fresh);
    reflexivity.
Defined.

(** * Properties of the signing of an app *)

Module SigningFacts.
Import PyStr Effects Signing EffectFacts.

Lemma sign_apk_file_success T apk key (fs fs' : FS) log :
  sign_apk_file T apk key fs = (fs', Ok (true, log)) ->
  path_exists fs apk = true /\ path_exists fs key = true
  /\ execute_command T (sign_command apk key) fs = (fs', (true, log)).
Proof.
  unfold sign_apk_file, bind, read, ret.
  destruct (path_exists fs apk); cbn [negb]; [|discriminate].
  destruct (path_exists fs key); cbn [negb]; [|discriminate].
  destruct (execute_command T _ fs) as [fs1 outcome].
  intros [= -> ->]. auto.
Qed.

End SigningFacts.

(** X25. [handle_apk_signing] reports success only when the key name is
    not empty, the key file and the app exist, and the run of [apksigner]
    on the app with that key reported success; the report then carries no
    error message. When it reports failure, the report carries one. *)
Theorem apk_signing_succeeds_only_with_key_and_signer
        (T : Signing.SigningTools) (file_path aosp_path : string) (fs fs' : FS)
        (is_success : bool) (error_message : option string)
        (reported_path signing_key signing_key_path : string) :
  Signing.handle_apk_signing T file_path aosp_path fs
  = (fs', Ok (is_success, (error_message, reported_path, signing_key,
                           signing_key_path))) ->
  signing_key_path = Signing.get_signing_key_path aosp_path signing_key
  /\ if is_success
     then error_message = None
          /\ signing_key <> ""
          /\ exists fs1 log,
              Signing.get_signing_key_from_module T file_path fs
              = (fs1, Ok signing_key)
              /\ path_exists fs1 signing_key_path = true
              /\ path_exists fs1 file_path = true
              /\ Signing.execute_command T
                   (Signing.sign_command file_path signing_key_path) fs1
                 = (fs', (true, log))
     else error_message <> None.
Proof.
  unfold Signing.handle_apk_signing. intros H.
  EffectFacts.bind_inv H. rename x into key. cbv zeta in H.
  EffectFacts.bind_inv H. apply EffectFacts.read_ok in Hm0 as [-> ->].
  destruct (path_exists fs0 (Signing.get_signing_key_path aosp_path key)) eqn:Hkey;
    cbn [negb] in H.
  - destruct (String.eqb key "") eqn:Hname; cbn [Injector.truthy negb] in H.
    + change (negb (negb (String.eqb _ ""))) with false in H.
      apply EffectFacts.ret_ok in H as [_ Heq].
      injection Heq as ? ? ? ? ?. subst.
      split; [reflexivity|discriminate].
    + EffectFacts.bind_inv H. destruct x as [ok log].
      apply EffectFacts.ret_ok in H as [-> Heq].
      injection Heq as ? ? ? ? ?. subst.
      split; [reflexivity|].
      destruct ok; cbn [negb]; [|discriminate].
      apply SigningFacts.sign_apk_file_success in Hm0 as (Hapk & _ & Hrun).
      split; [reflexivity|]. split; [apply String.eqb_neq, Hname|].
      exists fs0, log. auto.
  - change (negb (Injector.truthy (Some _))) with false in H.
    apply EffectFacts.ret_ok in H as [_ Heq].
    injection Heq as ? ? ? ? ?. subst.
    split; [reflexivity|discriminate].
Qed.

(** The app is signed with the platform key. *)
Lemma apk_signing_succeeds_only_with_key_and_signer_witness :
  Signing.handle_apk_signing Signing.tools_platform InjectionScenarios.app_src "/aosp/"
    Signing.fs_app_and_key
  = (Signing.fs_app_and_key,
     Ok (true, (None, InjectionScenarios.app_src, "platform", Signing.platform_key)))
  /\ path_exists Signing.fs_app_and_key Signing.platform_key = true.
Proof.
  assert (Hrun :
    Signing.handle_apk_signing Signing.tools_platform InjectionScenarios.app_src
      "/aosp/" Signing.fs_app_and_key
    = (Signing.fs_app_and_key,
       Ok (true, (None, InjectionScenarios.app_src, "platform", Signing.platform_key))))
    by (vm_compute; reflexivity).
  split; [exact Hrun|].
  destruct (apk_signing_succeeds_only_with_key_and_signer _ _ _ _ _ _ _ _ _ _ Hrun)
    as (_ & _ & _ & fs1 & log & Hkey & Hexists & _).
  injection Hkey as <-. exact Hexists.
Defined.

(** * Properties of the search for the emulator folder *)

Module EmulatorTests.
Import Emulator.

Example media_folder :
  get_match_existing_emulator_folders two_folders "com.android.media" 
  = Some "com.android.media".
Proof. reflexivity. Qed.

Example swcodec_is_not_media :
  get_match_existing_emulator_folders two_folders "com.android.media.swcodec" = None.
Proof. reflexivity. Qed.

End EmulatorTests.

(** X26. A container file whose name (without vendor words and
    extension) holds no key of the table of emulator folders makes the
    search for the emulator folder raise [TypeError] with the text of
    [os.path.join] (the folder name [None] is joined to the root); the
    merge catches it and reports failure with the text of the exception,
    and the file system is left as the backup step left it. *)
Theorem unmapped_container_fails_the_merge
        (T : Apex.Tools) (remove_vendor_name_from_filename : string -> result string)
        (paths : list (string * string)) (cfg : Apex.ApexConfig)
        (file_path target_out_path filename_no_vendor : string) (fs fs1 : FS)
        (backup : string * string) :
  Apex.backup_original_apex_file file_path fs = (fs1, Ok backup) ->
  remove_vendor_name_from_filename (PyStr.basename file_path) = Ok filename_no_vendor ->
  Apex.tool_dir_exists T (PyStr.path_join target_out_path "apex") fs1 = true ->
  Emulator.get_match_existing_emulator_folders paths
    (PyStr.replace ".capex" "" (PyStr.replace ".apex" "" filename_no_vendor)) = None ->
  Emulator.find_emulator_apex_folder (Apex.tool_dir_exists T)
    remove_vendor_name_from_filename paths target_out_path file_path fs1
  = (fs1, Raise (TypeError "join() argument must be str, bytes, or os.PathLike object, not 'NoneType'"))
  /\ Apex.handle_apex_modules
       (Emulator.with_emulator_folders T remove_vendor_name_from_filename paths)
       (Some cfg) file_path target_out_path fs
     = (fs1, Ok (false, "Unexpected error while handling APEX modules: "
                        +:+ "join() argument must be str, bytes, or os.PathLike object, not 'NoneType'")).
Proof.
  intros Hbackup Hvendor Hroot Hmatch.
  assert (Hfind :
    Emulator.find_emulator_apex_folder (Apex.tool_dir_exists T)
      remove_vendor_name_from_filename paths target_out_path file_path fs1
    = (fs1, Raise (TypeError "join() argument must be str, bytes, or os.PathLike object, not 'NoneType'"))).
  { unfold Emulator.find_emulator_apex_folder,
      Emulator.get_apex_build_intermediate_folder, Effects.bind, Effects.lift,
      Effects.read.
    rewrite Hvendor. cbv beta iota zeta. rewrite Hroot. cbv beta iota zeta.
    unfold Effects.ret. rewrite Hmatch. reflexivity. }
  split; [exact Hfind|].
  unfold Apex.handle_apex_modules.
  rewrite (ContainerFacts.bind_step _ _ _ _ _ Hbackup). destruct backup as [out org].
  unfold Effects.try_except.
  rewrite (ContainerFacts.bind_raise _ _ _ _ _ Hfind). reflexivity.
Qed.

(** The table has no folder for the container [com.android.foo]. *)
Lemma unmapped_container_fails_the_merge_witness :
  Emulator.find_emulator_apex_folder (Apex.tool_dir_exists Scenarios.tools_signing_fails)
    Ok Emulator.two_folders "out/" InjectionScenarios.container_src
    (<[InjectionScenarios.container_src +:+ ".original_apex" := [Byte.x50; Byte.x4b]]>
       InjectionScenarios.fs_container)
  = (<[InjectionScenarios.container_src +:+ ".original_apex" := [Byte.x50; Byte.x4b]]>
       InjectionScenarios.fs_container,
     Raise (TypeError "join() argument must be str, bytes, or os.PathLike object, not 'NoneType'"))
  /\ Apex.handle_apex_modules
       (Emulator.with_emulator_folders Scenarios.tools_signing_fails Ok
          Emulator.two_folders)
       (Some Scenarios.merge_config) InjectionScenarios.container_src "out/"
       InjectionScenarios.fs_container
     = (<[InjectionScenarios.container_src +:+ ".original_apex"
          := [Byte.x50; Byte.x4b]]> InjectionScenarios.fs_container,
        Ok (false, "Unexpected error while handling APEX modules: "
                   +:+ "join() argument must be str, bytes, or os.PathLike object, not 'NoneType'")).
Proof.
  apply (unmapped_container_fails_the_merge Scenarios.tools_signing_fails Ok
           Emulator.two_folders Scenarios.merge_config InjectionScenarios.container_src
           "out/" "com.android.foo.apex" InjectionScenarios.fs_container
           (<[InjectionScenarios.container_src +:+ ".original_apex"
              := [Byte.x50; Byte.x4b]]> InjectionScenarios.fs_container)
           (Apex.prepare_apex_out_file InjectionScenarios.container_src,
            InjectionScenarios.container_src +:+ ".original_apex"));
    vm_compute; reflexivity.
Defined.

(** X27. The name of a container file with [mediaprovider] or [swcodec]
    in it never gets the emulator folder of the key [media]: the search
    gives what it gives for the table without that key. *)
Theorem media_folder_is_not_for_its_relatives
        (paths : list (string * string)) (filename_no_vendor : string) :
  PyStr.contains "mediaprovider" (Emulator.without_tzdata_version filename_no_vendor)
  || PyStr.contains "swcodec" (Emulator.without_tzdata_version filename_no_vendor)
  = true ->
  Emulator.get_match_existing_emulator_folders paths filename_no_vendor
  = Emulator.get_match_existing_emulator_folders
      (List.filter (fun entry => negb (String.eqb (fst entry) "media")) paths)
      filename_no_vendor.
Proof.
  intros H. unfold Emulator.get_match_existing_emulator_folders.
  induction paths as [|[key folder] rest IH]; [reflexivity|].
  cbn [Emulator.first_matching_folder List.filter fst].
  destruct (String.eqb key "media") eqn:Hkey; cbn [negb andb].
  - rewrite H, IH. destruct (PyStr.contains key _); reflexivity.
  - cbn [Emulator.first_matching_folder]. rewrite Hkey, IH. reflexivity.
Qed.

(** The software codecs of the media container. *)
Lemma media_folder_is_not_for_its_relatives_witness :
  Emulator.get_match_existing_emulator_folders Emulator.two_folders
    "com.android.media.swcodec"
  = Emulator.get_match_existing_emulator_folders
      (List.filter (fun entry => negb (String.eqb (fst entry) "media"))
                   Emulator.two_folders)
      "com.android.media.swcodec".
Proof.
  apply (media_folder_is_not_for_its_relatives Emulator.two_folders
           "com.android.media.swcodec").
  reflexivity.
Defined.

(** * Properties of the build *)

Module BuildFacts.
Import PyStr Build StringFacts SubstringFacts.

Lemma startswith_cancel (a x y : string) :
  startswith (a +:+ x) (a +:+ y) = startswith x y.
Proof.
  induction a as [|c a IH]; [reflexivity|].
  rewrite !append_cons. cbn [startswith]. rewrite Ascii.eqb_refl. exact IH.
Qed.

Lemma endswith_cons (suffix : string) (d : ascii) (s : string) :
  endswith suffix (String d s) = String.eqb (String d s) suffix || endswith suffix s.
Proof. reflexivity. Qed.

Lemma append_not_empty (a : string) (c : ascii) (b : string) :
  String.eqb (a +:+ String c b) "" = false.
Proof. destruct a; reflexivity. Qed.

Lemma endswith_slash_append (a : string) (c : ascii) (b : string) :
  endswith "/" (a +:+ String c b) = endswith "/" (String c b).
Proof.
  induction a as [|d a IH]; [reflexivity|].
  rewrite append_cons, (endswith_cons "/" d (a +:+ String c b)), IH.
  cbn [String.eqb]. rewrite append_not_empty.
  destruct (Ascii.eqb d "/"); reflexivity.
Qed.

(** The join of a root with a slash at its end and a relative path. *)
Lemma path_join_root (aosp_path relative : string) :
  endswith "/" aosp_path = true -> startswith "/" relative = false ->
  path_join aosp_path relative = aosp_path +:+ relative.
Proof.
  intros Hroot Hrel. unfold path_join. rewrite Hrel, Hroot, orb_true_r. reflexivity.
Qed.

(** The join of a root, a directory below it and a relative path. *)
Lemma path_join_twice (aosp_path : string) (c : ascii) (directory relative : string) :
  endswith "/" aosp_path = true ->
  startswith "/" (String c directory) = false ->
  endswith "/" (String c directory) = false ->
  startswith "/" relative = false ->
  path_join (path_join aosp_path (String c directory)) relative
  = aosp_path +:+ (String c directory +:+ "/" +:+ relative).
Proof.
  intros Hroot Hdir Hend Hrel.
  rewrite (path_join_root aosp_path) by assumption.
  unfold path_join. rewrite Hrel, append_not_empty, endswith_slash_append, Hend.
  cbn [orb]. rewrite append_assoc. reflexivity.
Qed.

End BuildFacts.

(** X28. [get_base_filename] never returns [handheld_system_ext.mk]: a
    name with [handheld_system_ext] in it has [handheld_system] in it, and
    that branch comes first. Every name of [META_BUILD_FILENAMES] has a
    base file name, though. *)
Theorem handheld_system_ext_is_never_chosen :
  (forall meta_build_filename,
     Build.get_base_filename meta_build_filename
     <> Ok Build.BASE_HANDHELD_SYSTEM_EXE_FILE_NAME)
  /\ Forall (fun meta_build_filename =>
               is_ok (Build.get_base_filename meta_build_filename) = true)
            Build.META_BUILD_FILENAMES.
Proof.
  split.
  - intros name. unfold Build.get_base_filename.
    destruct (PyStr.contains "build_product" name); [discriminate|].
    destruct (PyStr.contains "build_vendor" name); [discriminate|].
    destruct (PyStr.contains "build_system_ext" name); [discriminate|].
    destruct (PyStr.contains "build_system" name); [discriminate|].
    destruct (PyStr.contains "handheld_system" name) eqn:Hs; [discriminate|].
    destruct (PyStr.contains "handheld_system_ext" name) eqn:Hext.
    + apply (SubstringFacts.contains_prefix "handheld_system" "_ext") in Hext.
      congruence.
    + destruct (PyStr.contains "handheld_vendor" name); [discriminate|].
      destruct (PyStr.contains "handheld_product" name); discriminate.
  - repeat constructor.
Qed.

(** X29. An entry of the override table of the direct injection leads
    into the output tree of the run ([get_target_out_path] of the lunch
    target) for two of the four supported lunch targets only: for
    [sdk_phone_x86_64-userdebug] and [sdk_phone64_arm64-ap2a-userdebug]
    the target of the injection lies in the product directory of another
    lunch target. *)
Theorem override_target_leaves_the_output_tree
        (dc : Direct.DirectConfig)
        (aosp_path lunch_target target_file_injection_path overwrite out : string) :
  In lunch_target Build.SUPPORTED_LUNCH_TARGETS ->
  PyStr.endswith "/" aosp_path = true ->
  Direct.DIRECT_INJECTION_TARGET_PATH_OVERWRITE dc
    !! PyStr.basename target_file_injection_path = Some overwrite ->
  PyStr.startswith "/" overwrite = false ->
  Build.get_target_out_path aosp_path lunch_target = Ok out ->
  PyStr.startswith out
    (Direct.effective_target dc aosp_path lunch_target target_file_injection_path)
  = Build.override_in_output_tree lunch_target.
Proof.
  intros Hin Hroot Hentry Hrel Hout.
  unfold Direct.effective_target. rewrite Hentry.
  cbn in Hin. destruct Hin as [<-|[<-|[<-|[<-|[]]]]].
  - change (PyStr.contains "phone64" "sdk_phone_x86_64-userdebug") with false.
    change (Build.get_target_out_path aosp_path "sdk_phone_x86_64-userdebug")
      with (@Ok string (PyStr.path_join aosp_path Build.AOSP_BUILD_OUT_SDK_x86_64_PATH))
      in Hout.
    injection Hout as <-.
    rewrite BuildFacts.path_join_twice, BuildFacts.path_join_root,
      BuildFacts.startswith_cancel by (assumption || reflexivity).
    vm_compute. reflexivity.
  - change (PyStr.contains "phone64" "sdk_phone_arm64-userdebug") with false.
    change (Build.get_target_out_path aosp_path "sdk_phone_arm64-userdebug")
      with (@Ok string (PyStr.path_join aosp_path Build.AOSP_BUILD_OUT_SDK_ARM64_PATH))
      in Hout.
    injection Hout as <-.
    rewrite BuildFacts.path_join_twice, BuildFacts.path_join_root,
      BuildFacts.startswith_cancel by (assumption || reflexivity).
    vm_compute. reflexivity.
  - change (PyStr.contains "phone64" "sdk_phone64_arm64-userdebug") with true.
    change (Build.get_target_out_path aosp_path "sdk_phone64_arm64-userdebug")
      with (@Ok string (PyStr.path_join aosp_path
                          Build.AOSP_BUILD_OUT_SDK_ARM64_x64_PATH)) in Hout.
    injection Hout as <-.
    rewrite BuildFacts.path_join_twice, BuildFacts.path_join_root,
      BuildFacts.startswith_cancel by (assumption || reflexivity).
    vm_compute. reflexivity.
  - change (PyStr.contains "phone64" "sdk_phone64_arm64-ap2a-userdebug") with true.
    change (Build.get_target_out_path aosp_path "sdk_phone64_arm64-ap2a-userdebug")
      with (@Ok string (PyStr.path_join aosp_path
                          Build.AOSP_BUILD_OUT_SDK_ARM64_x64_PATH_A14)) in Hout.
    injection Hout as <-.
    rewrite BuildFacts.path_join_twice, BuildFacts.path_join_root,
      BuildFacts.startswith_cancel by (assumption || reflexivity).
    vm_compute. reflexivity.
Qed.

(** The override of a library in a build of AOSP 14. *)
Lemma override_target_leaves_the_output_tree_witness :
  Build.get_target_out_path "/aosp/" "sdk_phone64_arm64-ap2a-userdebug"
  = Ok "/aosp/out/target/product/emu64a/"
  /\ Direct.effective_target Build.one_overwrite "/aosp/"
       "sdk_phone64_arm64-ap2a-userdebug" Scenarios.libfoo_target
     = "/aosp/out/target/product/emulator64_arm64/system/lib64/hw/libfoo.so"
  /\ PyStr.startswith "/aosp/out/target/product/emu64a/"
       (Direct.effective_target Build.one_overwrite "/aosp/"
          "sdk_phone64_arm64-ap2a-userdebug" Scenarios.libfoo_target)
     = Build.override_in_output_tree "sdk_phone64_arm64-ap2a-userdebug".
Proof.
  split; [reflexivity|]. split; [vm_compute; reflexivity|].
  apply (override_target_leaves_the_output_tree Build.one_overwrite "/aosp/"
           "sdk_phone64_arm64-ap2a-userdebug" Scenarios.libfoo_target
           "system/lib64/hw/libfoo.so" "/aosp/out/target/product/emu64a/").
  - simpl. auto.
  - reflexivity.
  - vm_compute. reflexivity.
  - reflexivity.
  - reflexivity.
Defined.

(** * Properties of the extraction of a container file *)

Module ShellTests.
Import Shell.

Example quiet_failure_is_success :
  snd (execute_shell_command run_with_warning "deapexer" "/aosp/" ∅)
  = (true, "is_success: True result.returncode: 1, stdout:  | error: "
           +:+ "WARNING: payload is not aligned").
Proof. vm_compute. reflexivity. Qed.

End ShellTests.

(** X30. What decides about the extraction of a container file is the
    error stream, not the exit code: when the extractor is in place and
    the error stream of its run (stripped, in lower case) does not hold
    [error], the extraction is reported as successful whatever the exit
    code of the run, after that single run. *)
Theorem extraction_succeeds_without_error_on_stderr
        (run : Shell.Subprocess)
        (aosp_path apex_file_path output_dir_path lunch_target deapexer : string)
        (fs fs' : FS) (returncode : Z) (stdout stderr : string) :
  Shell.deapexer_tool_path aosp_path fs = Some deapexer ->
  run (Shell.extract_command aosp_path lunch_target deapexer apex_file_path
                             output_dir_path) aosp_path fs
  = (fs', (returncode, stdout, stderr)) ->
  PyStr.contains "error" (PyStr.lower (PyStr.strip stderr)) = false ->
  exists message,
    Shell.extract_apex_file run aosp_path apex_file_path output_dir_path lunch_target fs
    = (fs', (true, message)).
Proof.
  intros Htool Hrun Hquiet.
  unfold Shell.extract_apex_file. rewrite Htool. cbv zeta.
  unfold Shell.execute_shell_command at 1. rewrite Hrun, Hquiet.
  rewrite orb_true_r. cbn [negb]. eexists. reflexivity.
Qed.

(** The extractor exits with code 1 and a warning: one run, success. *)
Lemma extraction_succeeds_without_error_on_stderr_witness :
  exists message,
    Shell.extract_apex_file Shell.run_with_warning "/aosp/" Scenarios.media_apex
      "tmp/extract" "sdk_phone_arm64-userdebug" Shell.fs_deapexer
    = (<["tmp/run1" := []]> Shell.fs_deapexer, (true, message)).
Proof.
  apply (extraction_succeeds_without_error_on_stderr Shell.run_with_warning "/aosp/"
           Scenarios.media_apex "tmp/extract" "sdk_phone_arm64-userdebug"
           Shell.deapexer Shell.fs_deapexer (<["tmp/run1" := []]> Shell.fs_deapexer)
           1%Z "" "WARNING: payload is not aligned ");
    vm_compute; reflexivity.
Defined.
